(** * Chat adapters ("pipes") for the Anthropic and OpenAI HTTP APIs

    A shallow embedding of [Function_Anthropic4.py] and
    [Function_openAI_3.py], followed by the properties of their request
    translation and response normalisation.

    Layout:
    - [Str]: the [str] methods the adapters call;
    - [Py]: Python values (what a JSON document or a request body is made
      of), exceptions, and the subscript / [get] / [in] / truth-value
      operations with the exceptions they raise;
    - [Json]: a reader for JSON text, used to run the stream normaliser on
      concrete lines;
    - [Requests]: the HTTP library seen from the adapters;
    - [Anthropic], [OpenAI]: the two adapters;
    - [Host]: well-formed host requests and how they are laid out as
      dictionaries;
    - [Spec]: the vocabulary the properties are stated in, and the
      requests and responses of the examples;
    - the properties, adapter by adapter. *)

From Stdlib Require Import String Ascii List ZArith QArith Bool Lia Lqa.
From Stdlib Require Import DecimalString.
Import ListNotations.

Local Open Scope list_scope.
Local Open Scope string_scope.
Local Open Scope Z_scope.

(* ===================================================================== *)
(** ** [str] methods *)
(* ===================================================================== *)

(** A Python [str] is a [string]: one [ascii] stands for one character.
    Every method below only compares characters for equality. *)
Module Str.

(** [s.startswith(p)] *)
Fixpoint startswith (p s : string) : bool :=
  match p, s with
  | EmptyString, _ => true
  | String _ _, EmptyString => false
  | String a p', String b s' => Ascii.eqb a b && startswith p' s'
  end.

(** [s.find(c)] for a one-character [c]: the index of the first
    occurrence, [-1] when there is none. *)
Fixpoint find (c : ascii) (s : string) : Z :=
  match s with
  | EmptyString => -1
  | String a s' =>
      if Ascii.eqb a c then 0
      else let k := find c s' in if k <? 0 then -1 else k + 1
  end.

Fixpoint drop (n : nat) (s : string) : string :=
  match n, s with
  | O, _ => s
  | S _, EmptyString => EmptyString
  | S n', String _ s' => drop n' s'
  end.

(** [s[k:]]; a negative [k] counts from the end. *)
Definition slice_from (k : Z) (s : string) : string :=
  if k <? 0
  then drop (Z.to_nat (Z.max 0 (Z.of_nat (String.length s) + k))) s
  else drop (Z.to_nat k) s.

(** [s.split(sep)] for a one-character [sep]. *)
Fixpoint split (sep : ascii) (s : string) : list string :=
  match s with
  | EmptyString => [EmptyString]
  | String a s' =>
      if Ascii.eqb a sep then EmptyString :: split sep s'
      else match split sep s' with
           | h :: t => String a h :: t
           | [] => [String a EmptyString]
           end
  end.

(** [s.split(sep, 1)]: cut at the first [sep] only. *)
Fixpoint split1 (sep : ascii) (s : string) : list string :=
  match s with
  | EmptyString => [EmptyString]
  | String a s' =>
      if Ascii.eqb a sep then [EmptyString; s']
      else match split1 sep s' with
           | h :: t => String a h :: t
           | [] => [String a EmptyString]
           end
  end.

(** Decimal text of an integer, as [str(n)] and [f"{n}"] print it. *)
Definition of_Z (n : Z) : string := NilZero.string_of_int (Z.to_int n).

End Str.

(* ===================================================================== *)
(** ** Python values, exceptions and the operations on values *)
(* ===================================================================== *)

Module Py.

(** A [float] that came from decimal text [m * 10^e], or a non-finite one. *)
Inductive pyfloat : Type :=
  | FDec (m e : Z)
  | FNan
  | FInf (negative : bool).

(** The values a request body or a decoded JSON document is made of.
    A [dict] keeps its items in insertion order. *)
#[warnings="-register-all"]
Inductive value : Type :=
  | VNone
  | VBool (b : bool)
  | VInt (z : Z)
  | VFloat (f : pyfloat)
  | VStr (s : string)
  | VList (l : list value)
  | VDict (d : list (string * value)).

Definition dict := list (string * value).

(** The exception classes that occur, with the part of the class
    hierarchy the [except] clauses look at. *)
Inductive exn_class : Type :=
  | Exception
  | ValueError
  | KeyError
  | IndexError
  | TypeError
  | AttributeError
  | JSONDecodeError       (* json.JSONDecodeError, a ValueError *)
  | RequestException      (* requests.RequestException *)
  | HTTPError.            (* requests.HTTPError, a RequestException *)

Definition exn_class_eqb (a b : exn_class) : bool :=
  match a, b with
  | Exception, Exception | ValueError, ValueError | KeyError, KeyError
  | IndexError, IndexError | TypeError, TypeError
  | AttributeError, AttributeError | JSONDecodeError, JSONDecodeError
  | RequestException, RequestException | HTTPError, HTTPError => true
  | _, _ => false
  end.

Definition subclass (c base : exn_class) : bool :=
  match base with
  | Exception => true
  | ValueError => match c with ValueError | JSONDecodeError => true | _ => false end
  | RequestException => match c with RequestException | HTTPError => true | _ => false end
  | _ => exn_class_eqb c base
  end.

(** An exception: its class and [str(e)]. *)
Record exn : Type := mkExn { cls : exn_class; msg : string }.

Definition isinstance (e : exn) (c : exn_class) : bool := subclass (cls e) c.

Inductive result (A : Type) : Type :=
  | Ok (a : A)
  | Raise (e : exn).
Arguments Ok {A} a.
Arguments Raise {A} e.

Definition bind {A B} (r : result A) (k : A -> result B) : result B :=
  match r with
  | Ok a => k a
  | Raise e => Raise e
  end.

Declare Scope py_scope.
Delimit Scope py_scope with py.
Notation "x <- c ;; k" := (bind c (fun x => k))
  (at level 61, c at next level, right associativity) : py_scope.
Notation "' pat <- c ;; k" := (bind c (fun x => match x with pat => k end))
  (at level 61, pat pattern, c at next level, right associativity) : py_scope.

Definition type_name (v : value) : string :=
  match v with
  | VNone => "NoneType"
  | VBool _ => "bool"
  | VInt _ => "int"
  | VFloat _ => "float"
  | VStr _ => "str"
  | VList _ => "list"
  | VDict _ => "dict"
  end.

Fixpoint lookup (k : string) (d : dict) : option value :=
  match d with
  | [] => None
  | (k', v) :: d' => if String.eqb k k' then Some v else lookup k d'
  end.

(** [d[k] = v] on a dict: an existing key keeps its place. *)
Fixpoint dict_set (k : string) (v : value) (d : dict) : dict :=
  match d with
  | [] => [(k, v)]
  | (k', v') :: d' =>
      if String.eqb k k' then (k, v) :: d' else (k', v') :: dict_set k v d'
  end.

Definition quote (k : string) : string := "'" ++ k ++ "'".

Definition not_subscriptable (v : value) : exn :=
  mkExn TypeError (quote (type_name v) ++ " object is not subscriptable").

(** [v[k]] with a [str] key [k]. *)
Definition getitem (v : value) (k : string) : result value :=
  match v with
  | VDict d =>
      match lookup k d with
      | Some x => Ok x
      | None => Raise (mkExn KeyError (quote k))
      end
  | VList _ =>
      Raise (mkExn TypeError "list indices must be integers or slices, not str")
  | VStr _ =>
      Raise (mkExn TypeError "string indices must be integers, not 'str'")
  | _ => Raise (not_subscriptable v)
  end.

Definition index_in (len i : Z) : option nat :=
  let j := if i <? 0 then len + i else i in
  if (0 <=? j) && (j <? len) then Some (Z.to_nat j) else None.

(** [v[i]] with an [int] index [i]. *)
Definition getitem_int (v : value) (i : Z) : result value :=
  match v with
  | VList l =>
      match index_in (Z.of_nat (List.length l)) i with
      | Some n =>
          match nth_error l n with
          | Some x => Ok x
          | None => Raise (mkExn IndexError "list index out of range")
          end
      | None => Raise (mkExn IndexError "list index out of range")
      end
  | VStr s =>
      match index_in (Z.of_nat (String.length s)) i with
      | Some n =>
          match String.get n s with
          | Some c => Ok (VStr (String c EmptyString))
          | None => Raise (mkExn IndexError "string index out of range")
          end
      | None => Raise (mkExn IndexError "string index out of range")
      end
  | VDict _ => Raise (mkExn KeyError (Str.of_Z i))
  | _ => Raise (not_subscriptable v)
  end.

Definition no_attribute (v : value) (attr : string) : exn :=
  mkExn AttributeError
    (quote (type_name v) ++ " object has no attribute " ++ quote attr).

(** [v.get(k, default)] *)
Definition get (v : value) (k : string) (default : value) : result value :=
  match v with
  | VDict d =>
      match lookup k d with
      | Some x => Ok x
      | None => Ok default
      end
  | _ => Raise (no_attribute v "get")
  end.

(** The receiver of a [str] method call: anything but a [str] has no such
    attribute. *)
Definition str_receiver (v : value) (method : string) : result string :=
  match v with
  | VStr s => Ok s
  | _ => Raise (no_attribute v method)
  end.

(** Is the float zero?  Decimal text [m * 10^e] reads as [0.0] when [m] is
    zero or when the number is at most [2^-1075], half the least positive
    double. *)
Definition float_is_zero (f : pyfloat) : bool :=
  match f with
  | FDec m e =>
      (m =? 0) ||
      ((e <? 0) && (Z.abs m * 2 ^ 1075 <=? 10 ^ (- e)))
  | FNan | FInf _ => false
  end.

(** The truth value of [v] in an [if]. *)
Definition truthy (v : value) : bool :=
  match v with
  | VNone => false
  | VBool b => b
  | VInt z => negb (z =? 0)
  | VFloat f => negb (float_is_zero f)
  | VStr s => negb (String.eqb s EmptyString)
  | VList l => match l with [] => false | _ => true end
  | VDict d => match d with [] => false | _ => true end
  end.

(** [v == s] for a [str] constant [s]. *)
Definition eq_str (v : value) (s : string) : bool :=
  match v with
  | VStr t => String.eqb t s
  | _ => false
  end.

Definition isinstance_list (v : value) : bool :=
  match v with
  | VList _ => true
  | _ => false
  end.

Fixpoint chars (s : string) : list value :=
  match s with
  | EmptyString => []
  | String c s' => VStr (String c EmptyString) :: chars s'
  end.

(** The items a [for] loop over [v] visits. *)
Definition iter (v : value) : result (list value) :=
  match v with
  | VList l => Ok l
  | VStr s => Ok (chars s)
  | VDict d => Ok (map (fun kv => VStr (fst kv)) d)
  | _ => Raise (mkExn TypeError (quote (type_name v) ++ " object is not iterable"))
  end.

(** [len(v)] *)
Definition len (v : value) : result Z :=
  match v with
  | VStr s => Ok (Z.of_nat (String.length s))
  | VList l => Ok (Z.of_nat (List.length l))
  | VDict d => Ok (Z.of_nat (List.length d))
  | _ => Raise (mkExn TypeError
                  ("object of type " ++ quote (type_name v) ++ " has no len()"))
  end.

Fixpoint is_substring (k s : string) : bool :=
  Str.startswith k s ||
  match s with
  | EmptyString => false
  | String _ s' => is_substring k s'
  end.

(** [k in v] for a [str] constant [k]: a key of a dict, an item of a list,
    a substring of a str. *)
Definition contains (k : string) (v : value) : result bool :=
  match v with
  | VDict d => Ok (match lookup k d with Some _ => true | None => false end)
  | VList l => Ok (existsb (fun x => eq_str x k) l)
  | VStr s => Ok (is_substring k s)
  | _ => Raise (mkExn TypeError
                  ("argument of type " ++ quote (type_name v) ++ " is not iterable"))
  end.

End Py.

(* ===================================================================== *)
(** ** Reading JSON text *)
(* ===================================================================== *)

(** [Json.loads] follows [json.loads] on the texts it covers: white space,
    the literals, integers and decimal numbers, strings with their escapes
    (a [\u] escape below [0100]), arrays and objects (a repeated key keeps
    its last value).  [None] stands for [json.JSONDecodeError].  The
    adapters are stated over an arbitrary reader; this one runs them on
    concrete lines. *)
Module Json.
Import Py.

Definition dquote : ascii := "034"%char.

(** Writes a JSON text with ['] where the text has a double quote. *)
Fixpoint dq (s : string) : string :=
  match s with
  | EmptyString => EmptyString
  | String c s' => String (if Ascii.eqb c "'"%char then dquote else c) (dq s')
  end.

Definition is_ws (c : ascii) : bool :=
  let n := nat_of_ascii c in
  (n =? 32)%nat || (n =? 9)%nat || (n =? 10)%nat || (n =? 13)%nat.

Fixpoint skip_ws (s : string) : string :=
  match s with
  | String c s' => if is_ws c then skip_ws s' else s
  | EmptyString => s
  end.

Definition digit (c : ascii) : option Z :=
  let n := Z.of_nat (nat_of_ascii c) in
  if (48 <=? n) && (n <=? 57) then Some (n - 48) else None.

Definition hex_digit (c : ascii) : option Z :=
  let n := Z.of_nat (nat_of_ascii c) in
  if (48 <=? n) && (n <=? 57) then Some (n - 48)
  else if (65 <=? n) && (n <=? 70) then Some (n - 55)
  else if (97 <=? n) && (n <=? 102) then Some (n - 87)
  else None.

(** A maximal run of digits: its value after [acc], how many were read,
    and the rest of the text. *)
Fixpoint digits (s : string) (acc : Z) (count : Z) : Z * Z * string :=
  match s with
  | String c s' =>
      match digit c with
      | Some d => digits s' (10 * acc + d) (count + 1)
      | None => (acc, count, s)
      end
  | EmptyString => (acc, count, s)
  end.

(** The integer part: [0], or a run of digits that does not start
    with [0]. *)
Definition int_part (s : string) : option (Z * string) :=
  match s with
  | String c s' =>
      match digit c with
      | Some 0 => Some (0, s')
      | Some d => let '(n, _, r) := digits s' d 1 in Some (n, r)
      | None => None
      end
  | EmptyString => None
  end.

(** [.digits], when present: the mantissa with the fraction digits
    appended and their number. *)
Definition frac_part (n : Z) (s : string) : option (Z * Z * string) :=
  match s with
  | String "."%char s' =>
      let '(m, k, r) := digits s' n 0 in
      if 0 <? k then Some (m, k, r) else None
  | _ => None
  end.

(** [e] or [E], an optional sign and digits, when present. *)
Definition exp_part (s : string) : option (Z * string) :=
  match s with
  | String c s' =>
      if Ascii.eqb c "e"%char || Ascii.eqb c "E"%char then
        let '(sign, s2) :=
          match s' with
          | String "+"%char t => (1, t)
          | String "-"%char t => (-1, t)
          | _ => (1, s')
          end in
        let '(x, k, r) := digits s2 0 0 in
        if 0 <? k then Some (sign * x, r) else None
      else None
  | EmptyString => None
  end.

(** A number without its sign; [sign] is [1] or [-1]. *)
Definition number (sign : Z) (s : string) : option (value * string) :=
  match int_part s with
  | None => None
  | Some (n, r) =>
      match frac_part n r, exp_part r with
      | None, None => Some (VInt (sign * n), r)
      | None, Some (x, r') => Some (VFloat (FDec (sign * n) x), r')
      | Some (m, k, r1), _ =>
          match exp_part r1 with
          | Some (x, r2) => Some (VFloat (FDec (sign * m) (x - k)), r2)
          | None => Some (VFloat (FDec (sign * m) (- k)), r1)
          end
      end
  end.

Definition hex4 (s : string) : option (Z * string) :=
  match s with
  | String a (String b (String c (String d r))) =>
      match hex_digit a, hex_digit b, hex_digit c, hex_digit d with
      | Some x, Some y, Some z, Some w =>
          Some (((x * 16 + y) * 16 + z) * 16 + w, r)
      | _, _, _, _ => None
      end
  | _ => None
  end.

Definition char_of (n : Z) : ascii := ascii_of_nat (Z.to_nat n).

(** The characters of a string after its opening quote, up to the closing
    one. *)
Fixpoint string_body (fuel : nat) (s : string) : option (string * string) :=
  match fuel with
  | O => None
  | S fuel' =>
      match s with
      | EmptyString => None
      | String c s' =>
          if Ascii.eqb c dquote then Some (EmptyString, s')
          else if Ascii.eqb c "\"%char then
            match s' with
            | String e r =>
                let simple (x : ascii) :=
                  match string_body fuel' r with
                  | Some (t, r') => Some (String x t, r')
                  | None => None
                  end in
                if Ascii.eqb e dquote then simple dquote
                else if Ascii.eqb e "\"%char then simple "\"%char
                else if Ascii.eqb e "/"%char then simple "/"%char
                else if Ascii.eqb e "b"%char then simple (char_of 8)
                else if Ascii.eqb e "f"%char then simple (char_of 12)
                else if Ascii.eqb e "n"%char then simple (char_of 10)
                else if Ascii.eqb e "r"%char then simple (char_of 13)
                else if Ascii.eqb e "t"%char then simple (char_of 9)
                else if Ascii.eqb e "u"%char then
                  match hex4 r with
                  | Some (n, r') =>
                      if n <? 256 then
                        match string_body fuel' r' with
                        | Some (t, r2) => Some (String (char_of n) t, r2)
                        | None => None
                        end
                      else None
                  | None => None
                  end
                else None
            | EmptyString => None
            end
          else if (nat_of_ascii c <? 32)%nat then None
          else
            match string_body fuel' s' with
            | Some (t, r) => Some (String c t, r)
            | None => None
            end
      end
  end.

Definition json_string (s : string) : option (string * string) :=
  string_body (S (String.length s)) s.

(** One value at the head of [s] (no white space before it), the items of
    an array after a first value position, and the members of an object
    from a key position. *)
Fixpoint scan (fuel : nat) (s : string) : option (value * string) :=
  match fuel with
  | O => None
  | S fuel' =>
      match s with
      | String c r =>
          if Ascii.eqb c dquote then
            match json_string r with
            | Some (t, r') => Some (VStr t, r')
            | None => None
            end
          else if Ascii.eqb c "{"%char then
            match skip_ws r with
            | String "}"%char r' => Some (VDict [], r')
            | r' =>
                match members fuel' r' [] with
                | Some (d, r2) => Some (VDict d, r2)
                | None => None
                end
            end
          else if Ascii.eqb c "["%char then
            match skip_ws r with
            | String "]"%char r' => Some (VList [], r')
            | r' =>
                match items fuel' r' with
                | Some (l, r2) => Some (VList l, r2)
                | None => None
                end
            end
          else if Str.startswith "null" s then Some (VNone, Str.drop 4 s)
          else if Str.startswith "true" s then Some (VBool true, Str.drop 4 s)
          else if Str.startswith "false" s then Some (VBool false, Str.drop 5 s)
          else if Str.startswith "NaN" s then Some (VFloat FNan, Str.drop 3 s)
          else if Str.startswith "Infinity" s
          then Some (VFloat (FInf false), Str.drop 8 s)
          else if Str.startswith "-Infinity" s
          then Some (VFloat (FInf true), Str.drop 9 s)
          else if Ascii.eqb c "-"%char then number (-1) r
          else number 1 s
      | EmptyString => None
      end
  end

with items (fuel : nat) (s : string) : option (list value * string) :=
  match fuel with
  | O => None
  | S fuel' =>
      match scan fuel' s with
      | Some (v, r) =>
          match skip_ws r with
          | String "]"%char r' => Some ([v], r')
          | String ","%char r' =>
              match items fuel' (skip_ws r') with
              | Some (l, r2) => Some (v :: l, r2)
              | None => None
              end
          | _ => None
          end
      | None => None
      end
  end

with members (fuel : nat) (s : string) (acc : dict)
  : option (dict * string) :=
  match fuel with
  | O => None
  | S fuel' =>
      match s with
      | String c r =>
          if Ascii.eqb c dquote then
            match json_string r with
            | Some (k, r1) =>
                match skip_ws r1 with
                | String ":"%char r2 =>
                    match scan fuel' (skip_ws r2) with
                    | Some (v, r3) =>
                        let acc' := dict_set k v acc in
                        match skip_ws r3 with
                        | String "}"%char r4 => Some (acc', r4)
                        | String ","%char r4 => members fuel' (skip_ws r4) acc'
                        | _ => None
                        end
                    | None => None
                    end
                | _ => None
                end
            | None => None
            end
          else None
      | EmptyString => None
      end
  end.

(** [json.loads(s)]: one value between optional white space, and nothing
    else. *)
Definition loads (s : string) : option value :=
  let s0 := skip_ws s in
  match scan (2 * String.length s0 + 2) s0 with
  | Some (v, r) =>
      match skip_ws r with
      | EmptyString => Some v
      | _ => None
      end
  | None => None
  end.

End Json.

(* ===================================================================== *)
(** ** The HTTP library, as the adapters see it *)
(* ===================================================================== *)

Module Requests.
Import Py.

(** The arguments of one [requests.post]. *)
Record request : Type := mkRequest {
  url : string;
  headers : list (string * string);
  json : value;
  stream : bool
}.

(** What the adapters read of a [requests.Response].  [lines] is what
    [iter_lines()] gives, each line as the text its bytes decode to (an
    empty line is the empty text); [body_json] is what [json()] returns
    or raises; [response_url] is [response.url], the url of the request
    as [requests] prepared and sent it (percent-encoded where the url the
    caller passed needed it, so not always the caller's text). *)
Record response : Type := mkResponse {
  status_code : Z;
  reason : string;
  text : string;
  body_json : result value;
  lines : list string;
  response_url : string
}.

(** The remote side: a call either raises (a
    [requests.RequestException]: no connection, time-out, ...) or gives a
    response. *)
Definition transport : Type := request -> result response.

(** [response.raise_for_status()] for the response to [req]: which
    statuses raise depends on the response alone, and the message names
    the response's own url, [response.url]. *)
Definition raise_for_status (req : request) (r : response) : result unit :=
  let describe (kind : string) :=
    Str.of_Z (status_code r) ++ " " ++ kind ++ ": " ++ reason r
    ++ " for url: " ++ response_url r in
  if (400 <=? status_code r) && (status_code r <? 500)
  then Raise (mkExn HTTPError (describe "Client Error"))
  else if (500 <=? status_code r) && (status_code r <? 600)
  then Raise (mkExn HTTPError (describe "Server Error"))
  else Ok tt.

(** One record of a [logging] logger. *)
Inductive log_record : Type :=
  | LogError (message : string)
  | LogErrorData (prefix : string) (data : value).

(** What a [pipe] call hands back to the host: a value, a generator that
    has not run yet ([G] holds what it was created with), or an exception
    that leaves the call. *)
Inductive returned (G : Type) : Type :=
  | Return (v : value)
  | ReturnGenerator (g : G)
  | Propagate (e : exn).
Arguments Return {G} v.
Arguments ReturnGenerator {G} g.
Arguments Propagate {G} e.

(** A finished [pipe] call: what it returned, the HTTP calls it made, in
    order, and what it logged. *)
Record outcome (G : Type) : Type := mkOutcome {
  ret : returned G;
  calls : list request;
  log : list log_record
}.
Arguments mkOutcome {G} ret calls log.
Arguments ret {G} o.
Arguments calls {G} o.
Arguments log {G} o.

(** A generator run to its end: the values it yielded, how it ended
    ([None]: exhausted; [Some e]: [e] left the generator), the HTTP calls
    it made and what it logged. *)
Record stream_out : Type := mkStream {
  yields : list value;
  finish : option exn;
  stream_calls : list request;
  stream_log : list log_record
}.

End Requests.

(* ===================================================================== *)
(** ** The Anthropic adapter ([Function_Anthropic4.py]) *)
(* ===================================================================== *)

Module Anthropic.
Import Py Requests.
Local Open Scope py_scope.

Definition MAX_IMAGES_PER_CALL : Z := 5.
Definition MAX_TOTAL_IMAGE_SIZE : Z := 100 * 1024 * 1024.
Definition API_VERSION : string := "2023-06-01".

(** [Pipe.Valves].  The declared default of [MAX_TOTAL_TOKENS] is the text
    ["4000"], which [int] reads as [4000]; the field holds what [int]
    reads. *)
Record Valves : Type := mkValves {
  ANTHROPIC_API_KEY : option string;
  MAX_TOTAL_TOKENS : option Z
}.

(** [Pipe.__init__]: the key comes from the environment. *)
Definition init (getenv_key : option string) : Valves :=
  {| ANTHROPIC_API_KEY :=
       Some (match getenv_key with Some k => k | None => EmptyString end);
     MAX_TOTAL_TOKENS := Some 4000 |}.

Definition key_set (v : Valves) : bool :=
  match ANTHROPIC_API_KEY v with
  | Some k => negb (String.eqb k EmptyString)
  | None => false
  end.

Definition get_anthropic_models : list value :=
  [ VDict [("id", VStr "claude-3-haiku-20240307"); ("name", VStr "claude-3-haiku")];
    VDict [("id", VStr "claude-3-opus-20240229"); ("name", VStr "claude-3-opus")];
    VDict [("id", VStr "claude-3-sonnet-20240229"); ("name", VStr "claude-3-sonnet")];
    VDict [("id", VStr "claude-3-5-sonnet-20240620"); ("name", VStr "claude-3.5-sonnet")] ].

Definition pipes : list value := get_anthropic_models.

Definition unpack_error (got : nat) : exn :=
  mkExn ValueError
    ("not enough values to unpack (expected 2, got "
     ++ Str.of_Z (Z.of_nat got) ++ ")").

Definition list_index (l : list string) (n : nat) : result string :=
  match nth_error l n with
  | Some x => Ok x
  | None => Raise (mkExn IndexError "list index out of range")
  end.

(** [Pipe.process_image] *)
Definition process_image (image_data : value) : result value :=
  image_url <- getitem image_data "image_url" ;;
  u <- getitem image_url "url" ;;
  s <- str_receiver u "startswith" ;;
  if Str.startswith "data:image" s then
    match Str.split1 ","%char s with
    | [mime_type; base64_data] =>
        after_colon <- list_index (Str.split ":"%char mime_type) 1 ;;
        media_type <- list_index (Str.split ";"%char after_colon) 0 ;;
        Ok (VDict [("type", VStr "image");
                   ("source", VDict [("type", VStr "base64");
                                     ("media_type", VStr media_type);
                                     ("data", VStr base64_data)])])
    | l => Raise (unpack_error (List.length l))
    end
  else
    Ok (VDict [("type", VStr "image");
               ("source", VDict [("type", VStr "url"); ("url", u)])]).

(** The loop of [Pipe.extract_system_message], with its two variables. *)
Fixpoint extract_loop (messages : list value)
    (system_message : value) (other_messages : list value)
  : result (value * list value) :=
  match messages with
  | [] => Ok (system_message, other_messages)
  | message :: rest =>
      role <- getitem message "role" ;;
      if eq_str role "system" then
        content <- getitem message "content" ;;
        extract_loop rest content other_messages
      else
        extract_loop rest system_message (other_messages ++ [message])%list
  end.

(** [Pipe.extract_system_message] *)
Definition extract_system_message (messages : value)
  : result (value * list value) :=
  ms <- iter messages ;;
  extract_loop ms VNone [].

(** The two counters of [pipe].  [total_image_size] is a sum of quarters:
    every value it takes is a multiple of [1/4] far below [2^53], where
    the arithmetic of [float] is exact, so a rational holds it. *)
Record counters : Type := mkCounters {
  image_count : Z;
  total_image_size : Q
}.

Definition Qgtb (x y : Q) : bool := negb (Qle_bool x y).

Definition image_limit_error : exn :=
  mkExn ValueError
    ("Maximum of " ++ Str.of_Z MAX_IMAGES_PER_CALL
     ++ " images per API call exceeded").

Definition image_size_error : exn :=
  mkExn ValueError "Image size exceeds maximum allowed size per image".

(** The quotient printed in the message is the float [100.0]. *)
Definition total_size_error : exn :=
  mkExn ValueError
    ("Total size of images exceeds "
     ++ Str.of_Z (MAX_TOTAL_IMAGE_SIZE / (1024 * 1024)) ++ ".0 MB limit").

(** [len(data) * 3 / 4] *)
Definition estimate (n : Z) : Q := (inject_Z n * 3 / 4)%Q.

Definition per_image_cap : Q :=
  (inject_Z MAX_TOTAL_IMAGE_SIZE / inject_Z MAX_IMAGES_PER_CALL)%Q.

(** One turn of the loop over the parts of a message (lines 96-130):
    the counters and [processed_content] before and after [item]. *)
Definition item_step (st : counters * list value) (item : value)
  : result (counters * list value) :=
  let '(c, processed_content) := st in
  ty <- getitem item "type" ;;
  if eq_str ty "text" then
    t <- getitem item "text" ;;
    Ok (c, (processed_content
             ++ [VDict [("type", VStr "text"); ("text", t)]])%list)
  else if eq_str ty "image_url" then
    if image_count c >=? MAX_IMAGES_PER_CALL then Raise image_limit_error
    else
      processed_image <- process_image item ;;
      let processed_content := (processed_content ++ [processed_image])%list in
      source <- getitem processed_image "source" ;;
      source_type <- getitem source "type" ;;
      image_size <-
        (if eq_str source_type "base64" then
           data <- getitem source "data" ;;
           n <- len data ;;
           let image_size := estimate n in
           if Qgtb image_size per_image_cap then Raise image_size_error
           else Ok image_size
         else Ok 0%Q) ;;
      let total := (total_image_size c + image_size)%Q in
      if Qgtb total (inject_Z MAX_TOTAL_IMAGE_SIZE) then Raise total_size_error
      else Ok (mkCounters (image_count c + 1) total, processed_content)
  else Ok (c, processed_content).

(** A [for] loop whose body may raise. *)
Fixpoint for_each {S : Type} (body : S -> value -> result S)
    (st : S) (items : list value) : result S :=
  match items with
  | [] => Ok st
  | x :: rest => st' <- body st x ;; for_each body st' rest
  end.

(** One turn of the loop over the messages (lines 93-138). *)
Definition message_step (st : counters * list value) (message : value)
  : result (counters * list value) :=
  let '(c, processed_messages) := st in
  content <- get message "content" VNone ;;
  '(c', processed_content) <-
    (if isinstance_list content then
       parts <- getitem message "content" ;;
       items <- iter parts ;;
       for_each item_step (c, []) items
     else
       t <- get message "content" (VStr EmptyString) ;;
       Ok (c, [VDict [("type", VStr "text"); ("text", t)]])) ;;
  role <- getitem message "role" ;;
  Ok (c', (processed_messages
           ++ [VDict [("role", role); ("content", VList processed_content)]])%list).

(** The loop over the messages from its start: the translated messages. *)
Definition translate_messages (messages : list value) : result (list value) :=
  '(_, processed_messages) <-
    for_each message_step (mkCounters 0 0%Q, []) messages ;;
  Ok processed_messages.

(** [s[s.find(".") + 1 :]], the model id the vendor knows. *)
Definition vendor_model_id (s : string) : string :=
  Str.slice_from (Str.find "."%char s + 1) s.

Definition int_of_config (x : option Z) : result Z :=
  match x with
  | Some n => Ok n
  | None =>
      Raise (mkExn TypeError
        "int() argument must be a string, a bytes-like object or a real number, not 'NoneType'")
  end.

(** The [payload] dictionary (lines 140-150). *)
Definition build_payload (valves : Valves) (body : value)
    (system_message : value) (processed_messages : list value)
  : result value :=
  model <- getitem body "model" ;;
  m <- str_receiver model "find" ;;
  default_max <- int_of_config (MAX_TOTAL_TOKENS valves) ;;
  max_tokens <- get body "max_tokens" (VInt default_max) ;;
  temperature <- get body "temperature" (VFloat (FDec 8 (-1))) ;;
  top_k <- get body "top_k" (VInt 40) ;;
  top_p <- get body "top_p" (VFloat (FDec 9 (-1))) ;;
  stop <- get body "stop" (VList []) ;;
  stream_flag <- get body "stream" (VBool false) ;;
  Ok (VDict
        ([("model", VStr (vendor_model_id m));
          ("messages", VList processed_messages);
          ("max_tokens", max_tokens);
          ("temperature", temperature);
          ("top_k", top_k);
          ("top_p", top_p);
          ("stop_sequences", stop)]
         ++ (if truthy system_message then [("system", system_message)] else [])
         ++ [("stream", stream_flag)])%list).

Definition missing_key_error : exn :=
  mkExn ValueError
    "ANTHROPIC_API_KEY is not set. Please set it in your environment variables before making API calls.".

Definition api_url : string := "https://api.anthropic.com/v1/messages".

Definition api_headers (valves : Valves) : list (string * string) :=
  [("x-api-key", match ANTHROPIC_API_KEY valves with
                 | Some k => k | None => EmptyString end);
   ("anthropic-version", API_VERSION);
   ("content-type", "application/json")].

(** [pipe] up to the choice between the two response modes (lines 82-160):
    the payload, and whether the caller asked for a stream. *)
Definition translate (valves : Valves) (body : value)
  : result (value * bool) :=
  if negb (key_set valves) then Raise missing_key_error
  else
    messages <- getitem body "messages" ;;
    '(system_message, messages) <- extract_system_message messages ;;
    processed_messages <- translate_messages messages ;;
    payload <- build_payload valves body system_message processed_messages ;;
    stream_flag <- get body "stream" (VBool false) ;;
    Ok (payload, truthy stream_flag).

Definition http_error (r : response) : exn :=
  mkExn Exception
    ("HTTP Error " ++ Str.of_Z (status_code r) ++ ": " ++ text r).

(** [Pipe.non_stream_response], given the response to its [requests.post]. *)
Definition normalize (response : response) : result value :=
  if negb (status_code response =? 200) then Raise (http_error response)
  else
    res <- body_json response ;;
    has <- contains "content" res ;;
    present <-
      (if has then c <- getitem res "content" ;; Ok (truthy c)
       else Ok false) ;;
    if present then
      content <- getitem res "content" ;;
      first <- getitem_int content 0 ;;
      getitem first "text"
    else Ok (VStr EmptyString).

(** [Pipe.non_stream_response] *)
Definition non_stream_response (post : transport) (req : request)
  : result value :=
  response <- post req ;;
  normalize response.

(** The [except] clauses of [pipe] (lines 165-173). *)
Definition on_error {G} (e : exn) (made : list request) : outcome G :=
  if isinstance e RequestException then
    mkOutcome (Return (VStr ("Error: " ++ msg e))) made
              [LogError ("Request error: " ++ msg e)]
  else if isinstance e ValueError then
    mkOutcome (Return (VStr ("Error: " ++ msg e))) made
              [LogError ("Value error: " ++ msg e)]
  else if isinstance e Exception then
    mkOutcome (Return (VStr ("Unexpected error: " ++ msg e))) made
              [LogError ("Unexpected error in pipe method: " ++ msg e)]
  else mkOutcome (Propagate e) made [].

(** [Pipe.pipe].  A generator it returns has not started: its
    [requests.post] happens when the host first asks it for a value. *)
Definition pipe (valves : Valves) (post : transport) (body : value)
  : outcome request :=
  match translate valves body with
  | Raise e => on_error e []
  | Ok (payload, streaming) =>
      if streaming then
        mkOutcome
          (ReturnGenerator (mkRequest api_url (api_headers valves) payload true))
          [] []
      else
        let req := mkRequest api_url (api_headers valves) payload false in
        match non_stream_response post req with
        | Ok v => mkOutcome (Return v) [req] []
        | Raise e => on_error e [req]
        end
  end.

(** *** The stream normaliser *)

Section Stream.

(** [json.loads]; [None] is [json.JSONDecodeError]. *)
Variable json_loads : string -> option value.

(** How one turn of the loop over the lines ends. *)
Inductive control : Type :=
  | Next
  | Break.

(** The loop over the entries of a [message] event (lines 193-195): what
    it yields, and the exception that stopped it, if any. *)
Fixpoint message_texts (contents : list value) : list value * option exn :=
  match contents with
  | [] => ([], None)
  | content :: rest =>
      match getitem content "type" with
      | Raise e => ([], Some e)
      | Ok ty =>
          if eq_str ty "text" then
            match getitem content "text" with
            | Raise e => ([], Some e)
            | Ok t => let '(ys, r) := message_texts rest in (t :: ys, r)
            end
          else message_texts rest
      end
  end.

(** The chain of tests on [data["type"]] (lines 186-195): what it yields
    and how it ends. *)
Definition on_event (data : value) : list value * result control :=
  match getitem data "type" with
  | Raise e => ([], Raise e)
  | Ok ty =>
      if eq_str ty "content_block_start" then
        match (b <- getitem data "content_block" ;; getitem b "text") with
        | Ok t => ([t], Ok Next)
        | Raise e => ([], Raise e)
        end
      else if eq_str ty "content_block_delta" then
        match (d <- getitem data "delta" ;; getitem d "text") with
        | Ok t => ([t], Ok Next)
        | Raise e => ([], Raise e)
        end
      else if eq_str ty "message_stop" then ([], Ok Break)
      else if eq_str ty "message" then
        match (c <- get data "content" (VList []) ;; iter c) with
        | Raise e => ([], Raise e)
        | Ok contents =>
            let '(ys, r) := message_texts contents in
            (ys, match r with None => Ok Next | Some e => Raise e end)
        end
      else ([], Ok Next)
  end.

(** One turn of the loop over the lines (lines 181-200): what it yields,
    what it logs, and how it ends. *)
Definition on_line (line : string)
  : list value * list log_record * result control :=
  if negb (String.eqb line EmptyString) then
    if Str.startswith "data: " line then
      match json_loads (Str.slice_from 6 line) with
      | None =>
          ([], [LogError ("Failed to parse JSON: " ++ line)], Ok Next)
      | Some data =>
          match on_event data with
          | (ys, Ok c) => (ys, [], Ok c)
          | (ys, Raise e) =>
              if isinstance e KeyError then
                (ys, [LogError ("Unexpected data structure: " ++ msg e);
                      LogErrorData "Full data: " data], Ok Next)
              else (ys, [], Raise e)
          end
      end
    else ([], [], Ok Next)
  else ([], [], Ok Next).

(** The loop over the lines, run to its end. *)
Fixpoint stream_lines (lines : list string)
  : list value * list log_record * option exn :=
  match lines with
  | [] => ([], [], None)
  | line :: rest =>
      match on_line line with
      | (ys, lg, Ok Next) =>
          let '(ys', lg', e) := stream_lines rest in
          ((ys ++ ys')%list, (lg ++ lg')%list, e)
      | (ys, lg, Ok Break) => (ys, lg, None)
      | (ys, lg, Raise e) => (ys, lg, Some e)
      end
  end.

(** [Pipe.stream_response], run to its end. *)
Definition stream_response (post : transport) (req : request) : stream_out :=
  match post req with
  | Raise e => mkStream [] (Some e) [req] []
  | Ok response =>
      if negb (status_code response =? 200)
      then mkStream [] (Some (http_error response)) [req] []
      else
        let '(ys, lg, e) := stream_lines (lines response) in
        mkStream ys e [req] lg
  end.

End Stream.

(** The attributes [Pipe.__init__] sets besides the valves. *)
Definition pipe_type : string := "manifold".
Definition pipe_id : string := "anthropic".
Definition pipe_name : string := "anthropic/".

End Anthropic.

(* ===================================================================== *)
(** ** The OpenAI adapter ([Function_openAI_3.py]) *)
(* ===================================================================== *)

Module OpenAI.
Import Py Requests.
Local Open Scope py_scope.

(** [Pipe.Valves] *)
Record Valves : Type := mkValves {
  OPENAI_API_BASE_URL : string;
  OPENAI_API_KEY : string;
  MODEL_FILTER : string;
  NAME_PREFIX : string
}.

(** [Pipe.__init__]: every valve at its declared default. *)
Definition init : Valves :=
  {| OPENAI_API_BASE_URL := "https://api.openai.com/v1";
     OPENAI_API_KEY := EmptyString;
     MODEL_FILTER := "gpt-4o,dall-e";
     NAME_PREFIX := "OPENAI/" |}.

Definition missing_key_error : exn :=
  mkExn Exception "OPENAI_API_KEY not provided by the user.".

Definition api_headers (valves : Valves) : list (string * string) :=
  [("Authorization", "Bearer " ++ OPENAI_API_KEY valves);
   ("Content-Type", "application/json")].

(** [s[s.find(".") + 1 :]], the same expression as in the Anthropic
    adapter. *)
Definition vendor_model_id (s : string) : string :=
  Str.slice_from (Str.find "."%char s + 1) s.

(** [{**body, "model": model_id}] *)
Definition with_model (body : value) (model_id : string) : result value :=
  match body with
  | VDict d => Ok (VDict (dict_set "model" (VStr model_id) d))
  | _ => Raise (mkExn TypeError
                  (quote (type_name body) ++ " object is not a mapping"))
  end.

(** Lines 96-98: the payload. *)
Definition build_payload (body : value) : result value :=
  model <- getitem body "model" ;;
  m <- str_receiver model "find" ;;
  with_model body (vendor_model_id m).

(** The [except Exception] clause of [pipe] (lines 117-118). *)
Definition on_error {G} (e : exn) (made : list request) : outcome G :=
  if isinstance e Exception
  then mkOutcome (Return (VStr ("Error: " ++ msg e))) made []
  else mkOutcome (Propagate e) made [].

(** [Pipe.pipe]; what it prints is left out.  The key test and the payload
    come before the [try]. *)
Definition pipe (valves : Valves) (post : transport) (body user : value)
  : outcome response :=
  if String.eqb (OPENAI_API_KEY valves) EmptyString
  then mkOutcome (Propagate missing_key_error) [] []
  else
    match build_payload body with
    | Raise e => mkOutcome (Propagate e) [] []
    | Ok payload =>
        let req :=
          mkRequest (OPENAI_API_BASE_URL valves ++ "/chat/completions")
                    (api_headers valves) payload true in
        let in_try :=
          response <- post req ;;
          _ <- raise_for_status req response ;;
          stream_flag <- get body "stream" (VBool false) ;;
          if truthy stream_flag then Ok (ReturnGenerator response)
          else (v <- body_json response ;; Ok (Return v)) in
        match in_try with
        | Ok r => mkOutcome r [req] []
        | Raise e => on_error e [req]
        end
    end.

(** [Pipe._streaming_response], run to its end: every non-empty line. *)
Definition _streaming_response (response : response) : list value :=
  map VStr
      (filter (fun line => negb (String.eqb line EmptyString)) (lines response)).

(** *** The model lister *)

Section Lister.

(** [str(v)] for a value [v] that is not a [str], as an f-string prints
    it. *)
Variable str_of : value -> string.

(** [f"{v}"] *)
Definition fstring (v : value) : string :=
  match v with
  | VStr s => s
  | _ => str_of v
  end.

(** [any(model["id"].startswith(prefix) for prefix in filter_prefixes)] *)
Fixpoint any_prefix (model : value) (prefixes : list string) : result bool :=
  match prefixes with
  | [] => Ok false
  | prefix :: rest =>
      id <- getitem model "id" ;;
      s <- str_receiver id "startswith" ;;
      if Str.startswith prefix s then Ok true else any_prefix model rest
  end.

(** What the list comprehension (lines 55-62) adds for one [model]. *)
Definition listed_model (valves : Valves) (prefixes : list string)
    (model : value) : result (list value) :=
  keep <- any_prefix model prefixes ;;
  if keep then
    id <- getitem model "id" ;;
    has_name <- contains "name" model ;;
    shown <- (if has_name then getitem model "name" else getitem model "id") ;;
    Ok [VDict [("id", id);
               ("name", VStr (NAME_PREFIX valves ++ fstring shown))]]
  else Ok [].

(** The list comprehension over [models["data"]]. *)
Fixpoint filtered_models (valves : Valves) (prefixes : list string)
    (models : list value) : result (list value) :=
  match models with
  | [] => Ok []
  | model :: rest =>
      entry <- listed_model valves prefixes model ;;
      entries <- filtered_models valves prefixes rest ;;
      Ok (entry ++ entries)%list
  end.

Definition fetch_failed : value :=
  VList [VDict [("id", VStr "error");
                ("name", VStr "Could not fetch models from OpenAI, please update the API Key in the valves.")]].

Definition no_global_key : value :=
  VList [VDict [("id", VStr "error");
                ("name", VStr "Global API Key not provided.")]].

(** The [requests.get] of [pipes]: a GET carries no body. *)
Definition models_request (valves : Valves) : request :=
  mkRequest (OPENAI_API_BASE_URL valves ++ "/models") (api_headers valves)
            VNone false.

(** The [try] block of [pipes] (lines 41-64), given the answer to its
    [requests.get]. *)
Definition list_models (valves : Valves) (get : transport) : result value :=
  response <- get (models_request valves) ;;
  _ <- raise_for_status (models_request valves) response ;;
  models <- body_json response ;;
  let filter_prefixes := Str.split ","%char (MODEL_FILTER valves) in
  data <- getitem models "data" ;;
  catalog <- iter data ;;
  entries <- filtered_models valves filter_prefixes catalog ;;
  Ok (VList entries).

(** [Pipe.pipes]; what it prints is left out. *)
Definition pipes (valves : Valves) (get : transport) : outcome unit :=
  if negb (String.eqb (OPENAI_API_KEY valves) EmptyString) then
    match list_models valves get with
    | Ok v => mkOutcome (Return v) [models_request valves] []
    | Raise e =>
        if isinstance e Exception
        then mkOutcome (Return fetch_failed) [models_request valves] []
        else mkOutcome (Propagate e) [models_request valves] []
    end
  else mkOutcome (Return no_global_key) [] [].

End Lister.

End OpenAI.

(* ===================================================================== *)
(** ** Well-formed host requests *)
(* ===================================================================== *)

(** The host's messages as the data model of the specification describes
    them, and the dictionaries that carry them. *)
Module Host.
Import Py.

Inductive Role : Type :=
  | System
  | User
  | Assistant.

Definition role_name (r : Role) : string :=
  match r with
  | System => "system"
  | User => "user"
  | Assistant => "assistant"
  end.

Inductive ContentPart : Type :=
  | TextPart (text : string)
  | ImageRef (url : string).

Inductive Content : Type :=
  | Plain (text : string)
  | Parts (parts : list ContentPart).

Record ChatMessage : Type := mkMessage {
  role : Role;
  content : Content
}.

Definition part_dict (p : ContentPart) : value :=
  match p with
  | TextPart t => VDict [("type", VStr "text"); ("text", VStr t)]
  | ImageRef u =>
      VDict [("type", VStr "image_url");
             ("image_url", VDict [("url", VStr u)])]
  end.

Definition content_value (c : Content) : value :=
  match c with
  | Plain t => VStr t
  | Parts ps => VList (map part_dict ps)
  end.

Definition message_dict (m : ChatMessage) : value :=
  VDict [("role", VStr (role_name (role m)));
         ("content", content_value (content m))].

(** A request body: the model id, the messages, and whatever sampling
    options the caller supplies. *)
Definition body_dict (model : string) (messages : list ChatMessage)
    (options : dict) : value :=
  VDict (("model", VStr model)
         :: ("messages", VList (map message_dict messages))
         :: options).

Definition is_system (m : ChatMessage) : bool :=
  match role m with
  | System => true
  | _ => false
  end.

Definition image_urls_of (c : Content) : list string :=
  match c with
  | Plain _ => []
  | Parts ps =>
      flat_map (fun p => match p with
                         | ImageRef u => [u]
                         | TextPart _ => []
                         end) ps
  end.

(** The urls of the image parts of all the messages, in order. *)
Definition all_image_urls (messages : list ChatMessage) : list string :=
  flat_map (fun m => image_urls_of (content m)) messages.

(** The urls of the image parts of the messages that are translated (all
    but the system messages), in order. *)
Definition image_urls (messages : list ChatMessage) : list string :=
  flat_map (fun m => image_urls_of (content m))
           (filter (fun m => negb (is_system m)) messages).

End Host.

(* ===================================================================== *)
(** ** The vocabulary of the specification *)
(* ===================================================================== *)

Module Spec.
Import Py Requests.

(** [c] does not occur in [s]. *)
Definition no_char (c : ascii) (s : string) : Prop :=
  ~ In c (list_ascii_of_string s).

(** A message with role [system]. *)
Definition has_system_role (m : value) : bool :=
  match m with
  | VDict d =>
      match lookup "role" d with
      | Some r => eq_str r "system"
      | None => false
      end
  | _ => false
  end.

Definition content_field (m : value) : value :=
  match m with
  | VDict d =>
      match lookup "content" d with
      | Some c => c
      | None => VNone
      end
  | _ => VNone
  end.

(** A message is a dictionary with a role, and with a content when the
    role is [system]. *)
Definition message_shaped (m : value) : bool :=
  match m with
  | VDict d =>
      match lookup "role" d with
      | Some r =>
          if eq_str r "system"
          then match lookup "content" d with Some _ => true | None => false end
          else true
      | None => false
      end
  | _ => false
  end.

(** The content of the last message with role [system]; [None] when
    there is no such message. *)
Definition last_system_content (messages : list value) : value :=
  List.last (map content_field (filter has_system_role messages)) VNone.

(** The messages that are not system messages, in their order. *)
Definition non_system (messages : list value) : list value :=
  filter (fun m => negb (has_system_role m)) messages.

(** What [response.json()] gives for a body [text]. *)
Definition decode_json (text : string) : result value :=
  match Json.loads text with
  | Some v => Ok v
  | None => Raise (mkExn JSONDecodeError "Expecting value")
  end.

(** A response of the messages endpoint with status 200, body [text]
    and body lines [ls]. *)
Definition ok_response (text : string) (ls : list string) : response :=
  mkResponse 200 "OK" text (decode_json text) ls Anthropic.api_url.

(** The texts of the entries of a complete message: the [text] of every
    entry whose type is [text], in order. *)
Inductive entry_texts : list value -> list value -> Prop :=
  | texts_nil : entry_texts [] []
  | texts_text e t rest ys :
      lookup "type" e = Some (VStr "text") ->
      lookup "text" e = Some t ->
      entry_texts rest ys ->
      entry_texts (VDict e :: rest) (t :: ys)
  | texts_skip e ty rest ys :
      lookup "type" e = Some ty ->
      eq_str ty "text" = false ->
      entry_texts rest ys ->
      entry_texts (VDict e :: rest) ys.

(** The entries of a message up to one that lacks [key]: the texts of the
    entries before it. *)
Inductive entry_lacks : list value -> list value -> string -> Prop :=
  | entry_no_type e rest :
      lookup "type" e = None ->
      entry_lacks (VDict e :: rest) [] "type"
  | entry_no_text e rest :
      lookup "type" e = Some (VStr "text") ->
      lookup "text" e = None ->
      entry_lacks (VDict e :: rest) [] "text"
  | entry_after_text e t rest ys key :
      lookup "type" e = Some (VStr "text") ->
      lookup "text" e = Some t ->
      entry_lacks rest ys key ->
      entry_lacks (VDict e :: rest) (t :: ys) key
  | entry_after_other e ty rest ys key :
      lookup "type" e = Some ty ->
      eq_str ty "text" = false ->
      entry_lacks rest ys key ->
      entry_lacks (VDict e :: rest) ys key.

(** An event dictionary that lacks the field [key] its type calls for. *)
Inductive lacks_field : dict -> string -> Prop :=
  | no_type d :
      lookup "type" d = None ->
      lacks_field d "type"
  | start_no_block d :
      lookup "type" d = Some (VStr "content_block_start") ->
      lookup "content_block" d = None ->
      lacks_field d "content_block"
  | start_no_text d b :
      lookup "type" d = Some (VStr "content_block_start") ->
      lookup "content_block" d = Some (VDict b) ->
      lookup "text" b = None ->
      lacks_field d "text"
  | delta_no_delta d :
      lookup "type" d = Some (VStr "content_block_delta") ->
      lookup "delta" d = None ->
      lacks_field d "delta"
  | delta_no_text d b :
      lookup "type" d = Some (VStr "content_block_delta") ->
      lookup "delta" d = Some (VDict b) ->
      lookup "text" b = None ->
      lacks_field d "text".

(** The event types the normaliser tells apart. *)
Definition handled_type (ty : value) : bool :=
  eq_str ty "content_block_start" || eq_str ty "content_block_delta"
  || eq_str ty "message_stop" || eq_str ty "message".

Section Lines.

Variable json_loads : string -> option value.

(** [line] is a [data: ] line whose payload reads as the dictionary [d]. *)
Definition event_of (line : string) (d : dict) : Prop :=
  Str.startswith "data: " line = true
  /\ json_loads (Str.slice_from 6 line) = Some (VDict d).

(** What a line contributes, in the words of the specification, and
    whether the sequence goes on after it. *)
Inductive line_yields : string -> list value -> Anthropic.control -> Prop :=
  | blank_line :
      line_yields EmptyString [] Anthropic.Next
  | unprefixed_line line :
      Str.startswith "data: " line = false ->
      line_yields line [] Anthropic.Next
  | block_start line d b t :
      event_of line d ->
      lookup "type" d = Some (VStr "content_block_start") ->
      lookup "content_block" d = Some (VDict b) ->
      lookup "text" b = Some t ->
      line_yields line [t] Anthropic.Next
  | block_delta line d b t :
      event_of line d ->
      lookup "type" d = Some (VStr "content_block_delta") ->
      lookup "delta" d = Some (VDict b) ->
      lookup "text" b = Some t ->
      line_yields line [t] Anthropic.Next
  | message_stop line d :
      event_of line d ->
      lookup "type" d = Some (VStr "message_stop") ->
      line_yields line [] Anthropic.Break
  | whole_message line d entries ys :
      event_of line d ->
      lookup "type" d = Some (VStr "message") ->
      lookup "content" d = Some (VList entries) ->
      entry_texts entries ys ->
      line_yields line ys Anthropic.Next
  | empty_message line d :
      event_of line d ->
      lookup "type" d = Some (VStr "message") ->
      lookup "content" d = None ->
      line_yields line [] Anthropic.Next
  | other_type line d ty :
      event_of line d ->
      lookup "type" d = Some ty ->
      handled_type ty = false ->
      line_yields line [] Anthropic.Next.


(** A [data: ] line that is not JSON, or whose event lacks a field: what
    it yields all the same (the entries of a message before the one at
    fault; nothing otherwise) and what is logged for it. *)
Inductive malformed : string -> list value -> list log_record -> Prop :=
  | not_json line :
      Str.startswith "data: " line = true ->
      json_loads (Str.slice_from 6 line) = None ->
      malformed line [] [LogError ("Failed to parse JSON: " ++ line)]
  | field_missing line d key :
      event_of line d ->
      lacks_field d key ->
      malformed line []
        [LogError ("Unexpected data structure: " ++ quote key);
         LogErrorData "Full data: " (VDict d)]
  | entry_field_missing line d entries ys key :
      event_of line d ->
      lookup "type" d = Some (VStr "message") ->
      lookup "content" d = Some (VList entries) ->
      entry_lacks entries ys key ->
      malformed line ys
        [LogError ("Unexpected data structure: " ++ quote key);
         LogErrorData "Full data: " (VDict d)].

End Lines.


(** The text after the first comma of [s], when [s] has a comma. *)
Fixpoint after_comma (s : string) : option string :=
  match s with
  | EmptyString => None
  | String c s' => if Ascii.eqb c ","%char then Some s' else after_comma s'
  end.

(** A url that reads as an embedded image. *)
Definition is_data_image (u : string) : bool := Str.startswith "data:image" u.

(** The size estimate of an image url: three quarters of the length of
    its base64 text for an embedded image, zero for any other url. *)
Definition url_estimate (u : string) : Q :=
  if is_data_image u then
    match after_comma u with
    | Some data => Anthropic.estimate (Z.of_nat (String.length data))
    | None => 0%Q
    end
  else 0%Q.

(** An embedded image needs a comma before its base64 text. *)
Definition convertible (u : string) : bool :=
  if is_data_image u
  then match after_comma u with Some _ => true | None => false end
  else true.

(** Convertible, and within the ceiling for one image. *)
Definition acceptable (u : string) : bool :=
  convertible u && Qle_bool (url_estimate u) Anthropic.per_image_cap.

(** The tests an image part goes through, on its url alone. *)
Definition check_image (c : Anthropic.counters) (u : string)
  : result Anthropic.counters :=
  if Anthropic.image_count c >=? Anthropic.MAX_IMAGES_PER_CALL
  then Raise Anthropic.image_limit_error
  else if negb (convertible u) then Raise (Anthropic.unpack_error 1)
  else if Anthropic.Qgtb (url_estimate u) Anthropic.per_image_cap
  then Raise Anthropic.image_size_error
  else
    let total := (Anthropic.total_image_size c + url_estimate u)%Q in
    if Anthropic.Qgtb total (inject_Z Anthropic.MAX_TOTAL_IMAGE_SIZE)
    then Raise Anthropic.total_size_error
    else Ok (Anthropic.mkCounters (Anthropic.image_count c + 1) total).

Fixpoint check_images (c : Anthropic.counters) (urls : list string)
  : result Anthropic.counters :=
  match urls with
  | [] => Ok c
  | u :: rest =>
      match check_image c u with
      | Ok c' => check_images c' rest
      | Raise e => Raise e
      end
  end.

(** The counters stay within what the two ceilings allow: at most five
    images, each at most a fifth of the total ceiling. *)
Definition sound (c : Anthropic.counters) : Prop :=
  0 <= Anthropic.image_count c <= Anthropic.MAX_IMAGES_PER_CALL
  /\ (Anthropic.total_image_size c
      <= inject_Z (Anthropic.image_count c) * Anthropic.per_image_cap)%Q.

(** The source kind of a translated image part. *)
Definition source_kind (img : value) : option string :=
  match getitem img "source" with
  | Ok source =>
      match getitem source "type" with
      | Ok (VStr k) => Some k
      | _ => None
      end
  | Raise _ => None
  end.

(** [s] repeated [2^k] times. *)
Fixpoint doubled (k : nat) (s : string) : string :=
  match k with
  | O => s
  | S k' => doubled k' s ++ doubled k' s
  end.

(** The counters at the start of [pipe]. *)
Definition initial : Anthropic.counters := Anthropic.mkCounters 0 0%Q.

(** A configured adapter, for the examples. *)
Definition test_valves : Anthropic.Valves := Anthropic.init (Some "sk-test").

(** The answer to every call in the examples: status 200 and the body
    [{"content":[{"type":"text","text":"ok"}]}]. *)
Definition test_post : transport :=
  fun _ => Ok (ok_response
                 (Json.dq "{'content':[{'type':'text','text':'ok'}]}") []).

Definition remote_image : Host.ContentPart :=
  Host.ImageRef "https://example.com/a.png".

(** Six image parts over two user messages: four, then two. *)
Definition six_images : list Host.ChatMessage :=
  [Host.mkMessage Host.User
     (Host.Parts [remote_image; remote_image; remote_image; remote_image]);
   Host.mkMessage Host.Assistant (Host.Plain "go on");
   Host.mkMessage Host.User
     (Host.Parts [Host.TextPart "and these"; remote_image; remote_image])].

(** One user message with a text part and an image part. *)
Definition one_image : list Host.ChatMessage :=
  [Host.mkMessage Host.User (Host.Parts [Host.TextPart "look"; remote_image])].

(** A system message with six image parts, then a user message. *)
Definition six_system_images : list Host.ChatMessage :=
  [Host.mkMessage Host.System
     (Host.Parts [remote_image; remote_image; remote_image;
                  remote_image; remote_image; remote_image]);
   Host.mkMessage Host.User (Host.Plain "hi")].

Definition test_model : string := "anthropic.claude-3-opus-20240229".

(** An embedded PNG image with base64 text [data]. *)
Definition embedded (data : string) : string :=
  "data:image/png;base64," ++ data.

(** One user message with six embedded images, all with the base64 text
    [data]. *)
Definition six_embedded (data : string) : list Host.ChatMessage :=
  [Host.mkMessage Host.User
     (Host.Parts (repeat (Host.ImageRef (embedded data)) 6))].

(** A base64 text of 3 * 2^23 characters: its estimate is 18 MiB. *)
Definition base64_18MiB : string := doubled 23 "AAA".

(** The caller's value when there is one, the default otherwise. *)
Definition or_default (supplied : option value) (default : value) : value :=
  match supplied with
  | Some v => v
  | None => default
  end.

(** An empty system message, then a user message. *)
Definition empty_system : list Host.ChatMessage :=
  [Host.mkMessage Host.System (Host.Plain EmptyString);
   Host.mkMessage Host.User (Host.Plain "hi")].

(** A system message, then a user message. *)
Definition brief_system : list Host.ChatMessage :=
  [Host.mkMessage Host.System (Host.Plain "Be brief.");
   Host.mkMessage Host.User (Host.Plain "hi")].

(** The text of [s] before the first [c]; all of [s] when it has no
    [c]. *)
Fixpoint before (c : ascii) (s : string) : string :=
  match s with
  | EmptyString => EmptyString
  | String a s' => if Ascii.eqb a c then EmptyString else String a (before c s')
  end.

(** [t] is what is left of [s] after some first characters. *)
Definition suffix_of (t s : string) : Prop := exists pre, s = pre ++ t.

(** [xs] starts with [ys]. *)
Definition starts_with {A} (xs ys : list A) : Prop :=
  exists more, xs = (ys ++ more)%list.

(** The keys of a dictionary, in order. *)
Definition keys (d : dict) : list string := map fst d.

(** A translated message that had no image part: a text is wrapped as
    one text part, a list of text parts is kept. *)
Definition wrapped (m : Host.ChatMessage) : value :=
  VDict [("role", VStr (Host.role_name (Host.role m)));
         ("content",
          VList (match Host.content m with
                 | Host.Plain t => [Host.part_dict (Host.TextPart t)]
                 | Host.Parts ps => map Host.part_dict ps
                 end))].

Definition role_field (m : value) : option value :=
  match m with
  | VDict d => lookup "role" d
  | _ => None
  end.

(** The sum of the estimates of a list of image urls. *)
Fixpoint sum_estimates (urls : list string) : Q :=
  match urls with
  | [] => 0%Q
  | u :: rest => (url_estimate u + sum_estimates rest)%Q
  end.

(** A part whose type is neither [text] nor [image_url]. *)
Definition unknown_part (item : value) : bool :=
  match item with
  | VDict d =>
      match lookup "type" d with
      | Some ty => negb (eq_str ty "text") && negb (eq_str ty "image_url")
      | None => false
      end
  | _ => false
  end.

(** An entry of the vendor's model catalog: a dictionary whose [id] is a
    text. *)
Definition catalog_entry (m : value) : bool :=
  match m with
  | VDict d =>
      match lookup "id" d with
      | Some (VStr _) => true
      | _ => false
      end
  | _ => false
  end.

Definition entry_id (m : value) : string :=
  match m with
  | VDict d =>
      match lookup "id" d with
      | Some (VStr i) => i
      | _ => EmptyString
      end
  | _ => EmptyString
  end.

(** The id of the entry starts with one of the prefixes. *)
Definition selected (prefixes : list string) (m : value) : bool :=
  existsb (fun p => Str.startswith p (entry_id m)) prefixes.

(** What the lister shows for a catalog entry: its id, and the display
    prefix before its name, or before its id when it has no name. *)
Definition shown_entry (str_of : value -> string) (display_prefix : string)
    (m : value) : value :=
  VDict [("id", VStr (entry_id m));
         ("name",
          VStr (display_prefix
                ++ OpenAI.fstring str_of
                     (match m with
                      | VDict d => or_default (lookup "name" d)
                                              (VStr (entry_id m))
                      | _ => VNone
                      end)))].

(** The catalog of the model-filter example: three ids, the first with a
    name. *)
Definition test_catalog : list value :=
  [VDict [("id", VStr "gpt-4o-mini"); ("name", VStr "GPT-4o mini")];
   VDict [("id", VStr "gpt-3.5"); ("object", VStr "model")];
   VDict [("id", VStr "dall-e-3")]].

Definition test_openai_valves : OpenAI.Valves :=
  OpenAI.mkValves "https://api.openai.com/v1" "sk-test"
                  "gpt-4o,dall-e" "OPENAI/".

(** A vendor that answers every call with status 200 and the JSON
    document [v]; the url of the call is sent as it is. *)
Definition answering (v : value) : transport :=
  fun req => Ok (mkResponse 200 "OK" EmptyString (Ok v) [] (url req)).

(** A vendor that answers every call with the given status; the url of
    the call is sent as it is. *)
Definition refusing (status : Z) (reason text : string) : transport :=
  fun req => Ok (mkResponse status reason text
                   (Raise (mkExn JSONDecodeError "Expecting value")) []
                   (url req)).

(** [str] of a value that is not a text, for the examples: only [None]
    is told apart. *)
Definition test_str (v : value) : string :=
  match v with
  | VNone => "None"
  | _ => "?"
  end.

(** The HTTP call of the buffered mode, and the one a generator makes when
    it starts. *)
Definition buffered_request (valves : Anthropic.Valves) (payload : value)
  : request :=
  mkRequest Anthropic.api_url (Anthropic.api_headers valves) payload false.

Definition streamed_request (valves : Anthropic.Valves) (payload : value)
  : request :=
  mkRequest Anthropic.api_url (Anthropic.api_headers valves) payload true.

(** The HTTP call of the OpenAI [pipe]. *)
Definition completions_request (valves : OpenAI.Valves) (payload : value)
  : request :=
  mkRequest (OpenAI.OPENAI_API_BASE_URL valves ++ "/chat/completions")
            (OpenAI.api_headers valves) payload true.

(** A status [raise_for_status] lets through. *)
Definition passes_status (r : response) : Prop :=
  status_code r < 400 \/ 600 <= status_code r.

(** The lines of a body that are not empty, each one once for each time
    it occurs and in the order of the body. *)
Fixpoint non_empty_lines (ls : list string) : list string :=
  match ls with
  | [] => []
  | EmptyString :: rest => non_empty_lines rest
  | line :: rest => line :: non_empty_lines rest
  end.

End Spec.

(* ===================================================================== *)
(** ** Properties *)
(* ===================================================================== *)

Import Py Json Requests.
Import Spec.

(** *** Facts about [str] methods *)

Lemma no_char_cons c a s :
  no_char c (String a s) -> a <> c /\ no_char c s.
Proof.
  unfold no_char; simpl; intros H; split.
  - intros E; apply H; now left.
  - intros I; apply H; now right.
Qed.

Lemma find_absent c s : no_char c s -> Str.find c s = -1.
Proof.
  induction s as [|a s IH]; intros H; simpl.
  - reflexivity.
  - apply no_char_cons in H as [Ha Hs].
    apply Ascii.eqb_neq in Ha; rewrite Ha, (IH Hs); reflexivity.
Qed.

Lemma find_first c pre post :
  no_char c pre ->
  Str.find c (pre ++ String c post) = Z.of_nat (String.length pre).
Proof.
  induction pre as [|a pre IH]; intros H.
  - simpl. now rewrite Ascii.eqb_refl.
  - apply no_char_cons in H as [Ha Hs].
    cbn [String.append Str.find String.length].
    apply Ascii.eqb_neq in Ha; rewrite Ha, (IH Hs).
    destruct (Z.of_nat (String.length pre) <? 0) eqn:E.
    + apply Z.ltb_lt in E; lia.
    + lia.
Qed.

Lemma drop_append pre s : Str.drop (String.length pre) (pre ++ s) = s.
Proof. induction pre; simpl; auto. Qed.

Lemma length_append s t :
  String.length (s ++ t) = (String.length s + String.length t)%nat.
Proof. induction s; simpl; congruence. Qed.

Lemma append_snoc pre a s :
  (pre ++ String a EmptyString) ++ s = pre ++ String a s.
Proof. induction pre; simpl; congruence. Qed.

Lemma slice_after pre a s :
  Str.slice_from (Z.of_nat (String.length pre) + 1) (pre ++ String a s) = s.
Proof.
  unfold Str.slice_from.
  destruct (Z.of_nat (String.length pre) + 1 <? 0) eqn:E.
  - apply Z.ltb_lt in E; lia.
  - replace (Z.to_nat (Z.of_nat (String.length pre) + 1))
      with (String.length (pre ++ String a EmptyString)).
    + rewrite <- (append_snoc pre a s). apply drop_append.
    + rewrite length_append; simpl; lia.
Qed.

Lemma strip_prefix c pre post :
  no_char c pre ->
  Str.slice_from (Str.find c (pre ++ String c post) + 1)
                 (pre ++ String c post) = post.
Proof. intros H; rewrite (find_first _ _ _ H); apply slice_after. Qed.

Lemma strip_nothing c s :
  no_char c s -> Str.slice_from (Str.find c s + 1) s = s.
Proof. intros H; rewrite (find_absent _ _ H); reflexivity. Qed.

(** *** Facts about dictionaries *)

Lemma lookup_dict_set k v d : lookup k (dict_set k v d) = Some v.
Proof.
  induction d as [|[k' v'] d IH]; simpl.
  - now rewrite String.eqb_refl.
  - destruct (String.eqb k k') eqn:E; simpl.
    + now rewrite String.eqb_refl.
    + now rewrite E.
Qed.

Lemma bind_ok {A B} (r : result A) (k : A -> result B) b :
  bind r k = Ok b -> exists a, r = Ok a /\ k a = Ok b.
Proof. destruct r; simpl; [eauto | discriminate]. Qed.

Ltac bind_inv H :=
  let a := fresh "a" in
  let Ha := fresh "H" a in
  apply bind_ok in H as (a & Ha & H).

Lemma str_receiver_ok v meth s : str_receiver v meth = Ok s -> v = VStr s.
Proof. destruct v; simpl; congruence. Qed.

(** *** The vendor-local model id *)

Lemma get_or_default d k dflt :
  get (VDict d) k dflt = Ok (or_default (lookup k d) dflt).
Proof. cbn. now destruct (lookup k d). Qed.

(** Whatever [pipe] does with an exception, the calls made stay made. *)
Lemma anthropic_on_error_calls {G} e made :
  calls (@Anthropic.on_error G e made) = made.
Proof.
  unfold Anthropic.on_error.
  destruct (isinstance e RequestException); [reflexivity|].
  destruct (isinstance e ValueError); [reflexivity|].
  destruct (isinstance e Exception); reflexivity.
Qed.

Lemma openai_on_error_calls {G} e made :
  calls (@OpenAI.on_error G e made) = made.
Proof.
  unfold OpenAI.on_error. destruct (isinstance e Exception); reflexivity.
Qed.

(** A body whose model id is a text always gets its payload, and the
    payload's model id is the vendor-local one. *)
Lemma anthropic_payload_built valves d n m system_message processed :
  Anthropic.MAX_TOTAL_TOKENS valves = Some n ->
  lookup "model" d = Some (VStr m) ->
  exists payload,
    Anthropic.build_payload valves (VDict d) system_message processed
      = Ok payload
    /\ getitem payload "model" = Ok (VStr (Anthropic.vendor_model_id m)).
Proof.
  intros Hn Hm. unfold Anthropic.build_payload. cbn [getitem].
  rewrite Hm, Hn. cbn [bind str_receiver Anthropic.int_of_config].
  rewrite !get_or_default. cbn [bind].
  eexists. split; [reflexivity|]. reflexivity.
Qed.

Lemma openai_payload_built d m :
  lookup "model" d = Some (VStr m) ->
  exists payload,
    OpenAI.build_payload (VDict d) = Ok payload
    /\ getitem payload "model" = Ok (VStr (OpenAI.vendor_model_id m)).
Proof.
  intros Hm. unfold OpenAI.build_payload. cbn [getitem]. rewrite Hm.
  cbn [bind str_receiver OpenAI.with_model].
  eexists. split; [reflexivity|].
  cbn [getitem]. now rewrite lookup_dict_set.
Qed.

(** C7: in both adapters the model id put in the payload is the caller's
    id with everything up to and including the first ['.'] removed; an id
    with no ['.'] is kept as it is; ["anthropic.claude-3-opus-20240229"]
    becomes ["claude-3-opus-20240229"]; a body whose model id is a text
    gets its payload (in the Anthropic adapter, with a token limit
    configured), and that payload is the one of the call to the vendor. *)
Theorem vendor_model_id_strips_first_dot :
  (forall pre post,
      no_char "."%char pre ->
      Anthropic.vendor_model_id (pre ++ String "."%char post) = post
      /\ OpenAI.vendor_model_id (pre ++ String "."%char post) = post)
  /\ (forall s,
      no_char "."%char s ->
      Anthropic.vendor_model_id s = s /\ OpenAI.vendor_model_id s = s)
  /\ (forall valves body system_message processed payload,
      Anthropic.build_payload valves body system_message processed
        = Ok payload ->
      exists m, getitem body "model" = Ok (VStr m)
        /\ getitem payload "model" = Ok (VStr (Anthropic.vendor_model_id m)))
  /\ (forall body payload,
      OpenAI.build_payload body = Ok payload ->
      exists m, getitem body "model" = Ok (VStr m)
        /\ getitem payload "model" = Ok (VStr (OpenAI.vendor_model_id m)))
  /\ Anthropic.vendor_model_id "anthropic.claude-3-opus-20240229"
       = "claude-3-opus-20240229"
  /\ OpenAI.vendor_model_id "anthropic.claude-3-opus-20240229"
       = "claude-3-opus-20240229"
  /\ (forall valves d n m system_message processed,
      Anthropic.MAX_TOTAL_TOKENS valves = Some n ->
      lookup "model" d = Some (VStr m) ->
      exists payload,
        Anthropic.build_payload valves (VDict d) system_message processed
          = Ok payload
        /\ getitem payload "model"
           = Ok (VStr (Anthropic.vendor_model_id m)))
  /\ (forall d m,
      lookup "model" d = Some (VStr m) ->
      exists payload,
        OpenAI.build_payload (VDict d) = Ok payload
        /\ getitem payload "model" = Ok (VStr (OpenAI.vendor_model_id m)))
  /\ (forall valves post d n m messages system_message others processed,
      Anthropic.key_set valves = true ->
      Anthropic.MAX_TOTAL_TOKENS valves = Some n ->
      lookup "model" d = Some (VStr m) ->
      lookup "messages" d = Some messages ->
      Anthropic.extract_system_message messages
        = Ok (system_message, others) ->
      Anthropic.translate_messages others = Ok processed ->
      exists payload,
        getitem payload "model" = Ok (VStr (Anthropic.vendor_model_id m))
        /\ (ret (Anthropic.pipe valves post (VDict d))
              = ReturnGenerator (streamed_request valves payload)
            \/ calls (Anthropic.pipe valves post (VDict d))
              = [buffered_request valves payload]))
  /\ (forall valves post d m user,
      OpenAI.OPENAI_API_KEY valves <> EmptyString ->
      lookup "model" d = Some (VStr m) ->
      exists payload,
        getitem payload "model" = Ok (VStr (OpenAI.vendor_model_id m))
        /\ calls (OpenAI.pipe valves post (VDict d) user)
           = [completions_request valves payload]).
Proof.
  split; [|split; [|split; [|split; [|split; [|split;
    [|split; [|split; [|split]]]]]]]].
  - intros pre post H; split; now apply strip_prefix.
  - intros s H; split; now apply strip_nothing.
  - intros valves body sys pm payload H.
    unfold Anthropic.build_payload in H.
    bind_inv H. bind_inv H.
    apply str_receiver_ok in Ha0; subst a.
    exists a0; split; [assumption|].
    repeat bind_inv H.
    injection H as <-. reflexivity.
  - intros body payload H.
    unfold OpenAI.build_payload in H.
    bind_inv H. bind_inv H.
    apply str_receiver_ok in Ha0; subst a.
    exists a0; split; [assumption|].
    destruct body; simpl in H; try discriminate.
    injection H as <-. simpl. now rewrite lookup_dict_set.
  - reflexivity.
  - reflexivity.
  - intros valves d n m sys pm Hn Hm.
    exact (anthropic_payload_built valves d n m sys pm Hn Hm).
  - intros d m Hm. exact (openai_payload_built d m Hm).
  - intros valves post d n m messages sys others pm Hk Hn Hm Hms He Ht.
    destruct (anthropic_payload_built valves d n m sys pm Hn Hm)
      as (payload & Hb & Hg).
    exists payload. split; [exact Hg|].
    unfold Anthropic.pipe, Anthropic.translate.
    rewrite Hk. cbn [negb getitem]. rewrite Hms. cbn [bind].
    rewrite He. cbn [bind]. rewrite Ht. cbn [bind].
    rewrite Hb. cbn [bind]. rewrite get_or_default. cbn [bind].
    destruct (truthy (or_default (lookup "stream" d) (VBool false))).
    + left. reflexivity.
    + right. unfold buffered_request.
      destruct (Anthropic.non_stream_response post _);
        [reflexivity | apply anthropic_on_error_calls].
  - intros valves post d m user Hk Hm.
    destruct (openai_payload_built d m Hm) as (payload & Hb & Hg).
    exists payload. split; [exact Hg|].
    apply String.eqb_neq in Hk. unfold OpenAI.pipe. rewrite Hk, Hb.
    unfold completions_request.
    match goal with
    | |- calls (match ?c with _ => _ end) = _ => destruct c
    end; [reflexivity | apply openai_on_error_calls].
Qed.

(** The example of C7 run through both payload builders and through
    both [pipe]s: a payload is built, its model id is
    ["claude-3-opus-20240229"], and it is the payload of the call. *)
Lemma vendor_model_id_witness :
  no_char "."%char "anthropic"
  /\ Anthropic.vendor_model_id ("anthropic" ++ String "."%char "claude-3-opus-20240229")
     = "claude-3-opus-20240229"
  /\ OpenAI.vendor_model_id "gpt-4o" = "gpt-4o"
  /\ (exists payload,
        Anthropic.build_payload test_valves
          (VDict [("model", VStr "anthropic.claude-3-opus-20240229")])
          VNone []
        = Ok payload
        /\ getitem payload "model" = Ok (VStr "claude-3-opus-20240229"))
  /\ (exists payload,
        OpenAI.build_payload
          (VDict [("model", VStr "anthropic.claude-3-opus-20240229");
                  ("messages", VList [])])
        = Ok payload
        /\ getitem payload "model" = Ok (VStr "claude-3-opus-20240229"))
  /\ (exists payload,
        getitem payload "model" = Ok (VStr "claude-3-opus-20240229")
        /\ (ret (Anthropic.pipe test_valves test_post
                   (VDict [("model",
                            VStr "anthropic.claude-3-opus-20240229");
                           ("messages", VList [])]))
              = ReturnGenerator (streamed_request test_valves payload)
            \/ calls (Anthropic.pipe test_valves test_post
                        (VDict [("model",
                                 VStr "anthropic.claude-3-opus-20240229");
                                ("messages", VList [])]))
              = [buffered_request test_valves payload]))
  /\ (exists payload,
        getitem payload "model" = Ok (VStr "claude-3-opus-20240229")
        /\ calls (OpenAI.pipe test_openai_valves test_post
                    (VDict [("model",
                             VStr "anthropic.claude-3-opus-20240229");
                            ("messages", VList [])]) VNone)
           = [completions_request test_openai_valves payload]).
Proof.
  assert (N1 : no_char "."%char "anthropic").
  { unfold no_char; simpl; intros H.
    repeat (destruct H as [H|H]; [discriminate H|]); exact H. }
  assert (N2 : no_char "."%char "gpt-4o").
  { unfold no_char; simpl; intros H.
    repeat (destruct H as [H|H]; [discriminate H|]); exact H. }
  pose proof vendor_model_id_strips_first_dot
    as (H1 & H2 & _ & _ & _ & _ & H7 & H8 & H9 & H10).
  split; [exact N1|].
  split; [exact (proj1 (H1 "anthropic" "claude-3-opus-20240229" N1))|].
  split; [exact (proj2 (H2 "gpt-4o" N2))|].
  split; [exact (H7 test_valves
                    [("model", VStr "anthropic.claude-3-opus-20240229")]
                    4000 "anthropic.claude-3-opus-20240229"
                    VNone [] eq_refl eq_refl)|].
  split; [exact (H8 [("model", VStr "anthropic.claude-3-opus-20240229");
                     ("messages", VList [])]
                    "anthropic.claude-3-opus-20240229" eq_refl)|].
  split.
  - exact (H9 test_valves test_post
              [("model", VStr "anthropic.claude-3-opus-20240229");
               ("messages", VList [])]
              4000 "anthropic.claude-3-opus-20240229"
              (VList []) VNone [] [] eq_refl eq_refl eq_refl eq_refl
              eq_refl eq_refl).
  - refine (H10 test_openai_valves test_post
                [("model", VStr "anthropic.claude-3-opus-20240229");
                 ("messages", VList [])]
                "anthropic.claude-3-opus-20240229" VNone _ eq_refl).
    discriminate.
Defined.

(** *** The system message *)

Lemma last_cons {A} (a : A) l d : List.last (a :: l) d = List.last l a.
Proof.
  revert a d; induction l as [|b l IH]; intros a d; [reflexivity|].
  change (List.last (b :: l) d = List.last (b :: l) a).
  now rewrite !IH.
Qed.

Lemma extract_loop_spec messages : forall system_message other_messages,
  forallb message_shaped messages = true ->
  Anthropic.extract_loop messages system_message other_messages
  = Ok (List.last (map content_field (filter has_system_role messages))
                  system_message,
        (other_messages ++ non_system messages)%list).
Proof.
  induction messages as [|m ms IH]; intros sys other H.
  - simpl. now rewrite app_nil_r.
  - simpl in H. apply andb_true_iff in H as [Hm Hms].
    destruct m as [| | | | |l|d]; try discriminate Hm.
    unfold non_system in *.
    cbn [Anthropic.extract_loop getitem bind filter has_system_role
         message_shaped] in *.
    destruct (lookup "role" d) as [r|]; [|discriminate Hm].
    cbn [bind].
    destruct (eq_str r "system") eqn:Er; cbn [negb map].
    + destruct (lookup "content" d) as [c|] eqn:Ec; [|discriminate Hm].
      cbn [bind]. rewrite (IH _ _ Hms).
      cbn [content_field]. rewrite Ec, last_cons. reflexivity.
    + rewrite (IH _ _ Hms), <- app_assoc. reflexivity.
Qed.

(** C4: on a list of messages, [extract_system_message] returns the
    content of the last message with role [system] ([None] when there is
    none) and the other messages in their original order. *)
Theorem extract_system_message_last_wins (messages : list value) :
  forallb message_shaped messages = true ->
  Anthropic.extract_system_message (VList messages)
  = Ok (last_system_content messages, non_system messages).
Proof.
  intros H. unfold Anthropic.extract_system_message. cbn [iter bind].
  now rewrite (extract_loop_spec messages VNone [] H).
Qed.

(** The example of C4: two system messages ["A"] and ["B"], then a user
    message. *)
Lemma extract_system_message_witness :
  Anthropic.extract_system_message
    (VList [VDict [("role", VStr "system"); ("content", VStr "A")];
            VDict [("role", VStr "system"); ("content", VStr "B")];
            VDict [("role", VStr "user"); ("content", VStr "hi")]])
  = Ok (VStr "B", [VDict [("role", VStr "user"); ("content", VStr "hi")]]).
Proof.
  exact (extract_system_message_last_wins
           [VDict [("role", VStr "system"); ("content", VStr "A")];
            VDict [("role", VStr "system"); ("content", VStr "B")];
            VDict [("role", VStr "user"); ("content", VStr "hi")]]
           eq_refl).
Defined.

(** *** The buffered response *)

(** C9: for a response with status 200 whose JSON is a dictionary,
    [non_stream_response] returns the text of the first content block when
    the content list is not empty, and the empty string when there is no
    [content] key or the content list is empty. *)
Theorem non_stream_response_first_text
    (post : transport) (req : request) (r : response) (d : dict) :
  post req = Ok r ->
  status_code r = 200 ->
  body_json r = Ok (VDict d) ->
  (lookup "content" d = None ->
     Anthropic.non_stream_response post req = Ok (VStr EmptyString))
  /\ (lookup "content" d = Some (VList []) ->
     Anthropic.non_stream_response post req = Ok (VStr EmptyString))
  /\ (forall block rest t,
     lookup "content" d = Some (VList (VDict block :: rest)) ->
     lookup "text" block = Some t ->
     Anthropic.non_stream_response post req = Ok t).
Proof.
  intros Hp Hs Hj.
  unfold Anthropic.non_stream_response, Anthropic.normalize.
  rewrite Hp; cbn [bind]. rewrite Hs, Hj; cbn [Z.eqb Pos.eqb negb bind contains].
  repeat split.
  - intros E. rewrite E. reflexivity.
  - intros E. cbn [getitem]. rewrite E. reflexivity.
  - intros block rest t E Ht. cbn [getitem]. rewrite E. cbn. now rewrite Ht.
Qed.

(** The examples of C9: the bodies [{"content": []}] and
    [{"content":[{"type":"text","text":"ok"}]}]. *)
Lemma non_stream_response_witness :
  let req := mkRequest Anthropic.api_url [] VNone false in
  Anthropic.non_stream_response
    (fun _ => Ok (ok_response (dq "{'content': []}") [])) req
  = Ok (VStr EmptyString)
  /\ Anthropic.non_stream_response
       (fun _ => Ok (ok_response
                       (dq "{'content':[{'type':'text','text':'ok'}]}") []))
       req
     = Ok (VStr "ok").
Proof.
  intros req. split.
  - exact (proj1 (proj2
      (non_stream_response_first_text
         (fun _ => Ok (ok_response (dq "{'content': []}") [])) req
         (ok_response (dq "{'content': []}") [])
         [("content", VList [])] eq_refl eq_refl eq_refl)) eq_refl).
  - exact (proj2 (proj2
      (non_stream_response_first_text
         (fun _ => Ok (ok_response
                         (dq "{'content':[{'type':'text','text':'ok'}]}") []))
         req
         (ok_response (dq "{'content':[{'type':'text','text':'ok'}]}") [])
         [("content", VList [VDict [("type", VStr "text"); ("text", VStr "ok")]])]
         eq_refl eq_refl eq_refl))
      [("type", VStr "text"); ("text", VStr "ok")] [] (VStr "ok")
      eq_refl eq_refl).
Defined.

(** *** The stream normaliser *)

Section StreamFacts.

Variable json_loads : string -> option value.

Lemma prefixed_not_blank line :
  Str.startswith "data: " line = true -> String.eqb line EmptyString = false.
Proof. destruct line; [discriminate | reflexivity]. Qed.

Lemma on_line_event line d :
  event_of json_loads line d ->
  Anthropic.on_line json_loads line
  = match Anthropic.on_event (VDict d) with
    | (ys, Ok c) => (ys, [], Ok c)
    | (ys, Raise e) =>
        if isinstance e KeyError then
          (ys, [LogError ("Unexpected data structure: " ++ msg e);
                LogErrorData "Full data: " (VDict d)], Ok Anthropic.Next)
        else (ys, [], Raise e)
    end.
Proof.
  intros [Hp Hj]. unfold Anthropic.on_line.
  now rewrite (prefixed_not_blank _ Hp), Hp, Hj.
Qed.

Lemma message_texts_spec entries ys :
  entry_texts entries ys -> Anthropic.message_texts entries = (ys, None).
Proof.
  induction 1 as [|e t rest ys Hty Ht _ IH|e ty rest ys Hty Hne _ IH];
    cbn [Anthropic.message_texts getitem].
  - reflexivity.
  - rewrite Hty. cbn. rewrite Ht, IH. reflexivity.
  - rewrite Hty, Hne. exact IH.
Qed.

Lemma message_texts_lacks entries ys key :
  entry_lacks entries ys key ->
  Anthropic.message_texts entries = (ys, Some (mkExn KeyError (quote key))).
Proof.
  induction 1 as [e rest Hty|e rest Hty Ht|e t rest ys key Hty Ht _ IH
                 |e ty rest ys key Hty Hne _ IH];
    cbn [Anthropic.message_texts getitem].
  - rewrite Hty. reflexivity.
  - rewrite Hty. cbn. rewrite Ht. reflexivity.
  - rewrite Hty. cbn. rewrite Ht, IH. reflexivity.
  - rewrite Hty, Hne. exact IH.
Qed.

Lemma on_line_yields line ys c :
  line_yields json_loads line ys c ->
  Anthropic.on_line json_loads line = (ys, [], Ok c).
Proof.
  destruct 1 as [|line Hp|line d b t He Hty Hb Ht|line d b t He Hty Hb Ht
                |line d He Hty|line d entries ys He Hty Hc Hys
                |line d He Hty Hc|line d ty He Hty Hh];
    try (rewrite (on_line_event _ _ He);
         unfold Anthropic.on_event; cbn [getitem get]; rewrite Hty; cbn).
  - reflexivity.
  - unfold Anthropic.on_line. rewrite Hp. now destruct (String.eqb line "").
  - rewrite Hb. cbn. rewrite Ht. reflexivity.
  - rewrite Hb. cbn. rewrite Ht. reflexivity.
  - reflexivity.
  - rewrite Hc. cbn. rewrite (message_texts_spec _ _ Hys). reflexivity.
  - rewrite Hc. reflexivity.
  - unfold handled_type in Hh.
    repeat (apply orb_false_iff in Hh as [Hh ?]).
    rewrite Hh, H1, H0, H. reflexivity.
Qed.

Lemma on_line_malformed line ys lg :
  malformed json_loads line ys lg ->
  Anthropic.on_line json_loads line = (ys, lg, Ok Anthropic.Next).
Proof.
  destruct 1 as [line Hp Hj|line d key He Hl|line d entries ys key He Hty Hc Hl].
  - unfold Anthropic.on_line.
    now rewrite (prefixed_not_blank _ Hp), Hp, Hj.
  - rewrite (on_line_event _ _ He). unfold Anthropic.on_event.
    cbn [getitem].
    destruct Hl as [d Hty|d Hty Hb|d b Hty Hb Ht|d Hty Hb|d b Hty Hb Ht];
      rewrite Hty; cbn; try reflexivity;
      rewrite Hb; cbn; try reflexivity;
      rewrite Ht; reflexivity.
  - rewrite (on_line_event _ _ He). unfold Anthropic.on_event.
    cbn [getitem get]. rewrite Hty. cbn. rewrite Hc. cbn.
    rewrite (message_texts_lacks _ _ _ Hl). reflexivity.
Qed.


Lemma stream_lines_malformed line ys lg rest :
  malformed json_loads line ys lg ->
  Anthropic.stream_lines json_loads (line :: rest)
  = let '(ys', lg', e) := Anthropic.stream_lines json_loads rest in
    ((ys ++ ys')%list, (lg ++ lg')%list, e).
Proof.
  intros H. cbn [Anthropic.stream_lines].
  now rewrite (on_line_malformed _ _ _ H).
Qed.

Lemma stream_lines_skip line lg pre rest :
  malformed json_loads line [] lg ->
  let '(ys, _, e) := Anthropic.stream_lines json_loads (pre ++ line :: rest) in
  let '(ys', _, e') := Anthropic.stream_lines json_loads (pre ++ rest) in
  ys = ys' /\ e = e'.
Proof.
  intros H. induction pre as [|l pre IH]; cbn [app].
  - rewrite (stream_lines_malformed _ _ _ rest H).
    destruct (Anthropic.stream_lines json_loads rest) as [[ys' lg'] e].
    now split.
  - cbn [Anthropic.stream_lines].
    destruct (Anthropic.on_line json_loads l) as [[ys0 lg0] [[|]|e0]];
      try (now split).
    destruct (Anthropic.stream_lines json_loads (pre ++ line :: rest))
      as [[ys1 lg1] e1].
    destruct (Anthropic.stream_lines json_loads (pre ++ rest))
      as [[ys2 lg2] e2].
    destruct IH as [-> ->]. now split.
Qed.

End StreamFacts.




(** C5 as stated fails: an event whose [delta] is [null] lacks the text
    its type calls for, yet nothing is logged for it and it ends the
    stream with a [TypeError] ([except KeyError] does not catch it): the
    well-formed event after it, which alone yields ["late"], is not
    yielded. *)
Lemma null_delta_ends_stream :
  Anthropic.stream_lines Json.loads
    [dq "data: {'type':'content_block_delta','delta':null}";
     dq "data: {'type':'content_block_delta','delta':{'text':'late'}}"]
  = ([], [],
     Some (mkExn TypeError "'NoneType' object is not subscriptable"))
  /\ Anthropic.stream_lines Json.loads
       [dq "data: {'type':'content_block_delta','delta':{'text':'late'}}"]
     = ([VStr "late"], [], None).
Proof. split; reflexivity. Qed.

(** C5 (as amended): a [data: ] line whose payload is not JSON, or whose
    payload is a dictionary that lacks a key its type calls for (the
    [type]; the [content_block] or [delta], or the [text] of one that is
    a dictionary; the [type] or [text] of an entry of a [message] whose
    entries up to it are dictionaries), is logged and does not end the
    stream: the lines after it are read as if it were not there.  (Of a
    [message] event with an entry at fault, the entries before that one
    are still yielded.) *)
Theorem malformed_line_is_skipped
    (json_loads : string -> option value)
    (line : string) (ys : list value) (lg : list log_record)
    (pre rest : list string) :
  malformed json_loads line ys lg ->
  lg <> []
  /\ Anthropic.stream_lines json_loads (line :: rest)
     = (let '(ys', lg', e) := Anthropic.stream_lines json_loads rest in
        ((ys ++ ys')%list, (lg ++ lg')%list, e))
  /\ (ys = [] ->
      let '(y1, _, e1) :=
        Anthropic.stream_lines json_loads (pre ++ line :: rest) in
      let '(y2, _, e2) := Anthropic.stream_lines json_loads (pre ++ rest) in
      y1 = y2 /\ e1 = e2).
Proof.
  intros H. repeat split.
  - destruct H; discriminate.
  - now apply stream_lines_malformed.
  - intros ->. exact (stream_lines_skip json_loads line lg pre rest H).
Qed.

(** The example of C5: ["data: not-json"] before a well-formed event. *)
Lemma malformed_line_witness :
  Anthropic.stream_lines Json.loads
    ["data: not-json";
     dq "data: {'type':'content_block_delta','delta':{'text':'llo'}}"]
  = ([VStr "llo"], [LogError "Failed to parse JSON: data: not-json"], None).
Proof.
  exact (proj1 (proj2
    (malformed_line_is_skipped Json.loads "data: not-json" []
       [LogError "Failed to parse JSON: data: not-json"] []
       [dq "data: {'type':'content_block_delta','delta':{'text':'llo'}}"]
       (not_json Json.loads "data: not-json" eq_refl eq_refl)))).
Defined.

(** Only [KeyError] is caught in the loop: a payload that is JSON but not
    a dictionary makes [data["type"]] raise [TypeError], which leaves the
    generator; the lines after it are not read. *)
Remark non_dictionary_event_ends_stream :
  Anthropic.stream_lines Json.loads
    ["data: null";
     dq "data: {'type':'content_block_delta','delta':{'text':'late'}}"]
  = ([], [],
     Some (mkExn TypeError "'NoneType' object is not subscriptable")).
Proof. reflexivity. Qed.

(** *** Image parts *)

Lemma startswith_append p s :
  Str.startswith p s = true -> exists r, s = p ++ r.
Proof.
  revert s; induction p as [|a p IH]; intros s H.
  - now exists s.
  - destruct s as [|b s]; [discriminate|]. simpl in H.
    apply andb_true_iff in H as [Hab Hs].
    apply Ascii.eqb_eq in Hab as ->.
    destruct (IH _ Hs) as [r ->]. now exists r.
Qed.

Lemma split_not_nil sep s : Str.split sep s <> [].
Proof.
  destruct s as [|a s]; simpl; [discriminate|].
  destruct (Ascii.eqb a sep); [discriminate|].
  destruct (Str.split sep s); discriminate.
Qed.

Lemma split1_after_comma s :
  match after_comma s with
  | Some data => exists before, Str.split1 ","%char s = [before; data]
  | None => Str.split1 ","%char s = [s]
  end.
Proof.
  induction s as [|a s IH]; simpl; [reflexivity|].
  destruct (Ascii.eqb a ","%char); [now exists EmptyString|].
  destruct (after_comma s) as [data|].
  - destruct IH as [before ->]. now exists (String a before).
  - now rewrite IH.
Qed.

(** The media type of an embedded image is always found: the text before
    the comma starts with [data:], so it has a second piece. *)
Lemma media_type_found u before data :
  is_data_image u = true ->
  Str.split1 ","%char u = [before; data] ->
  exists media_type,
    bind (Anthropic.list_index (Str.split ":"%char before) 1)
         (fun after_colon =>
            Anthropic.list_index (Str.split ";"%char after_colon) 0)
    = Ok media_type.
Proof.
  intros Hd Hs. apply startswith_append in Hd as [r ->].
  cbn in Hs.
  destruct (Str.split1 ","%char r) as [|h t]; [discriminate|].
  injection Hs as <- _.
  remember (String "i" (String "m" (String "a" (String "g" (String "e" h)))))
    as rest eqn:Er.
  cbn [Str.split Ascii.eqb Bool.eqb].
  destruct (Str.split ":"%char rest) as [|x xs] eqn:E.
  - exfalso. exact (split_not_nil _ _ E).
  - cbn. destruct (Str.split ";"%char x) as [|y ys] eqn:E2.
    + exfalso. exact (split_not_nil _ _ E2).
    + now exists y.
Qed.

Lemma process_image_url u :
  is_data_image u = false ->
  Anthropic.process_image (Host.part_dict (Host.ImageRef u))
  = Ok (VDict [("type", VStr "image");
               ("source", VDict [("type", VStr "url"); ("url", VStr u)])]).
Proof.
  intros H. unfold Anthropic.process_image. cbn [Host.part_dict].
  cbn [getitem lookup String.eqb Ascii.eqb Bool.eqb bind str_receiver].
  unfold is_data_image in H. now rewrite H.
Qed.

Lemma process_image_base64 u data :
  is_data_image u = true ->
  after_comma u = Some data ->
  exists media_type,
    Anthropic.process_image (Host.part_dict (Host.ImageRef u))
    = Ok (VDict [("type", VStr "image");
                 ("source", VDict [("type", VStr "base64");
                                   ("media_type", VStr media_type);
                                   ("data", VStr data)])]).
Proof.
  intros Hd Hc. unfold Anthropic.process_image. cbn [Host.part_dict].
  cbn [getitem lookup String.eqb Ascii.eqb Bool.eqb bind str_receiver].
  pose proof (split1_after_comma u) as Hs. rewrite Hc in Hs.
  destruct Hs as [before Hs].
  destruct (media_type_found u before data Hd Hs) as [media_type Hm].
  unfold is_data_image in Hd. rewrite Hd, Hs.
  exists media_type.
  destruct (Anthropic.list_index (Str.split ":"%char before) 1) as [ac|];
    [|discriminate Hm].
  cbn [bind] in *. now rewrite Hm.
Qed.

Lemma process_image_no_comma u :
  is_data_image u = true ->
  after_comma u = None ->
  Anthropic.process_image (Host.part_dict (Host.ImageRef u))
  = Raise (Anthropic.unpack_error 1).
Proof.
  intros Hd Hc. unfold Anthropic.process_image. cbn [Host.part_dict].
  cbn [getitem lookup String.eqb Ascii.eqb Bool.eqb bind str_receiver].
  pose proof (split1_after_comma u) as Hs. rewrite Hc in Hs.
  unfold is_data_image in Hd. now rewrite Hd, Hs.
Qed.

Ltac py_simpl :=
  cbn [getitem get lookup String.eqb Ascii.eqb Bool.eqb bind str_receiver
       eq_str len isinstance_list iter negb].

Lemma item_step_text c pc t :
  Anthropic.item_step (c, pc) (Host.part_dict (Host.TextPart t))
  = Ok (c, (pc ++ [Host.part_dict (Host.TextPart t)])%list).
Proof. reflexivity. Qed.

(** On an image part, [item_step] does what [check_image] says of its
    url. *)
Lemma item_step_image c pc u :
  match check_image c u with
  | Ok c' =>
      exists img,
        Anthropic.process_image (Host.part_dict (Host.ImageRef u)) = Ok img
        /\ Anthropic.item_step (c, pc) (Host.part_dict (Host.ImageRef u))
           = Ok (c', (pc ++ [img])%list)
  | Raise e =>
      Anthropic.item_step (c, pc) (Host.part_dict (Host.ImageRef u)) = Raise e
  end.
Proof.
  unfold check_image, Anthropic.item_step.
  cbn [Host.part_dict]. py_simpl.
  destruct (Anthropic.image_count c >=? Anthropic.MAX_IMAGES_PER_CALL);
    [reflexivity|].
  unfold convertible, url_estimate.
  destruct (is_data_image u) eqn:Hd.
  - destruct (after_comma u) as [data|] eqn:Hc; cbn [negb].
    + destruct (process_image_base64 u data Hd Hc) as [media_type Hp].
      cbn [Host.part_dict] in Hp. rewrite Hp. py_simpl.
      destruct (Anthropic.Qgtb
                  (Anthropic.estimate (Z.of_nat (String.length data)))
                  Anthropic.per_image_cap); [reflexivity|].
      py_simpl.
      destruct (Anthropic.Qgtb _ (inject_Z Anthropic.MAX_TOTAL_IMAGE_SIZE));
        [reflexivity|].
      eexists; split; reflexivity.
    + pose proof (process_image_no_comma u Hd Hc) as Hp.
      cbn [Host.part_dict] in Hp. now rewrite Hp.
  - cbn [negb].
    pose proof (process_image_url u Hd) as Hp.
    cbn [Host.part_dict] in Hp. rewrite Hp. py_simpl.
    change (Anthropic.Qgtb 0 Anthropic.per_image_cap) with false.
    cbn iota.
    destruct (Anthropic.Qgtb _ (inject_Z Anthropic.MAX_TOTAL_IMAGE_SIZE));
      [reflexivity|].
    eexists; split; reflexivity.
Qed.

(** *** The loops of [pipe] on well-formed requests *)

Lemma check_images_app c l1 l2 :
  check_images c (l1 ++ l2)
  = match check_images c l1 with
    | Ok c' => check_images c' l2
    | Raise e => Raise e
    end.
Proof.
  revert c; induction l1 as [|u l1 IH]; intros c; cbn [app check_images].
  - reflexivity.
  - destruct (check_image c u); [apply IH | reflexivity].
Qed.

Lemma parts_loop ps : forall c pc,
  match check_images c (Host.image_urls_of (Host.Parts ps)) with
  | Ok c' =>
      exists pc',
        Anthropic.for_each Anthropic.item_step (c, pc) (map Host.part_dict ps)
        = Ok (c', pc')
  | Raise e =>
      Anthropic.for_each Anthropic.item_step (c, pc) (map Host.part_dict ps)
      = Raise e
  end.
Proof.
  induction ps as [|p ps IH]; intros c pc.
  - cbn. now exists pc.
  - destruct p as [t|u];
      cbn [Host.image_urls_of flat_map app map Anthropic.for_each].
    + rewrite item_step_text. cbn [bind]. apply IH.
    + cbn [check_images].
      pose proof (item_step_image c pc u) as Hi.
      destruct (check_image c u) as [c'|e].
      * destruct Hi as (img & _ & ->). cbn [bind]. apply IH.
      * now rewrite Hi.
Qed.

Lemma message_step_typed m c pm :
  match check_images c (Host.image_urls_of (Host.content m)) with
  | Ok c' =>
      exists out,
        Anthropic.message_step (c, pm) (Host.message_dict m)
        = Ok (c', (pm ++ [VDict [("role", VStr (Host.role_name (Host.role m)));
                                 ("content", VList out)]])%list)
  | Raise e => Anthropic.message_step (c, pm) (Host.message_dict m) = Raise e
  end.
Proof.
  destruct m as [r [t|ps]];
    unfold Anthropic.message_step, Host.message_dict;
    cbn [Host.content Host.role Host.content_value];
    py_simpl.
  - cbn. eexists; reflexivity.
  - pose proof (parts_loop ps c []) as Hl.
    destruct (check_images c (Host.image_urls_of (Host.Parts ps))) as [c'|e].
    + destruct Hl as [pc' ->]. cbn [bind]. eexists; reflexivity.
    + now rewrite Hl.
Qed.

Lemma messages_loop ms : forall c pm,
  match check_images c
          (flat_map (fun m => Host.image_urls_of (Host.content m)) ms) with
  | Ok c' =>
      exists pm',
        Anthropic.for_each Anthropic.message_step (c, pm)
                           (map Host.message_dict ms)
        = Ok (c', pm')
  | Raise e =>
      Anthropic.for_each Anthropic.message_step (c, pm)
                         (map Host.message_dict ms)
      = Raise e
  end.
Proof.
  induction ms as [|m ms IH]; intros c pm;
    cbn [flat_map map Anthropic.for_each].
  - cbn. now exists pm.
  - rewrite check_images_app.
    pose proof (message_step_typed m c pm) as Hm.
    destruct (check_images c (Host.image_urls_of (Host.content m)))
      as [c'|e].
    + destruct Hm as [out ->]. cbn [bind]. apply IH.
    + now rewrite Hm.
Qed.

Lemma message_dict_shaped ms :
  forallb message_shaped (map Host.message_dict ms) = true.
Proof.
  induction ms as [|[[| |] c] ms IH]; cbn; auto.
Qed.

Lemma non_system_typed ms :
  non_system (map Host.message_dict ms)
  = map Host.message_dict (filter (fun m => negb (Host.is_system m)) ms).
Proof.
  unfold non_system.
  induction ms as [|[[| |] c] ms IH]; cbn; rewrite ?IH; reflexivity.
Qed.

Lemma extract_typed ms :
  Anthropic.extract_system_message (VList (map Host.message_dict ms))
  = Ok (last_system_content (map Host.message_dict ms),
        map Host.message_dict (filter (fun m => negb (Host.is_system m)) ms)).
Proof.
  unfold Anthropic.extract_system_message. cbn [iter bind].
  rewrite (extract_loop_spec _ VNone [] (message_dict_shaped ms)).
  now rewrite non_system_typed.
Qed.

Lemma translate_typed_fails valves model ms options e :
  Anthropic.key_set valves = true ->
  check_images initial (Host.image_urls ms) = Raise e ->
  Anthropic.translate valves (Host.body_dict model ms options) = Raise e.
Proof.
  intros Hk Hc. unfold Anthropic.translate. rewrite Hk. cbn [negb].
  unfold Host.body_dict. py_simpl.
  rewrite extract_typed. cbn [bind].
  unfold Anthropic.translate_messages.
  pose proof (messages_loop
                (filter (fun m => negb (Host.is_system m)) ms) initial [])
    as Hl.
  unfold Host.image_urls in Hc. rewrite Hc in Hl.
  unfold initial in Hl. now rewrite Hl.
Qed.

Lemma translate_typed_succeeds valves model ms options c' n :
  Anthropic.key_set valves = true ->
  Anthropic.MAX_TOTAL_TOKENS valves = Some n ->
  check_images initial (Host.image_urls ms) = Ok c' ->
  exists payload,
    Anthropic.translate valves (Host.body_dict model ms options)
    = Ok (payload,
          truthy (match lookup "stream" options with
                  | Some v => v
                  | None => VBool false
                  end)).
Proof.
  intros Hk Hn Hc. unfold Anthropic.translate. rewrite Hk. cbn [negb].
  unfold Host.body_dict. py_simpl.
  rewrite extract_typed. cbn [bind].
  unfold Anthropic.translate_messages.
  pose proof (messages_loop
                (filter (fun m => negb (Host.is_system m)) ms) initial [])
    as Hl.
  unfold Host.image_urls in Hc. rewrite Hc in Hl.
  destruct Hl as [pm' Hl]. unfold initial in Hl. rewrite Hl. cbn [bind].
  unfold Anthropic.build_payload, Anthropic.int_of_config.
  rewrite Hn. py_simpl.
  destruct (lookup "max_tokens" options), (lookup "temperature" options),
    (lookup "top_k" options), (lookup "top_p" options),
    (lookup "stop" options), (lookup "stream" options);
    cbn [bind]; eexists; reflexivity.
Qed.

(** *** The two ceilings *)

Lemma cap_value : (Anthropic.per_image_cap == 20971520)%Q.
Proof. reflexivity. Qed.

Lemma Qgtb_false x y : Anthropic.Qgtb x y = false <-> (x <= y)%Q.
Proof.
  unfold Anthropic.Qgtb. rewrite negb_false_iff. apply Qle_bool_iff.
Qed.

Lemma sound_initial : sound initial.
Proof.
  split; cbn.
  - unfold Anthropic.MAX_IMAGES_PER_CALL. lia.
  - discriminate.
Qed.

(** Below the image limit there is room for one more image within the
    total ceiling, whatever was counted so far. *)
Lemma room_for_one c est :
  sound c ->
  Anthropic.image_count c < Anthropic.MAX_IMAGES_PER_CALL ->
  (est <= Anthropic.per_image_cap)%Q ->
  (Anthropic.total_image_size c + est
   <= inject_Z Anthropic.MAX_TOTAL_IMAGE_SIZE)%Q
  /\ sound (Anthropic.mkCounters (Anthropic.image_count c + 1)
                                 (Anthropic.total_image_size c + est)).
Proof.
  intros [[H0 H5] Ht] Hlt He.
  unfold sound; cbn [Anthropic.image_count Anthropic.total_image_size].
  unfold Anthropic.MAX_IMAGES_PER_CALL in *.
  assert (H4 : (inject_Z (Anthropic.image_count c) <= 4)%Q)
    by (change 4%Q with (inject_Z 4); rewrite <- Zle_Qle; lia).
  assert (Hn : (0 <= inject_Z (Anthropic.image_count c))%Q)
    by (change 0%Q with (inject_Z 0); rewrite <- Zle_Qle; lia).
  rewrite inject_Z_plus.
  change (inject_Z Anthropic.MAX_TOTAL_IMAGE_SIZE) with 104857600%Q.
  change (inject_Z 1) with 1%Q.
  rewrite cap_value in *.
  repeat split; try lia; lra.
Qed.

Lemma check_image_inv c u c' :
  sound c ->
  check_image c u = Ok c' ->
  sound c' /\ Anthropic.image_count c' = Anthropic.image_count c + 1.
Proof.
  intros Hs H. unfold check_image in H.
  destruct (Anthropic.image_count c >=? Anthropic.MAX_IMAGES_PER_CALL) eqn:El;
    [discriminate|].
  destruct (negb (convertible u)); [discriminate|].
  destruct (Anthropic.Qgtb (url_estimate u) Anthropic.per_image_cap) eqn:Ec;
    [discriminate|].
  destruct (Anthropic.Qgtb _ (inject_Z Anthropic.MAX_TOTAL_IMAGE_SIZE));
    [discriminate|].
  injection H as <-. cbn [Anthropic.image_count]. split; [|reflexivity].
  apply room_for_one; [assumption | | now apply Qgtb_false].
  rewrite Z.geb_leb in El. apply Z.leb_gt in El. exact El.
Qed.

Lemma check_image_raises c u e :
  check_image c u = Raise e -> cls e = ValueError.
Proof.
  unfold check_image.
  repeat match goal with
         | |- context [if ?b then _ else _] => destruct b
         end; intros H; try discriminate; now injection H as <-.
Qed.

Lemma check_image_ok c u :
  sound c ->
  Anthropic.image_count c < Anthropic.MAX_IMAGES_PER_CALL ->
  acceptable u = true ->
  check_image c u
  = Ok (Anthropic.mkCounters (Anthropic.image_count c + 1)
          (Anthropic.total_image_size c + url_estimate u)).
Proof.
  intros Hs Hlt Ha. unfold acceptable in Ha.
  apply andb_true_iff in Ha as [Hc He]. apply Qle_bool_iff in He.
  unfold check_image.
  replace (Anthropic.image_count c >=? Anthropic.MAX_IMAGES_PER_CALL)
    with false by (symmetry; rewrite Z.geb_leb; now apply Z.leb_gt).
  rewrite Hc. cbn [negb].
  rewrite (proj2 (Qgtb_false _ _) He).
  destruct (room_for_one c _ Hs Hlt He) as [Ht _].
  now rewrite (proj2 (Qgtb_false _ _) Ht).
Qed.

Lemma check_image_limit c u :
  Anthropic.MAX_IMAGES_PER_CALL <= Anthropic.image_count c ->
  check_image c u = Raise Anthropic.image_limit_error.
Proof.
  intros H. unfold check_image.
  replace (Anthropic.image_count c >=? Anthropic.MAX_IMAGES_PER_CALL)
    with true by (symmetry; rewrite Z.geb_leb; now apply Z.leb_le).
  reflexivity.
Qed.

Lemma check_images_ok urls : forall c,
  sound c ->
  Anthropic.image_count c + Z.of_nat (List.length urls)
    <= Anthropic.MAX_IMAGES_PER_CALL ->
  forallb acceptable urls = true ->
  exists c', check_images c urls = Ok c' /\ sound c'.
Proof.
  induction urls as [|u urls IH]; intros c Hs Hn Ha.
  - now exists c.
  - cbn [forallb] in Ha. apply andb_true_iff in Ha as [Hu Ha].
    cbn [List.length] in Hn. cbn [check_images].
    rewrite (check_image_ok c u Hs ltac:(lia) Hu).
    apply IH.
    + apply room_for_one; [assumption | lia |].
      unfold acceptable in Hu. apply andb_true_iff in Hu as [_ He].
      now apply Qle_bool_iff.
    + cbn [Anthropic.image_count]. lia.
    + assumption.
Qed.

Lemma check_images_over urls : forall c,
  sound c ->
  Anthropic.image_count c + Z.of_nat (List.length urls)
    > Anthropic.MAX_IMAGES_PER_CALL ->
  (exists e, check_images c urls = Raise e /\ cls e = ValueError)
  /\ (forallb acceptable
        (firstn (Z.to_nat (Anthropic.MAX_IMAGES_PER_CALL
                           - Anthropic.image_count c)) urls) = true ->
      check_images c urls = Raise Anthropic.image_limit_error).
Proof.
  induction urls as [|u urls IH]; intros c Hs Hn.
  - destruct Hs as [[_ H5] _]. cbn [List.length] in Hn. lia.
  - cbn [List.length] in Hn. cbn [check_images].
    destruct (Z_lt_le_dec (Anthropic.image_count c)
                          Anthropic.MAX_IMAGES_PER_CALL) as [Hlt|Hge].
    + replace (Z.to_nat (Anthropic.MAX_IMAGES_PER_CALL
                         - Anthropic.image_count c))
        with (S (Z.to_nat (Anthropic.MAX_IMAGES_PER_CALL
                           - (Anthropic.image_count c + 1)))) by lia.
      cbn [firstn forallb].
      destruct (check_image c u) as [c'|e] eqn:Ec.
      * destruct (check_image_inv c u c' Hs Ec) as [Hs' Hc'].
        destruct (IH c' Hs' ltac:(lia)) as [Hf Hl].
        split; [exact Hf|].
        intros Ha. apply andb_true_iff in Ha as [_ Ha].
        apply Hl. now rewrite Hc'.
      * split; [exists e; split; [reflexivity|]; eapply check_image_raises;
                eassumption|].
        intros Ha. apply andb_true_iff in Ha as [Hu _].
        rewrite (check_image_ok c u Hs Hlt Hu) in Ec. discriminate.
    + rewrite (check_image_limit c u Hge).
      split; [eexists; split; reflexivity | reflexivity].
Qed.

(** *** The image limit *)

Lemma on_error_value_error {G} (e : exn) (made : list request) :
  cls e = ValueError ->
  @Anthropic.on_error G e made
  = mkOutcome (Return (VStr ("Error: " ++ msg e))) made
              [LogError ("Value error: " ++ msg e)].
Proof.
  intros H. unfold Anthropic.on_error, isinstance. now rewrite H.
Qed.

(** C2 (as amended): with the API key set, on a well-formed request, count
    the image parts of the messages other than system messages.  When
    there are more than five, [pipe] returns an error text and makes no
    HTTP call; the error is the image-limit error when the first five
    images are acceptable (each either a plain url, or an embedded image
    with a comma whose estimate is within the per-image ceiling).  When
    there are at most five, all are acceptable and a token limit is
    configured ([MAX_TOTAL_TOKENS] is not [None]), translation succeeds. *)
Theorem image_limit_enforced
    (valves : Anthropic.Valves) (post : transport)
    (model : string) (messages : list Host.ChatMessage) (options : dict) :
  Anthropic.key_set valves = true ->
  let body := Host.body_dict model messages options in
  ((List.length (Host.image_urls messages) > 5)%nat ->
     (exists e,
        Anthropic.translate valves body = Raise e
        /\ Anthropic.pipe valves post body
           = mkOutcome (Return (VStr ("Error: " ++ msg e))) []
                       [LogError ("Value error: " ++ msg e)])
     /\ (forallb acceptable (firstn 5 (Host.image_urls messages)) = true ->
         Anthropic.translate valves body = Raise Anthropic.image_limit_error
         /\ Anthropic.pipe valves post body
            = mkOutcome
                (Return (VStr "Error: Maximum of 5 images per API call exceeded"))
                []
                [LogError
                   "Value error: Maximum of 5 images per API call exceeded"]))
  /\ ((List.length (Host.image_urls messages) <= 5)%nat ->
      forallb acceptable (Host.image_urls messages) = true ->
      Anthropic.MAX_TOTAL_TOKENS valves <> None ->
      exists payload streaming,
        Anthropic.translate valves body = Ok (payload, streaming)).
Proof.
  intros Hk body. subst body. split.
  - intros Hn.
    destruct (check_images_over (Host.image_urls messages) initial
                sound_initial) as [(e & He & Hc) Hl].
    { cbn [initial Anthropic.image_count].
      unfold Anthropic.MAX_IMAGES_PER_CALL. lia. }
    split.
    + exists e.
      pose proof (translate_typed_fails valves model messages options e Hk He)
        as Ht.
      split; [exact Ht|].
      unfold Anthropic.pipe. rewrite Ht.
      now apply on_error_value_error.
    + intros Ha. specialize (Hl Ha).
      pose proof (translate_typed_fails valves model messages options _ Hk Hl)
        as Ht.
      split; [exact Ht|].
      unfold Anthropic.pipe. rewrite Ht. reflexivity.
  - intros Hn Ha Hm.
    destruct (check_images_ok (Host.image_urls messages) initial
                sound_initial) as (c' & Hc & _).
    { cbn [initial Anthropic.image_count].
      unfold Anthropic.MAX_IMAGES_PER_CALL. lia. }
    { exact Ha. }
    destruct (Anthropic.MAX_TOTAL_TOKENS valves) as [n|] eqn:En;
      [|contradiction].
    destruct (translate_typed_succeeds valves model messages options c' n
                Hk En Hc) as [payload Hp].
    eauto.
Qed.

(** C2 at work: six images over two user messages are refused before any
    call; one image goes through. *)
Lemma image_limit_witness :
  Anthropic.pipe test_valves test_post
    (Host.body_dict test_model six_images [])
  = mkOutcome
      (Return (VStr "Error: Maximum of 5 images per API call exceeded")) []
      [LogError "Value error: Maximum of 5 images per API call exceeded"]
  /\ exists payload streaming,
       Anthropic.translate test_valves (Host.body_dict test_model one_image [])
       = Ok (payload, streaming).
Proof.
  split.
  - refine (proj2 (proj2 (proj1
      (image_limit_enforced test_valves test_post test_model six_images []
         eq_refl) _) eq_refl)).
    cbn. lia.
  - refine (proj2
      (image_limit_enforced test_valves test_post test_model one_image []
         eq_refl) _ eq_refl _).
    + cbn. lia.
    + discriminate.
Defined.

(** C2 as stated fails: six image parts in a system message are not
    counted, the request is translated and the HTTP call is made. *)
Lemma system_images_not_counted :
  List.length (Host.all_image_urls six_system_images) = 6%nat
  /\ exists payload,
       Anthropic.translate test_valves
         (Host.body_dict test_model six_system_images [])
       = Ok (payload, false)
       /\ Anthropic.pipe test_valves test_post
            (Host.body_dict test_model six_system_images [])
          = mkOutcome (Return (VStr "ok"))
              [mkRequest Anthropic.api_url (Anthropic.api_headers test_valves)
                         payload false]
              [].
Proof.
  split; [reflexivity|].
  eexists. split; vm_compute; reflexivity.
Qed.

(** *** The total-size test never fires *)

Lemma raise_inj {A} (e e' : exn) : @Raise A e = Raise e' -> e = e'.
Proof.
  intros H.
  exact (f_equal (fun r => match r with Raise x => x | Ok _ => e end) H).
Qed.

Lemma other_class e :
  cls e <> ValueError -> e <> Anthropic.total_size_error.
Proof. intros H E. apply H. now rewrite E. Qed.

Lemma other_message e :
  String.get 0 (msg e) <> Some "T"%char -> e <> Anthropic.total_size_error.
Proof. intros H E. apply H. now rewrite E. Qed.

Lemma getitem_raises v k e : getitem v k = Raise e -> cls e <> ValueError.
Proof.
  destruct v; cbn; try (intros H; injection H as <-; discriminate).
  destruct (lookup k d); intros H; [discriminate|].
  injection H as <-; discriminate.
Qed.

Lemma get_raises v k dflt e : get v k dflt = Raise e -> cls e <> ValueError.
Proof.
  destruct v; cbn; try (intros H; injection H as <-; discriminate).
  destruct (lookup k d); discriminate.
Qed.

Lemma len_raises v e : len v = Raise e -> cls e <> ValueError.
Proof.
  destruct v; cbn; intros H; try discriminate; injection H as <-; discriminate.
Qed.

Lemma iter_raises v e : iter v = Raise e -> cls e <> ValueError.
Proof.
  destruct v; cbn; intros H; try discriminate; injection H as <-; discriminate.
Qed.

Lemma str_receiver_raises v meth e :
  str_receiver v meth = Raise e -> cls e <> ValueError.
Proof.
  destruct v; cbn; intros H; try discriminate; injection H as <-; discriminate.
Qed.

Lemma list_index_raises l n e :
  Anthropic.list_index l n = Raise e -> cls e <> ValueError.
Proof.
  unfold Anthropic.list_index. destruct (nth_error l n); intros H;
    [discriminate|]. injection H as <-; discriminate.
Qed.

Ltac benign :=
  first
    [ assumption
    | eapply other_class, getitem_raises; eassumption
    | eapply other_class, get_raises; eassumption
    | eapply other_class, len_raises; eassumption
    | eapply other_class, iter_raises; eassumption
    | eapply other_class, str_receiver_raises; eassumption
    | eapply other_class, list_index_raises; eassumption
    | apply other_message; cbn; discriminate ].

Lemma process_image_raises item e :
  Anthropic.process_image item = Raise e -> e <> Anthropic.total_size_error.
Proof.
  unfold Anthropic.process_image.
  destruct (getitem item "image_url") as [iu|e1] eqn:E1; cbn [bind];
    [|intros H; injection H as <-; benign].
  destruct (getitem iu "url") as [u|e2] eqn:E2; cbn [bind];
    [|intros H; injection H as <-; benign].
  destruct (str_receiver u "startswith") as [s|e3] eqn:E3; cbn [bind];
    [|intros H; injection H as <-; benign].
  destruct (Str.startswith "data:image" s); [|discriminate].
  destruct (Str.split1 ","%char s) as [|a [|b [|x l]]];
    try (intros H; injection H as <-; apply other_message;
         cbn [msg Anthropic.unpack_error String.append String.get];
         discriminate).
  destruct (Anthropic.list_index (Str.split ":"%char a) 1) as [ac|e4] eqn:E4;
    cbn [bind]; [|intros H; injection H as <-; benign].
  destruct (Anthropic.list_index (Str.split ";"%char ac) 0) as [mt|e5] eqn:E5;
    cbn [bind]; [discriminate|intros H; injection H as <-; benign].
Qed.

(** Started from sound counters, a turn of the loop over the parts leaves
    them sound, and whatever it raises is not the total-size error. *)
Lemma item_step_invariant c pc item :
  sound c ->
  match Anthropic.item_step (c, pc) item with
  | Ok (c', _) => sound c'
  | Raise e => e <> Anthropic.total_size_error
  end.
Proof.
  intros Hs. unfold Anthropic.item_step.
  destruct (getitem item "type") as [ty|e] eqn:E1; cbn [bind]; [|benign].
  destruct (eq_str ty "text").
  { destruct (getitem item "text") as [t|e] eqn:E2; cbn [bind]; benign. }
  destruct (eq_str ty "image_url"); [|assumption].
  destruct (Anthropic.image_count c >=? Anthropic.MAX_IMAGES_PER_CALL) eqn:El.
  { apply other_message; cbn; discriminate. }
  assert (Hlt : Anthropic.image_count c < Anthropic.MAX_IMAGES_PER_CALL)
    by (rewrite Z.geb_leb in El; now apply Z.leb_gt in El).
  destruct (Anthropic.process_image item) as [img|e] eqn:E3; cbn [bind];
    [|eapply process_image_raises; eassumption].
  destruct (getitem img "source") as [src|e] eqn:E4; cbn [bind]; [|benign].
  destruct (getitem src "type") as [sty|e] eqn:E5; cbn [bind]; [|benign].
  destruct (eq_str sty "base64").
  - destruct (getitem src "data") as [data|e] eqn:E6; cbn [bind]; [|benign].
    destruct (len data) as [n|e] eqn:E7; cbn [bind]; [|benign].
    destruct (Anthropic.Qgtb (Anthropic.estimate n) Anthropic.per_image_cap)
      eqn:Ec; cbn [bind].
    { apply other_message; cbn; discriminate. }
    apply Qgtb_false in Ec.
    destruct (room_for_one c _ Hs Hlt Ec) as [Ht Hs'].
    now rewrite (proj2 (Qgtb_false _ _) Ht).
  - cbn [bind].
    assert (H0 : (0 <= Anthropic.per_image_cap)%Q) by discriminate.
    destruct (room_for_one c _ Hs Hlt H0) as [Ht Hs'].
    now rewrite (proj2 (Qgtb_false _ _) Ht).
Qed.

Lemma for_each_invariant
    (body : Anthropic.counters * list value -> value
            -> result (Anthropic.counters * list value)) :
  (forall c l x, sound c ->
     match body (c, l) x with
     | Ok (c', _) => sound c'
     | Raise e => e <> Anthropic.total_size_error
     end) ->
  forall items c l, sound c ->
    match Anthropic.for_each body (c, l) items with
    | Ok (c', _) => sound c'
    | Raise e => e <> Anthropic.total_size_error
    end.
Proof.
  intros Hb xs. induction xs as [|x xs IH]; intros c l Hs;
    cbn [Anthropic.for_each].
  - assumption.
  - specialize (Hb c l x Hs).
    destruct (body (c, l) x) as [[c' l']|e]; cbn [bind]; [|assumption].
    now apply IH.
Qed.

Lemma message_step_invariant c pm message :
  sound c ->
  match Anthropic.message_step (c, pm) message with
  | Ok (c', _) => sound c'
  | Raise e => e <> Anthropic.total_size_error
  end.
Proof.
  intros Hs. unfold Anthropic.message_step.
  destruct (get message "content" VNone) as [content|e] eqn:E1; cbn [bind];
    [|benign].
  destruct (isinstance_list content).
  - destruct (getitem message "content") as [parts|e] eqn:E2; cbn [bind];
      [|benign].
    destruct (iter parts) as [xs|e] eqn:E3; cbn [bind]; [|benign].
    pose proof (for_each_invariant Anthropic.item_step item_step_invariant
                  xs c [] Hs) as Hl.
    destruct (Anthropic.for_each Anthropic.item_step (c, []) xs)
      as [[c' out]|e]; cbn [bind]; [|assumption].
    destruct (getitem message "role") as [role|e] eqn:E4; cbn [bind]; benign.
  - destruct (get message "content" (VStr EmptyString)) as [t|e] eqn:E2;
      cbn [bind]; [|benign].
    destruct (getitem message "role") as [role|e] eqn:E4; cbn [bind]; benign.
Qed.

Lemma extract_loop_raises l : forall s o e,
  Anthropic.extract_loop l s o = Raise e -> cls e <> ValueError.
Proof.
  induction l as [|m l IH]; intros s o e;
    cbn [Anthropic.extract_loop]; [discriminate|].
  destruct (getitem m "role") as [r|e1] eqn:E; cbn [bind].
  - destruct (eq_str r "system").
    + destruct (getitem m "content") as [c|e2] eqn:E'; cbn [bind].
      * apply IH.
      * intros H; injection H as <-. eapply getitem_raises; eassumption.
    + apply IH.
  - intros H; injection H as <-. eapply getitem_raises; eassumption.
Qed.

Lemma translate_raises valves body e :
  Anthropic.translate valves body = Raise e ->
  e <> Anthropic.total_size_error.
Proof.
  unfold Anthropic.translate.
  destruct (negb (Anthropic.key_set valves)).
  { intros H; apply raise_inj in H; subst e.
    apply other_message; cbn; discriminate. }
  destruct (getitem body "messages") as [messages|e1] eqn:E1; cbn [bind];
    [|intros H; injection H as <-; benign].
  destruct (Anthropic.extract_system_message messages) as [[sys ms]|e2] eqn:E2;
    cbn [bind].
  2:{ intros H; injection H as <-.
      unfold Anthropic.extract_system_message in E2.
      destruct (iter messages) as [l|e0] eqn:E3; cbn [bind] in E2.
      - eapply other_class, extract_loop_raises; eassumption.
      - injection E2 as <-. benign. }
  unfold Anthropic.translate_messages.
  pose proof (for_each_invariant Anthropic.message_step message_step_invariant
                ms initial [] sound_initial) as Hl.
  unfold initial in Hl.
  destruct (Anthropic.for_each Anthropic.message_step
              (Anthropic.mkCounters 0 0, []) ms) as [[c' pm]|e3]; cbn [bind];
    [|intros H; injection H as <-; exact Hl].
  unfold Anthropic.build_payload.
  destruct (getitem body "model") as [model|e4] eqn:E4; cbn [bind];
    [|intros H; injection H as <-; benign].
  destruct (str_receiver model "find") as [m|e5] eqn:E5; cbn [bind];
    [|intros H; injection H as <-; benign].
  destruct (Anthropic.int_of_config (Anthropic.MAX_TOTAL_TOKENS valves))
    as [n|e6] eqn:E6; cbn [bind].
  2:{ intros H; injection H as <-. unfold Anthropic.int_of_config in E6.
      destruct (Anthropic.MAX_TOTAL_TOKENS valves); [discriminate|].
      injection E6 as <-. apply other_class; discriminate. }
  repeat match goal with
         | |- context [bind (get ?v ?k ?d) _] =>
             let E := fresh "E" in
             let e' := fresh "e" in
             destruct (get v k d) as [?|e'] eqn:E; cbn [bind];
             [|intros H; injection H as <-; benign]
         end.
  discriminate.
Qed.

(** *** Image sizes *)

(** C3 (as amended): the estimate of a base64 text is its length times
    3/4; the ceiling for one image is 20 MiB.  Below the image limit, an
    embedded image whose estimate exceeds that ceiling is refused with the
    per-image error; otherwise its estimate is added to the running
    total, which is tested against 100 MiB.  A url image adds zero.  That
    last test never fires: no request makes the translation fail with the
    total-size error, since at most five images, each of at most 20 MiB,
    are ever added up. *)
Theorem image_size_accounting :
  (forall n, Anthropic.estimate n == inject_Z n * 3 / 4)%Q
  /\ (Anthropic.per_image_cap == inject_Z (20 * 1024 * 1024))%Q
  /\ (forall c pc u data,
        Anthropic.image_count c < Anthropic.MAX_IMAGES_PER_CALL ->
        is_data_image u = true ->
        after_comma u = Some data ->
        exists img,
          source_kind img = Some "base64"
          /\ Anthropic.item_step (c, pc) (Host.part_dict (Host.ImageRef u))
             = let est := Anthropic.estimate (Z.of_nat (String.length data)) in
               let total := (Anthropic.total_image_size c + est)%Q in
               if Anthropic.Qgtb est Anthropic.per_image_cap
               then Raise Anthropic.image_size_error
               else if Anthropic.Qgtb total
                         (inject_Z Anthropic.MAX_TOTAL_IMAGE_SIZE)
               then Raise Anthropic.total_size_error
               else Ok (Anthropic.mkCounters (Anthropic.image_count c + 1) total,
                        (pc ++ [img])%list))
  /\ (forall c pc u,
        Anthropic.image_count c < Anthropic.MAX_IMAGES_PER_CALL ->
        is_data_image u = false ->
        exists img,
          source_kind img = Some "url"
          /\ Anthropic.item_step (c, pc) (Host.part_dict (Host.ImageRef u))
             = let total := (Anthropic.total_image_size c + 0)%Q in
               if Anthropic.Qgtb total (inject_Z Anthropic.MAX_TOTAL_IMAGE_SIZE)
               then Raise Anthropic.total_size_error
               else Ok (Anthropic.mkCounters (Anthropic.image_count c + 1) total,
                        (pc ++ [img])%list))
  /\ (forall valves body e,
        Anthropic.translate valves body = Raise e ->
        e <> Anthropic.total_size_error).
Proof.
  split; [reflexivity|]. split; [reflexivity|]. split; [|split].
  - intros c pc u data Hlt Hd Hc.
    destruct (process_image_base64 u data Hd Hc) as [media_type Hp].
    eexists. split; [|unfold Anthropic.item_step; cbn [Host.part_dict];
                      py_simpl].
    2:{ replace (Anthropic.image_count c >=? Anthropic.MAX_IMAGES_PER_CALL)
          with false by (symmetry; rewrite Z.geb_leb; now apply Z.leb_gt).
        cbn [Host.part_dict] in Hp. rewrite Hp. py_simpl.
        cbv zeta.
        destruct (Anthropic.Qgtb
                    (Anthropic.estimate (Z.of_nat (String.length data)))
                    Anthropic.per_image_cap); [reflexivity|].
        py_simpl.
        destruct (Anthropic.Qgtb _ (inject_Z Anthropic.MAX_TOTAL_IMAGE_SIZE));
          reflexivity. }
    reflexivity.
  - intros c pc u Hlt Hd.
    pose proof (process_image_url u Hd) as Hp.
    eexists. split; [|unfold Anthropic.item_step; cbn [Host.part_dict];
                      py_simpl].
    2:{ replace (Anthropic.image_count c >=? Anthropic.MAX_IMAGES_PER_CALL)
          with false by (symmetry; rewrite Z.geb_leb; now apply Z.leb_gt).
        cbn [Host.part_dict] in Hp. rewrite Hp. py_simpl.
        cbv zeta.
        destruct (Anthropic.Qgtb _ (inject_Z Anthropic.MAX_TOTAL_IMAGE_SIZE));
          reflexivity. }
    reflexivity.
  - exact translate_raises.
Qed.

(** C3 at work: a first embedded image with four base64 characters is
    counted with estimate 3; a first url image is counted with nothing. *)
Lemma image_size_witness :
  (exists img,
     Anthropic.item_step (initial, [])
       (Host.part_dict (Host.ImageRef (embedded "QUJD")))
     = Ok (Anthropic.mkCounters 1 (0 + Anthropic.estimate 4), [img]))
  /\ (exists img,
     Anthropic.item_step (initial, []) (Host.part_dict remote_image)
     = Ok (Anthropic.mkCounters 1 (0 + 0), [img])).
Proof.
  split.
  - destruct (proj1 (proj2 (proj2 image_size_accounting))
                initial [] (embedded "QUJD") "QUJD" eq_refl eq_refl eq_refl)
      as (img & _ & H).
    exists img. exact H.
  - destruct (proj1 (proj2 (proj2 (proj2 image_size_accounting)))
                initial [] "https://example.com/a.png" eq_refl eq_refl)
      as (img & _ & H).
    exists img. exact H.
Defined.

Lemma length_doubled k s :
  Z.of_nat (String.length (doubled k s))
  = 2 ^ Z.of_nat k * Z.of_nat (String.length s).
Proof.
  induction k as [|k IH]; cbn [doubled].
  - change (2 ^ Z.of_nat 0) with 1. lia.
  - rewrite length_append, Nat2Z.inj_add, IH, Nat2Z.inj_succ, Z.pow_succ_r;
      lia.
Qed.

Lemma six_embedded_refused data :
  Z.of_nat (String.length data) = 25165824 ->
  (url_estimate (embedded data) == inject_Z (18 * 1024 * 1024))%Q
  /\ acceptable (embedded data) = true
  /\ (inject_Z Anthropic.MAX_TOTAL_IMAGE_SIZE
      < 6 * url_estimate (embedded data))%Q
  /\ Anthropic.translate test_valves
       (Host.body_dict test_model (six_embedded data) [])
     = Raise Anthropic.image_limit_error.
Proof.
  intros Hlen.
  assert (He : url_estimate (embedded data) = Anthropic.estimate 25165824).
  { unfold url_estimate, embedded. cbn [is_data_image Str.startswith
      String.append Ascii.eqb Bool.eqb andb after_comma]. now rewrite Hlen. }
  assert (Ha : acceptable (embedded data) = true).
  { unfold acceptable. rewrite He. unfold convertible, embedded.
    cbn [is_data_image Str.startswith String.append Ascii.eqb Bool.eqb andb
         after_comma]. reflexivity. }
  split; [rewrite He; reflexivity|]. split; [exact Ha|].
  split; [rewrite He; reflexivity|].
  apply translate_typed_fails; [reflexivity|].
  apply check_images_over.
  - exact sound_initial.
  - reflexivity.
  - cbn [initial Anthropic.image_count Host.image_urls six_embedded filter
         Host.is_system Host.role negb flat_map Host.content
         Host.image_urls_of repeat app].
    change (Z.to_nat (Anthropic.MAX_IMAGES_PER_CALL - 0)) with 5%nat.
    cbn [firstn forallb]. now rewrite Ha.
Qed.

(** C3 as stated fails: six embedded images of 18 MiB each are all under
    the per-image ceiling of 20 MiB and add up to 108 MiB, more than the
    100 MiB ceiling, yet the translation fails with the image-limit
    error, not with the total-size error. *)
Lemma total_size_error_not_raised :
  (url_estimate (embedded base64_18MiB) == inject_Z (18 * 1024 * 1024))%Q
  /\ acceptable (embedded base64_18MiB) = true
  /\ (inject_Z Anthropic.MAX_TOTAL_IMAGE_SIZE
      < 6 * url_estimate (embedded base64_18MiB))%Q
  /\ Anthropic.translate test_valves
       (Host.body_dict test_model (six_embedded base64_18MiB) [])
     = Raise Anthropic.image_limit_error.
Proof.
  apply six_embedded_refused.
  unfold base64_18MiB. rewrite length_doubled. reflexivity.
Qed.

(** *** The source kind of an image part *)

(** C10 (as amended): an image part whose url starts with [data:image]
    and has a comma is converted to the [base64] source kind, holding the
    text after the first comma; an image part whose url does not start
    with [data:image] is converted to the [url] source kind with the url
    as it is, and adds zero to the running total; and whenever an image
    part is converted, its source kind is [base64] exactly when its url
    starts with [data:image]. *)
Theorem image_source_kind (u : string) :
  (forall data,
      is_data_image u = true ->
      after_comma u = Some data ->
      exists media_type,
        Anthropic.process_image (Host.part_dict (Host.ImageRef u))
        = Ok (VDict [("type", VStr "image");
                     ("source", VDict [("type", VStr "base64");
                                       ("media_type", VStr media_type);
                                       ("data", VStr data)])]))
  /\ (is_data_image u = false ->
      Anthropic.process_image (Host.part_dict (Host.ImageRef u))
      = Ok (VDict [("type", VStr "image");
                   ("source", VDict [("type", VStr "url"); ("url", VStr u)])]))
  /\ (forall img,
      Anthropic.process_image (Host.part_dict (Host.ImageRef u)) = Ok img ->
      (source_kind img = Some "base64" <-> is_data_image u = true)
      /\ (source_kind img = Some "url" <-> is_data_image u = false))
  /\ (forall c pc,
      sound c ->
      Anthropic.image_count c < Anthropic.MAX_IMAGES_PER_CALL ->
      is_data_image u = false ->
      Anthropic.item_step (c, pc) (Host.part_dict (Host.ImageRef u))
      = Ok (Anthropic.mkCounters (Anthropic.image_count c + 1)
              (Anthropic.total_image_size c + 0),
            (pc ++ [VDict [("type", VStr "image");
                           ("source", VDict [("type", VStr "url");
                                             ("url", VStr u)])]])%list)).
Proof.
  split; [|split; [|split]].
  - intros data Hd Hc. exact (process_image_base64 u data Hd Hc).
  - exact (process_image_url u).
  - intros img Hp.
    destruct (is_data_image u) eqn:Hd.
    + destruct (after_comma u) as [data|] eqn:Hc.
      * destruct (process_image_base64 u data Hd Hc) as [mt Hb].
        rewrite Hb in Hp. injection Hp as <-.
        cbn. split; split; intros; congruence.
      * rewrite (process_image_no_comma u Hd Hc) in Hp. discriminate.
    + rewrite (process_image_url u Hd) in Hp. injection Hp as <-.
      cbn. split; split; intros; congruence.
  - intros c pc Hs Hlt Hd.
    pose proof (item_step_image c pc u) as Hi.
    assert (Ha : acceptable u = true).
    { unfold acceptable, convertible, url_estimate. rewrite Hd. reflexivity. }
    rewrite (check_image_ok c u Hs Hlt Ha) in Hi.
    destruct Hi as (img & Hp & Hi).
    rewrite (process_image_url u Hd) in Hp. injection Hp as <-.
    rewrite Hi. unfold url_estimate. now rewrite Hd.
Qed.

(** C10 at work: a [data:] url of a non-image type is passed on as a
    url; an embedded PNG image is converted to base64. *)
Lemma image_source_kind_witness :
  Anthropic.process_image
    (Host.part_dict (Host.ImageRef "data:text/plain;base64,SGk="))
  = Ok (VDict [("type", VStr "image");
               ("source", VDict [("type", VStr "url");
                                 ("url", VStr "data:text/plain;base64,SGk=")])])
  /\ exists media_type,
       Anthropic.process_image
         (Host.part_dict (Host.ImageRef (embedded "QUJD")))
       = Ok (VDict [("type", VStr "image");
                    ("source", VDict [("type", VStr "base64");
                                      ("media_type", VStr media_type);
                                      ("data", VStr "QUJD")])]).
Proof.
  split.
  - exact (proj1 (proj2 (image_source_kind "data:text/plain;base64,SGk="))
             eq_refl).
  - exact (proj1 (image_source_kind (embedded "QUJD")) "QUJD" eq_refl eq_refl).
Defined.

(** C10 as stated fails: a url that starts with [data:image] and has no
    comma is not converted to the [base64] source kind; [process_image]
    raises. *)
Lemma data_image_without_comma :
  is_data_image "data:image/png;base64" = true
  /\ Anthropic.process_image
       (Host.part_dict (Host.ImageRef "data:image/png;base64"))
     = Raise (mkExn ValueError
                "not enough values to unpack (expected 2, got 1)").
Proof. split; reflexivity. Qed.

(** *** The payload *)

(** C8 (as amended): when the translation succeeds, the sampling fields
    of the payload are the caller's values when supplied and otherwise
    [max_tokens] from the configuration (4000 in the configuration [init]
    builds), [temperature] 0.8, [top_k] 40, [top_p] 0.9 and
    [stop_sequences] the empty list; the stream flag is the caller's, or
    false; and the payload has a [system] field exactly when the extracted
    system message is truthy (not empty), in which case it holds that
    message. *)
Theorem payload_fields
    (valves : Anthropic.Valves) (d : dict) (payload : value)
    (streaming : bool) (n : Z) (messages system_message : value)
    (others : list value) :
  Anthropic.translate valves (VDict d) = Ok (payload, streaming) ->
  Anthropic.MAX_TOTAL_TOKENS valves = Some n ->
  lookup "messages" d = Some messages ->
  Anthropic.extract_system_message messages = Ok (system_message, others) ->
  getitem payload "max_tokens"
    = Ok (or_default (lookup "max_tokens" d) (VInt n))
  /\ getitem payload "temperature"
     = Ok (or_default (lookup "temperature" d) (VFloat (FDec 8 (-1))))
  /\ getitem payload "top_k" = Ok (or_default (lookup "top_k" d) (VInt 40))
  /\ getitem payload "top_p"
     = Ok (or_default (lookup "top_p" d) (VFloat (FDec 9 (-1))))
  /\ getitem payload "stop_sequences"
     = Ok (or_default (lookup "stop" d) (VList []))
  /\ getitem payload "stream"
     = Ok (or_default (lookup "stream" d) (VBool false))
  /\ streaming = truthy (or_default (lookup "stream" d) (VBool false))
  /\ contains "system" payload = Ok (truthy system_message)
  /\ (truthy system_message = true ->
      getitem payload "system" = Ok system_message)
  /\ (forall key, Anthropic.MAX_TOTAL_TOKENS (Anthropic.init key) = Some 4000).
Proof.
  intros Ht Hn Hm He. unfold Anthropic.translate in Ht.
  destruct (negb (Anthropic.key_set valves)); [discriminate|].
  cbn [getitem] in Ht. rewrite Hm in Ht. cbn [bind] in Ht.
  rewrite He in Ht. cbn [bind] in Ht.
  destruct (Anthropic.translate_messages others) as [pm|]; [|discriminate].
  cbn [bind] in Ht. unfold Anthropic.build_payload in Ht.
  rewrite Hn in Ht. cbn [getitem Anthropic.int_of_config] in Ht.
  destruct (lookup "model" d) as [model|]; [|discriminate].
  cbn [bind] in Ht.
  destruct (str_receiver model "find") as [m|]; [|discriminate].
  cbn [bind get] in Ht.
  fold (or_default (lookup "max_tokens" d) (VInt n)) in Ht.
  fold (or_default (lookup "temperature" d) (VFloat (FDec 8 (-1)))) in Ht.
  fold (or_default (lookup "top_k" d) (VInt 40)) in Ht.
  fold (or_default (lookup "top_p" d) (VFloat (FDec 9 (-1)))) in Ht.
  fold (or_default (lookup "stop" d) (VList [])) in Ht.
  fold (or_default (lookup "stream" d) (VBool false)) in Ht.
  assert (Hd : forall o dflt,
             match o with Some x => Ok x | None => Ok dflt end
             = Ok (or_default o dflt)) by (intros [x|] dflt; reflexivity).
  rewrite !Hd in Ht. cbn [bind] in Ht.
  injection Ht as <- <-.
  destruct (truthy system_message); cbn; repeat split; try reflexivity;
    discriminate.
Qed.

(** C8 at work: a system message, a user message and a temperature from
    the caller. *)
Lemma payload_fields_witness :
  exists payload,
    Anthropic.translate test_valves
      (Host.body_dict test_model brief_system
         [("temperature", VFloat (FDec 2 (-1)))])
    = Ok (payload, false)
    /\ getitem payload "max_tokens" = Ok (VInt 4000)
    /\ getitem payload "temperature" = Ok (VFloat (FDec 2 (-1)))
    /\ getitem payload "top_k" = Ok (VInt 40)
    /\ getitem payload "system" = Ok (VStr "Be brief.").
Proof.
  eexists. split; [reflexivity|].
  destruct (payload_fields test_valves
              [("model", VStr test_model);
               ("messages", VList (map Host.message_dict brief_system));
               ("temperature", VFloat (FDec 2 (-1)))]
              _ false 4000
              (VList (map Host.message_dict brief_system))
              (VStr "Be brief.")
              [Host.message_dict (Host.mkMessage Host.User (Host.Plain "hi"))]
              eq_refl eq_refl eq_refl eq_refl)
    as (Hmax & Htemp & Htopk & _ & _ & _ & _ & _ & Hsys & _).
  split; [exact Hmax|]. split; [exact Htemp|]. split; [exact Htopk|].
  exact (Hsys eq_refl).
Defined.

(** C8 as stated fails: a system message is present, its content is the
    empty text, and the payload has no [system] field. *)
Lemma empty_system_message_dropped :
  existsb Host.is_system empty_system = true
  /\ exists payload,
       Anthropic.translate test_valves
         (Host.body_dict test_model empty_system [])
       = Ok (payload, false)
       /\ contains "system" payload = Ok false.
Proof.
  split; [reflexivity|]. eexists. split; reflexivity.
Qed.

(** *** Errors of the buffered path *)





(* ===================================================================== *)
(** ** Further properties of the adapters *)
(* ===================================================================== *)

(** *** More on [str] methods *)

Lemma append_empty_r s : s ++ EmptyString = s.
Proof. induction s; simpl; congruence. Qed.

Lemma append_assoc s t u : (s ++ t) ++ u = s ++ t ++ u.
Proof. induction s; simpl; congruence. Qed.

Lemma no_char_append c s t : no_char c s -> no_char c t -> no_char c (s ++ t).
Proof.
  induction s as [|a s IH]; intros Hs Ht; [exact Ht|].
  apply no_char_cons in Hs as [Ha Hs].
  unfold no_char in *. cbn. intros [E|I]; [contradiction|].
  exact (IH Hs Ht I).
Qed.

Lemma no_char_literal c s :
  forallb (fun a => negb (Ascii.eqb a c)) (list_ascii_of_string s) = true ->
  no_char c s.
Proof.
  unfold no_char. induction s as [|a s IH]; cbn; intros H; [tauto|].
  apply andb_true_iff in H as [Ha Hs]. intros [E|I].
  - subst a. now rewrite Ascii.eqb_refl in Ha.
  - exact (IH Hs I).
Qed.

Lemma drop_is_suffix n : forall s, suffix_of (Str.drop n s) s.
Proof.
  induction n as [|n IH]; intros s.
  - now exists EmptyString.
  - destruct s as [|a s]; [now exists EmptyString|].
    destruct (IH s) as [pre E]. exists (String a pre). cbn. congruence.
Qed.

Lemma split1_at c pre post :
  no_char c pre -> Str.split1 c (pre ++ String c post) = [pre; post].
Proof.
  induction pre as [|a pre IH]; intros H; cbn.
  - now rewrite Ascii.eqb_refl.
  - apply no_char_cons in H as [Ha Hp].
    apply Ascii.eqb_neq in Ha. rewrite Ha, (IH Hp). reflexivity.
Qed.

Lemma split_head c s : exists t, Str.split c s = before c s :: t.
Proof.
  induction s as [|a s [t IH]]; cbn; [now exists []|].
  destruct (Ascii.eqb a c); [eauto|]. rewrite IH. eauto.
Qed.

Lemma before_append c pre s :
  no_char c pre -> before c (pre ++ s) = pre ++ before c s.
Proof.
  induction pre as [|a pre IH]; intros H; [reflexivity|].
  apply no_char_cons in H as [Ha Hp]. cbn.
  apply Ascii.eqb_neq in Ha. now rewrite Ha, (IH Hp).
Qed.

Lemma startswith_longer p s t :
  Str.startswith p s = true -> Str.startswith p (s ++ t) = true.
Proof.
  revert s; induction p as [|a p IH]; intros s H; [reflexivity|].
  destruct s as [|b s]; [discriminate|]. cbn in *.
  apply andb_true_iff in H as [Hab Hs]. now rewrite Hab, (IH _ Hs).
Qed.

(** *** The vendor-local model id, continued *)

(** X1: the id sent to the vendor is always what is left of the caller's
    id after some first characters, the two adapters compute the same id,
    and an id qualified with the Anthropic adapter's own id and a dot
    comes back whole, whatever dots it has itself. *)
Theorem vendor_model_id_is_suffix (s : string) :
  suffix_of (Anthropic.vendor_model_id s) s
  /\ OpenAI.vendor_model_id s = Anthropic.vendor_model_id s
  /\ Anthropic.vendor_model_id (Anthropic.pipe_id ++ String "."%char s) = s.
Proof.
  split; [|split].
  - unfold Anthropic.vendor_model_id, Str.slice_from.
    destruct (_ <? 0); apply drop_is_suffix.
  - reflexivity.
  - unfold Anthropic.vendor_model_id. apply strip_prefix.
    apply no_char_literal. reflexivity.
Qed.

(** *** Embedded images *)

(** X2: of a url [data:<mime><tail>,<data>] whose media type starts with
    [image] and has no colon, semicolon or comma, and whose tail is empty
    or a semicolon and parameters without a comma, [process_image] keeps
    exactly the media type and everything after the first comma. *)
Theorem process_image_reads_data_uri (mime tail data : string) :
  Str.startswith "image" mime = true ->
  no_char ":"%char mime ->
  no_char ";"%char mime ->
  no_char ","%char mime ->
  tail = EmptyString
  \/ (exists params, tail = String ";"%char params /\ no_char ","%char params) ->
  Anthropic.process_image
    (Host.part_dict
       (Host.ImageRef ("data:" ++ mime ++ tail ++ String ","%char data)))
  = Ok (VDict [("type", VStr "image");
               ("source", VDict [("type", VStr "base64");
                                 ("media_type", VStr mime);
                                 ("data", VStr data)])]).
Proof.
  intros Hi Hc Hs Hm Ht.
  assert (Hcomma : no_char ","%char ("data:" ++ mime ++ tail)).
  { apply no_char_append; [apply no_char_literal; reflexivity|].
    apply no_char_append; [exact Hm|].
    destruct Ht as [->|(params & -> & Hp)].
    - intros [].
    - unfold no_char in *. cbn. intros [E|I]; [discriminate|]. exact (Hp I). }
  assert (Hmedia : before ";"%char (before ":"%char (mime ++ tail)) = mime).
  { rewrite (before_append _ _ _ Hc).
    destruct Ht as [->|(params & -> & Hp)]; cbn [before Ascii.eqb Bool.eqb];
      rewrite (before_append _ _ _ Hs); cbn; apply append_empty_r. }
  unfold Anthropic.process_image. cbn [Host.part_dict].
  cbn [getitem lookup String.eqb Ascii.eqb Bool.eqb bind str_receiver].
  replace ("data:" ++ mime ++ tail ++ String ","%char data)
    with (("data:" ++ mime ++ tail) ++ String ","%char data)
    by (now rewrite !append_assoc).
  replace (Str.startswith "data:image"
             (("data:" ++ mime ++ tail) ++ String ","%char data)) with true.
  2:{ symmetry. apply startswith_longer.
      change (Str.startswith "image" (mime ++ tail) = true).
      now apply startswith_longer. }
  rewrite (split1_at _ _ _ Hcomma).
  cbn [String.append Str.split Ascii.eqb Bool.eqb].
  destruct (split_head ":"%char (mime ++ tail)) as [t1 ->].
  cbn [Anthropic.list_index nth_error bind].
  destruct (split_head ";"%char (before ":"%char (mime ++ tail))) as [t2 ->].
  cbn [Anthropic.list_index nth_error bind]. now rewrite Hmedia.
Qed.

(** X2 at work: a PNG image with a base64 parameter, and data that has a
    comma of its own. *)
Lemma process_image_reads_data_uri_witness :
  Anthropic.process_image
    (Host.part_dict (Host.ImageRef "data:image/png;base64,QUJD,RUZH"))
  = Ok (VDict [("type", VStr "image");
               ("source", VDict [("type", VStr "base64");
                                 ("media_type", VStr "image/png");
                                 ("data", VStr "QUJD,RUZH")])]).
Proof.
  refine (process_image_reads_data_uri "image/png" ";base64" "QUJD,RUZH"
            eq_refl _ _ _ _).
  - apply no_char_literal. reflexivity.
  - apply no_char_literal. reflexivity.
  - apply no_char_literal. reflexivity.
  - right. exists "base64". split; [reflexivity|].
    apply no_char_literal. reflexivity.
Defined.

(** *** The system message, continued *)

Lemma forallb_filter {A} (f g : A -> bool) l :
  forallb f l = true -> forallb f (filter g l) = true.
Proof.
  induction l as [|a l IH]; cbn; intros H; [reflexivity|].
  apply andb_true_iff in H as [Ha Hl].
  destruct (g a); cbn; [rewrite Ha|]; auto.
Qed.

Lemma no_system_left ms : filter has_system_role (non_system ms) = [].
Proof.
  unfold non_system. induction ms as [|m ms IH]; cbn; [reflexivity|].
  destruct (has_system_role m) eqn:E; cbn; [exact IH|].
  now rewrite E.
Qed.

Lemma non_system_again ms : non_system (non_system ms) = non_system ms.
Proof.
  unfold non_system. induction ms as [|m ms IH]; cbn; [reflexivity|].
  destruct (has_system_role m) eqn:E; cbn; [exact IH|].
  rewrite E. cbn. now rewrite IH.
Qed.

Lemma system_or_not ms :
  (List.length (non_system ms) + List.length (filter has_system_role ms)
   = List.length ms)%nat.
Proof.
  unfold non_system. induction ms as [|m ms IH]; cbn; [reflexivity|].
  destruct (has_system_role m); cbn; lia.
Qed.

(** X3: on shaped messages, what [extract_system_message] keeps has no
    system message left: extracting again gives no system text and the
    same list; and every message is either kept or a system message. *)
Theorem extract_system_message_again (messages : list value) :
  forallb message_shaped messages = true ->
  exists system_message,
    Anthropic.extract_system_message (VList messages)
    = Ok (system_message, non_system messages)
    /\ Anthropic.extract_system_message (VList (non_system messages))
       = Ok (VNone, non_system messages)
    /\ (List.length (non_system messages)
        + List.length (filter has_system_role messages)
        = List.length messages)%nat.
Proof.
  intros H. exists (last_system_content messages).
  unfold Anthropic.extract_system_message. cbn [iter bind].
  rewrite (extract_loop_spec messages VNone [] H).
  rewrite (extract_loop_spec (non_system messages) VNone []
             (forallb_filter _ _ _ H)).
  rewrite no_system_left, non_system_again.
  repeat split. apply system_or_not.
Qed.

(** X3 at work: the three messages of the example of C4. *)
Lemma extract_system_message_again_witness :
  exists system_message,
    Anthropic.extract_system_message
      (VList (map Host.message_dict brief_system))
    = Ok (system_message,
          [Host.message_dict (Host.mkMessage Host.User (Host.Plain "hi"))])
    /\ Anthropic.extract_system_message
         (VList [Host.message_dict (Host.mkMessage Host.User (Host.Plain "hi"))])
       = Ok (VNone,
             [Host.message_dict (Host.mkMessage Host.User (Host.Plain "hi"))]).
Proof.
  destruct (extract_system_message_again
              (map Host.message_dict brief_system) eq_refl)
    as (sys & H1 & H2 & _).
  exists sys. split; [exact H1 | exact H2].
Defined.

Lemma extract_loop_missing_role pre bad rest :
  forall system_message other_messages,
  forallb message_shaped pre = true ->
  lookup "role" bad = None ->
  Anthropic.extract_loop (pre ++ VDict bad :: rest)
                         system_message other_messages
  = Raise (mkExn KeyError "'role'").
Proof.
  induction pre as [|m pre IH]; intros sys other Hs Hb;
    cbn [app Anthropic.extract_loop].
  - cbn [getitem]. rewrite Hb. reflexivity.
  - cbn [forallb] in Hs. apply andb_true_iff in Hs as [Hm Hs].
    destruct m as [| | | | |l|d]; try discriminate Hm.
    cbn [getitem message_shaped] in *.
    destruct (lookup "role" d) as [r|]; [|discriminate Hm]. cbn [bind].
    destruct (eq_str r "system").
    + destruct (lookup "content" d) as [c|]; [|discriminate Hm].
      cbn [bind]. now apply IH.
    + now apply IH.
Qed.

(** X4: with the key set, a message without a role, after messages that
    are shaped, makes [pipe] return the text of the [KeyError]; no HTTP
    call is made, whatever comes after that message. *)
Theorem missing_role_is_reported
    (valves : Anthropic.Valves) (post : transport) (d bad : dict)
    (pre rest : list value) :
  Anthropic.key_set valves = true ->
  lookup "messages" d = Some (VList (pre ++ VDict bad :: rest)) ->
  forallb message_shaped pre = true ->
  lookup "role" bad = None ->
  Anthropic.pipe valves post (VDict d)
  = mkOutcome (Return (VStr "Unexpected error: 'role'")) []
              [LogError "Unexpected error in pipe method: 'role'"].
Proof.
  intros Hk Hm Hs Hb. unfold Anthropic.pipe, Anthropic.translate.
  rewrite Hk. cbn [negb getitem]. rewrite Hm. cbn [bind].
  unfold Anthropic.extract_system_message. cbn [iter bind].
  rewrite (extract_loop_missing_role pre bad rest VNone [] Hs Hb).
  reflexivity.
Qed.

(** X4 at work: a user message, then a dictionary with a content only. *)
Lemma missing_role_is_reported_witness :
  Anthropic.pipe test_valves test_post
    (VDict [("model", VStr test_model);
            ("messages",
             VList [VDict [("role", VStr "user"); ("content", VStr "hi")];
                    VDict [("content", VStr "who speaks?")];
                    VDict [("role", VStr "user"); ("content", VStr "more")]])])
  = mkOutcome (Return (VStr "Unexpected error: 'role'")) []
              [LogError "Unexpected error in pipe method: 'role'"].
Proof.
  exact (missing_role_is_reported test_valves test_post
           [("model", VStr test_model);
            ("messages",
             VList [VDict [("role", VStr "user"); ("content", VStr "hi")];
                    VDict [("content", VStr "who speaks?")];
                    VDict [("role", VStr "user"); ("content", VStr "more")]])]
           [("content", VStr "who speaks?")]
           [VDict [("role", VStr "user"); ("content", VStr "hi")]]
           [VDict [("role", VStr "user"); ("content", VStr "more")]]
           eq_refl eq_refl eq_refl eq_refl).
Defined.

(** *** The translated messages *)

Lemma parts_loop_text ps :
  Host.image_urls_of (Host.Parts ps) = [] ->
  forall c pc,
    Anthropic.for_each Anthropic.item_step (c, pc) (map Host.part_dict ps)
    = Ok (c, (pc ++ map Host.part_dict ps)%list).
Proof.
  induction ps as [|p ps IH]; intros H c pc; cbn [map Anthropic.for_each].
  - now rewrite app_nil_r.
  - destruct p as [t|u]; [|discriminate H].
    rewrite item_step_text. cbn [bind].
    rewrite (IH H). now rewrite <- app_assoc.
Qed.

Lemma message_step_text m c pm :
  Host.image_urls_of (Host.content m) = [] ->
  Anthropic.message_step (c, pm) (Host.message_dict m)
  = Ok (c, (pm ++ [wrapped m])%list).
Proof.
  destruct m as [r [t|ps]]; intros H;
    unfold Anthropic.message_step, Host.message_dict, wrapped;
    cbn [Host.content Host.role Host.content_value]; py_simpl.
  - reflexivity.
  - cbn [Host.content] in H. now rewrite (parts_loop_text ps H c []).
Qed.

Lemma messages_loop_text ms :
  Host.all_image_urls ms = [] ->
  forall c pm,
    Anthropic.for_each Anthropic.message_step (c, pm)
                       (map Host.message_dict ms)
    = Ok (c, (pm ++ map wrapped ms)%list).
Proof.
  unfold Host.all_image_urls.
  induction ms as [|m ms IH]; intros H c pm;
    cbn [map Anthropic.for_each flat_map] in *.
  - now rewrite app_nil_r.
  - apply app_eq_nil in H as [Hm Hms].
    rewrite (message_step_text m c pm Hm). cbn [bind].
    rewrite (IH Hms). now rewrite <- app_assoc.
Qed.

(** X5: messages without image parts are translated one for one, in
    order and with their roles: a text is wrapped as a single text part,
    and a list of text parts is kept as it is. *)
Theorem text_messages_are_wrapped (messages : list Host.ChatMessage) :
  Host.all_image_urls messages = [] ->
  Anthropic.translate_messages (map Host.message_dict messages)
  = Ok (map wrapped messages).
Proof.
  intros H. unfold Anthropic.translate_messages.
  now rewrite (messages_loop_text messages H).
Qed.

(** X5 at work: a text, then a list of two text parts. *)
Lemma text_messages_are_wrapped_witness :
  Anthropic.translate_messages
    [Host.message_dict (Host.mkMessage Host.User (Host.Plain "hi"));
     Host.message_dict
       (Host.mkMessage Host.Assistant
          (Host.Parts [Host.TextPart "a"; Host.TextPart "b"]))]
  = Ok [VDict [("role", VStr "user");
               ("content", VList [VDict [("type", VStr "text");
                                         ("text", VStr "hi")]])];
        VDict [("role", VStr "assistant");
               ("content", VList [VDict [("type", VStr "text");
                                         ("text", VStr "a")];
                                  VDict [("type", VStr "text");
                                         ("text", VStr "b")]])]].
Proof.
  exact (text_messages_are_wrapped
           [Host.mkMessage Host.User (Host.Plain "hi");
            Host.mkMessage Host.Assistant
              (Host.Parts [Host.TextPart "a"; Host.TextPart "b"])]
           eq_refl).
Defined.

Lemma messages_loop_roles ms : forall c pm c' pm',
  Anthropic.for_each Anthropic.message_step (c, pm) (map Host.message_dict ms)
  = Ok (c', pm') ->
  exists out,
    pm' = (pm ++ out)%list
    /\ map role_field out
       = map (fun m => Some (VStr (Host.role_name (Host.role m)))) ms.
Proof.
  induction ms as [|m ms IH]; intros c pm c' pm' H;
    cbn [map Anthropic.for_each] in H.
  - injection H as <- <-. exists []. now rewrite app_nil_r.
  - pose proof (message_step_typed m c pm) as Hm.
    destruct (check_images c (Host.image_urls_of (Host.content m)))
      as [c1|e].
    + destruct Hm as [out1 Hm]. rewrite Hm in H. cbn [bind] in H.
      destruct (IH _ _ _ _ H) as (out & -> & Hr).
      eexists. split; [now rewrite <- app_assoc|].
      cbn. now rewrite Hr.
    + rewrite Hm in H. discriminate H.
Qed.

(** X6: whenever the translation of well-formed messages succeeds, images
    or not, it gives one message for each message, in the same order and
    with the same roles. *)
Theorem translation_keeps_roles
    (messages : list Host.ChatMessage) (processed : list value) :
  Anthropic.translate_messages (map Host.message_dict messages)
  = Ok processed ->
  map role_field processed
  = map (fun m => Some (VStr (Host.role_name (Host.role m)))) messages
  /\ List.length processed = List.length messages.
Proof.
  intros H. unfold Anthropic.translate_messages in H.
  destruct (Anthropic.for_each Anthropic.message_step
              (Anthropic.mkCounters 0 0, []) (map Host.message_dict messages))
    as [[c' pm']|e] eqn:E; [|discriminate H].
  cbn [bind] in H. injection H as <-.
  destruct (messages_loop_roles _ _ _ _ _ E) as (out & -> & Hr).
  cbn [app]. split; [exact Hr|].
  rewrite <- (length_map role_field out), Hr. apply length_map.
Qed.

(** X6 at work: a user message with a text part and an image part. *)
Lemma translation_keeps_roles_witness :
  exists processed,
    Anthropic.translate_messages (map Host.message_dict one_image)
    = Ok processed
    /\ map role_field processed = [Some (VStr "user")].
Proof.
  eexists. split; [reflexivity|].
  exact (proj1 (translation_keeps_roles one_image _ eq_refl)).
Defined.

Lemma item_step_unknown item c pc :
  unknown_part item = true -> Anthropic.item_step (c, pc) item = Ok (c, pc).
Proof.
  destruct item as [| | | | | |d]; try discriminate.
  unfold unknown_part, Anthropic.item_step. cbn [getitem].
  destruct (lookup "type" d) as [ty|]; [|discriminate].
  intros H. apply andb_true_iff in H as [H1 H2].
  apply negb_true_iff in H1, H2. cbn [bind]. now rewrite H1, H2.
Qed.

(** X7: a part whose type is neither [text] nor [image_url] is left out
    without a word: a list of parts is translated, counted and refused
    exactly as the list without that part. *)
Theorem unknown_parts_are_dropped
    (item : value) (pre rest : list value)
    (c : Anthropic.counters) (processed_content : list value) :
  unknown_part item = true ->
  Anthropic.for_each Anthropic.item_step (c, processed_content)
                     (pre ++ item :: rest)
  = Anthropic.for_each Anthropic.item_step (c, processed_content)
                       (pre ++ rest).
Proof.
  intros H. revert c processed_content.
  induction pre as [|x pre IH]; intros c pc; cbn [app Anthropic.for_each].
  - now rewrite (item_step_unknown item c pc H).
  - destruct (Anthropic.item_step (c, pc) x) as [[c' pc']|e]; cbn [bind];
      [apply IH | reflexivity].
Qed.

(** X7 at work: an audio part between a text part and an image part. *)
Lemma unknown_parts_are_dropped_witness :
  Anthropic.for_each Anthropic.item_step (initial, [])
    [Host.part_dict (Host.TextPart "look");
     VDict [("type", VStr "input_audio"); ("data", VStr "UklGRg==")];
     Host.part_dict remote_image]
  = Anthropic.for_each Anthropic.item_step (initial, [])
      [Host.part_dict (Host.TextPart "look"); Host.part_dict remote_image].
Proof.
  exact (unknown_parts_are_dropped
           (VDict [("type", VStr "input_audio"); ("data", VStr "UklGRg==")])
           [Host.part_dict (Host.TextPart "look")]
           [Host.part_dict remote_image] initial [] eq_refl).
Defined.

(** *** The counters *)

Lemma sound_within_total c :
  sound c ->
  (Anthropic.total_image_size c <= inject_Z Anthropic.MAX_TOTAL_IMAGE_SIZE)%Q.
Proof.
  intros [[H0 H5] Ht].
  unfold Anthropic.MAX_IMAGES_PER_CALL in *.
  assert (H : (inject_Z (Anthropic.image_count c) <= 5)%Q)
    by (change 5%Q with (inject_Z 5); rewrite <- Zle_Qle; lia).
  change (inject_Z Anthropic.MAX_TOTAL_IMAGE_SIZE) with 104857600%Q.
  rewrite cap_value in Ht. lra.
Qed.

(** X8: whatever the messages are, well-formed or not, when the loop over
    them ends without an exception at most five images were counted and
    the running total is at most 100 MiB. *)
Theorem counters_stay_within_ceilings
    (messages : list value) (c : Anthropic.counters)
    (processed : list value) :
  Anthropic.for_each Anthropic.message_step (initial, []) messages
  = Ok (c, processed) ->
  0 <= Anthropic.image_count c <= Anthropic.MAX_IMAGES_PER_CALL
  /\ (Anthropic.total_image_size c
      <= inject_Z Anthropic.MAX_TOTAL_IMAGE_SIZE)%Q.
Proof.
  intros H.
  pose proof (for_each_invariant Anthropic.message_step message_step_invariant
                messages initial [] sound_initial) as Hs.
  rewrite H in Hs. split; [exact (proj1 Hs) | now apply sound_within_total].
Qed.

(** X8 at work: one message with a text part and an image part. *)
Lemma counters_stay_within_ceilings_witness :
  exists c processed,
    Anthropic.for_each Anthropic.message_step (initial, [])
                       (map Host.message_dict one_image)
    = Ok (c, processed)
    /\ 0 <= Anthropic.image_count c <= Anthropic.MAX_IMAGES_PER_CALL.
Proof.
  eexists. eexists. split; [reflexivity|].
  exact (proj1 (counters_stay_within_ceilings
                  (map Host.message_dict one_image) _ _ eq_refl)).
Defined.

Lemma check_images_exact urls : forall c c',
  check_images c urls = Ok c' ->
  Anthropic.image_count c'
  = Anthropic.image_count c + Z.of_nat (List.length urls)
  /\ (Anthropic.total_image_size c'
      == Anthropic.total_image_size c + sum_estimates urls)%Q.
Proof.
  induction urls as [|u urls IH]; intros c c' H;
    cbn [check_images sum_estimates List.length] in *.
  - injection H as <-. split; [lia | ring].
  - destruct (check_image c u) as [c1|e] eqn:E; [|discriminate H].
    destruct (IH _ _ H) as [Hc Ht].
    unfold check_image in E.
    repeat match type of E with
           | (if ?b then _ else _) = _ => destruct b; [discriminate E|]
           end.
    injection E as <-. cbn [Anthropic.image_count Anthropic.total_image_size] in *.
    split; [lia|]. rewrite Ht. ring.
Qed.

(** X9: on well-formed messages, when the loop over them ends without an
    exception, the image counter is the number of their image parts and
    the running total is the sum of the estimates of those parts. *)
Theorem image_accounting_is_exact
    (messages : list Host.ChatMessage) (c : Anthropic.counters)
    (processed : list value) :
  Anthropic.for_each Anthropic.message_step (initial, [])
                     (map Host.message_dict messages)
  = Ok (c, processed) ->
  Anthropic.image_count c
  = Z.of_nat (List.length (Host.all_image_urls messages))
  /\ (Anthropic.total_image_size c
      == sum_estimates (Host.all_image_urls messages))%Q.
Proof.
  intros H. pose proof (messages_loop messages initial []) as Hl.
  fold (Host.all_image_urls messages) in Hl.
  destruct (check_images initial (Host.all_image_urls messages))
    as [c'|e] eqn:E.
  - destruct Hl as [pm' Hl]. rewrite Hl in H. injection H as -> _.
    destruct (check_images_exact _ _ _ E) as [Hc Ht].
    cbn [initial Anthropic.image_count Anthropic.total_image_size] in *.
    split; [lia|]. rewrite Ht. ring.
  - rewrite Hl in H. discriminate H.
Qed.

(** X9 at work: an embedded image of four base64 characters and a url
    image count for two images and three bytes. *)
Lemma image_accounting_is_exact_witness :
  exists c processed,
    Anthropic.for_each Anthropic.message_step (initial, [])
      (map Host.message_dict
         [Host.mkMessage Host.User
            (Host.Parts [Host.ImageRef (embedded "QUJD"); remote_image])])
    = Ok (c, processed)
    /\ Anthropic.image_count c = 2
    /\ (Anthropic.total_image_size c == 3)%Q.
Proof.
  eexists. eexists. split; [reflexivity|].
  destruct (image_accounting_is_exact
              [Host.mkMessage Host.User
                 (Host.Parts [Host.ImageRef (embedded "QUJD"); remote_image])]
              _ _ eq_refl) as [Hc Ht].
  split; [exact Hc | rewrite Ht; reflexivity].
Defined.

(** *** The payload and the buffered call, end to end *)

(** X10: with the key set, a token limit configured, a model id that is a
    text and messages that translate, the translation succeeds with
    exactly this payload: the vendor-local model id, the translated
    messages, the five sampling fields, the system text when it is
    truthy, and the stream flag, in this order.  No other key of the body
    is passed on. *)
Theorem translation_builds_payload
    (valves : Anthropic.Valves) (d : dict) (n : Z) (model : string)
    (messages system_message : value) (others processed : list value) :
  Anthropic.key_set valves = true ->
  Anthropic.MAX_TOTAL_TOKENS valves = Some n ->
  lookup "model" d = Some (VStr model) ->
  lookup "messages" d = Some messages ->
  Anthropic.extract_system_message messages = Ok (system_message, others) ->
  Anthropic.translate_messages others = Ok processed ->
  Anthropic.translate valves (VDict d)
  = Ok (VDict
          ([("model", VStr (Anthropic.vendor_model_id model));
            ("messages", VList processed);
            ("max_tokens", or_default (lookup "max_tokens" d) (VInt n));
            ("temperature",
             or_default (lookup "temperature" d) (VFloat (FDec 8 (-1))));
            ("top_k", or_default (lookup "top_k" d) (VInt 40));
            ("top_p", or_default (lookup "top_p" d) (VFloat (FDec 9 (-1))));
            ("stop_sequences", or_default (lookup "stop" d) (VList []))]
           ++ (if truthy system_message
               then [("system", system_message)] else [])
           ++ [("stream", or_default (lookup "stream" d) (VBool false))])%list,
        truthy (or_default (lookup "stream" d) (VBool false))).
Proof.
  intros Hk Hn Hmodel Hm He Ht. unfold Anthropic.translate.
  rewrite Hk. cbn [negb getitem]. rewrite Hm. cbn [bind].
  rewrite He. cbn [bind]. rewrite Ht. cbn [bind].
  unfold Anthropic.build_payload. cbn [getitem]. rewrite Hmodel, Hn.
  cbn [bind str_receiver Anthropic.int_of_config].
  rewrite !get_or_default. reflexivity.
Qed.

(** X10 at work: the caller's [user] and [n] options do not reach the
    payload. *)
Lemma translation_builds_payload_witness :
  Anthropic.translate test_valves
    (Host.body_dict test_model brief_system
       [("top_k", VInt 5); ("user", VStr "u-1"); ("n", VInt 2)])
  = Ok (VDict
          [("model", VStr "claude-3-opus-20240229");
           ("messages",
            VList [VDict [("role", VStr "user");
                          ("content", VList [VDict [("type", VStr "text");
                                                    ("text", VStr "hi")]])]]);
           ("max_tokens", VInt 4000);
           ("temperature", VFloat (FDec 8 (-1)));
           ("top_k", VInt 5);
           ("top_p", VFloat (FDec 9 (-1)));
           ("stop_sequences", VList []);
           ("system", VStr "Be brief.");
           ("stream", VBool false)],
        false).
Proof.
  exact (translation_builds_payload test_valves
           [("model", VStr test_model);
            ("messages", VList (map Host.message_dict brief_system));
            ("top_k", VInt 5); ("user", VStr "u-1"); ("n", VInt 2)]
           4000 test_model
           (VList (map Host.message_dict brief_system))
           (VStr "Be brief.")
           [Host.message_dict (Host.mkMessage Host.User (Host.Plain "hi"))]
           [wrapped (Host.mkMessage Host.User (Host.Plain "hi"))]
           eq_refl eq_refl eq_refl eq_refl eq_refl eq_refl).
Defined.

(** X11: when the translation succeeds without the stream flag and the
    vendor answers 200 with a content list whose first block has a text,
    [pipe] returns that text, having made exactly one HTTP call, to the
    messages endpoint, with the key and version headers and the payload,
    and having logged nothing. *)
Theorem buffered_call_returns_text
    (valves : Anthropic.Valves) (post : transport) (body payload : value)
    (r : response) (d block : dict) (rest : list value) (t : value) :
  Anthropic.translate valves body = Ok (payload, false) ->
  post (buffered_request valves payload) = Ok r ->
  status_code r = 200 ->
  body_json r = Ok (VDict d) ->
  lookup "content" d = Some (VList (VDict block :: rest)) ->
  lookup "text" block = Some t ->
  Anthropic.pipe valves post body
  = mkOutcome (Return t)
      [mkRequest "https://api.anthropic.com/v1/messages"
         [("x-api-key",
           match Anthropic.ANTHROPIC_API_KEY valves with
           | Some k => k
           | None => EmptyString
           end);
          ("anthropic-version", "2023-06-01");
          ("content-type", "application/json")]
         payload false]
      [].
Proof.
  intros Ht Hp Hs Hj Hc Hx. unfold Anthropic.pipe. rewrite Ht.
  unfold Anthropic.non_stream_response, buffered_request in *.
  rewrite Hp. cbn [bind]. unfold Anthropic.normalize.
  rewrite Hs, Hj. cbn [Z.eqb Pos.eqb negb bind contains getitem].
  rewrite Hc. cbn. rewrite Hx. reflexivity.
Qed.

(** X11 at work: the well-formed request of the examples and the answer
    [{"content":[{"type":"text","text":"ok"}]}]. *)
Lemma buffered_call_returns_text_witness :
  exists payload,
    Anthropic.pipe test_valves test_post
      (Host.body_dict test_model brief_system [])
    = mkOutcome (Return (VStr "ok"))
        [mkRequest "https://api.anthropic.com/v1/messages"
           [("x-api-key", "sk-test");
            ("anthropic-version", "2023-06-01");
            ("content-type", "application/json")]
           payload false]
        [].
Proof.
  eexists.
  refine (buffered_call_returns_text test_valves test_post
            (Host.body_dict test_model brief_system []) _
            (ok_response (dq "{'content':[{'type':'text','text':'ok'}]}") [])
            [("content", VList [VDict [("type", VStr "text");
                                       ("text", VStr "ok")]])]
            [("type", VStr "text"); ("text", VStr "ok")] [] (VStr "ok")
            _ eq_refl eq_refl eq_refl eq_refl eq_refl).
  reflexivity.
Defined.

(** X12: every status other than 200, a 201 or a 204 as much as a 404 or
    a 500, fails the buffered call: [pipe] returns
    ["Unexpected error: HTTP Error <status>: <body text>"] after its one
    HTTP call, and the body is not read as JSON. *)
Theorem any_other_status_is_an_error
    (valves : Anthropic.Valves) (post : transport) (body payload : value)
    (r : response) :
  Anthropic.translate valves body = Ok (payload, false) ->
  post (buffered_request valves payload) = Ok r ->
  status_code r <> 200 ->
  Anthropic.pipe valves post body
  = mkOutcome
      (Return (VStr ("Unexpected error: HTTP Error "
                     ++ Str.of_Z (status_code r) ++ ": " ++ text r)))
      [buffered_request valves payload]
      [LogError ("Unexpected error in pipe method: HTTP Error "
                 ++ Str.of_Z (status_code r) ++ ": " ++ text r)].
Proof.
  intros Ht Hp Hs. unfold Anthropic.pipe. rewrite Ht.
  unfold Anthropic.non_stream_response, buffered_request in *.
  rewrite Hp. cbn [bind]. unfold Anthropic.normalize.
  apply Z.eqb_neq in Hs. rewrite Hs. reflexivity.
Qed.

(** X12 at work: a 201 answer. *)
Lemma any_other_status_is_an_error_witness :
  ret (Anthropic.pipe test_valves (refusing 201 "Created" "made")
         (Host.body_dict test_model brief_system []))
  = Return (VStr "Unexpected error: HTTP Error 201: made").
Proof.
  refine (f_equal ret
            (any_other_status_is_an_error test_valves
               (refusing 201 "Created" "made")
               (Host.body_dict test_model brief_system []) _
               (mkResponse 201 "Created" "made"
                  (Raise (mkExn JSONDecodeError "Expecting value")) []
                  Anthropic.api_url)
               eq_refl eq_refl _)).
  discriminate.
Defined.

(** X13: only the first content block is looked at: when it has no
    [text], as a tool-use block has none, [pipe] returns the text of the
    [KeyError], whatever blocks follow. *)
Theorem first_block_without_text
    (valves : Anthropic.Valves) (post : transport) (body payload : value)
    (r : response) (d block : dict) (rest : list value) :
  Anthropic.translate valves body = Ok (payload, false) ->
  post (buffered_request valves payload) = Ok r ->
  status_code r = 200 ->
  body_json r = Ok (VDict d) ->
  lookup "content" d = Some (VList (VDict block :: rest)) ->
  lookup "text" block = None ->
  Anthropic.pipe valves post body
  = mkOutcome (Return (VStr "Unexpected error: 'text'"))
      [buffered_request valves payload]
      [LogError "Unexpected error in pipe method: 'text'"].
Proof.
  intros Ht Hp Hs Hj Hc Hx. unfold Anthropic.pipe. rewrite Ht.
  unfold Anthropic.non_stream_response, buffered_request in *.
  rewrite Hp. cbn [bind]. unfold Anthropic.normalize.
  rewrite Hs, Hj. cbn [Z.eqb Pos.eqb negb bind contains getitem].
  rewrite Hc. cbn. rewrite Hx. reflexivity.
Qed.

(** X13 at work: a tool-use block before a text block. *)
Lemma first_block_without_text_witness :
  ret (Anthropic.pipe test_valves
         (answering
            (VDict [("content",
                     VList [VDict [("type", VStr "tool_use");
                                   ("name", VStr "search")];
                            VDict [("type", VStr "text");
                                   ("text", VStr "ok")]])]))
         (Host.body_dict test_model brief_system []))
  = Return (VStr "Unexpected error: 'text'").
Proof.
  exact (f_equal ret
           (first_block_without_text test_valves
              (answering
                 (VDict [("content",
                          VList [VDict [("type", VStr "tool_use");
                                        ("name", VStr "search")];
                                 VDict [("type", VStr "text");
                                        ("text", VStr "ok")]])]))
              (Host.body_dict test_model brief_system []) _ _
              [("content",
                VList [VDict [("type", VStr "tool_use");
                              ("name", VStr "search")];
                       VDict [("type", VStr "text"); ("text", VStr "ok")]])]
              [("type", VStr "tool_use"); ("name", VStr "search")]
              [VDict [("type", VStr "text"); ("text", VStr "ok")]]
              eq_refl eq_refl eq_refl eq_refl eq_refl eq_refl)).
Defined.

(** *** The streamed call *)

(** X14: with the stream flag, [pipe] makes no HTTP call: it returns a
    generator, and the call, one call with the same payload, is made when
    the generator starts.  When that call fails, or is answered with a
    status other than 200, the generator yields nothing and the exception
    reaches whoever consumes it: it is raised outside the [try] of
    [pipe]. *)
Theorem streamed_call_is_deferred
    (json_loads : string -> option value)
    (valves : Anthropic.Valves) (post : transport) (body payload : value) :
  Anthropic.translate valves body = Ok (payload, true) ->
  let g := streamed_request valves payload in
  Anthropic.pipe valves post body = mkOutcome (ReturnGenerator g) [] []
  /\ stream_calls (Anthropic.stream_response json_loads post g) = [g]
  /\ (forall e,
        post g = Raise e ->
        Anthropic.stream_response json_loads post g
        = mkStream [] (Some e) [g] [])
  /\ (forall r,
        post g = Ok r ->
        status_code r <> 200 ->
        Anthropic.stream_response json_loads post g
        = mkStream []
            (Some (mkExn Exception
                     ("HTTP Error " ++ Str.of_Z (status_code r) ++ ": "
                      ++ text r)))
            [g] []).
Proof.
  intros Ht g. split; [|split; [|split]].
  - unfold Anthropic.pipe. now rewrite Ht.
  - unfold Anthropic.stream_response.
    destruct (post g) as [r|e]; [|reflexivity].
    destruct (negb (status_code r =? 200)); [reflexivity|].
    now destruct (Anthropic.stream_lines json_loads (lines r)) as [[ys lg] e].
  - intros e He. unfold Anthropic.stream_response. now rewrite He.
  - intros r Hr Hs. unfold Anthropic.stream_response. rewrite Hr.
    apply Z.eqb_neq in Hs. now rewrite Hs.
Qed.

(** X14 at work: a streamed request answered with a 529. *)
Lemma streamed_call_is_deferred_witness :
  exists g,
    Anthropic.pipe test_valves (refusing 529 "Overloaded" "busy")
      (Host.body_dict test_model brief_system [("stream", VBool true)])
    = mkOutcome (ReturnGenerator g) [] []
    /\ Anthropic.stream_response Json.loads
         (refusing 529 "Overloaded" "busy") g
       = mkStream [] (Some (mkExn Exception "HTTP Error 529: busy")) [g] [].
Proof.
  eexists.
  pose proof (streamed_call_is_deferred Json.loads test_valves
                (refusing 529 "Overloaded" "busy")
                (Host.body_dict test_model brief_system
                   [("stream", VBool true)]) _ eq_refl) as (H1 & _ & _ & H4).
  split; [exact H1|].
  refine (H4 (mkResponse 529 "Overloaded" "busy"
                (Raise (mkExn JSONDecodeError "Expecting value")) []
                Anthropic.api_url)
             eq_refl _).
  discriminate.
Defined.

(** X15: what has been yielded stays yielded: the values and the log of
    a sequence of lines are the first values and the first log records of
    any longer sequence; and once an exception has left the generator,
    more lines change nothing. *)
Theorem stream_only_grows
    (json_loads : string -> option value) (pre rest : list string) :
  starts_with (fst (fst (Anthropic.stream_lines json_loads (pre ++ rest))))
              (fst (fst (Anthropic.stream_lines json_loads pre)))
  /\ starts_with (snd (fst (Anthropic.stream_lines json_loads (pre ++ rest))))
                 (snd (fst (Anthropic.stream_lines json_loads pre)))
  /\ (snd (Anthropic.stream_lines json_loads pre) <> None ->
      Anthropic.stream_lines json_loads (pre ++ rest)
      = Anthropic.stream_lines json_loads pre).
Proof.
  induction pre as [|l pre IH]; cbn [app Anthropic.stream_lines].
  - split; [|split].
    + now eexists.
    + now eexists.
    + intros H. now contradiction H.
  - destruct (Anthropic.on_line json_loads l) as [[ys0 lg0] [[|]|e0]].
    + destruct (Anthropic.stream_lines json_loads (pre ++ rest))
        as [[ys2 lg2] e2].
      destruct (Anthropic.stream_lines json_loads pre) as [[ys1 lg1] e1].
      cbn [fst snd] in *. destruct IH as ([my ->] & [ml ->] & He).
      split; [|split].
      * exists my. now rewrite app_assoc.
      * exists ml. now rewrite app_assoc.
      * intros H. specialize (He H). injection He as Hy Hl ->.
        now rewrite Hy, Hl.
    + cbn [fst snd]. split; [|split]; try (exists []; now rewrite app_nil_r).
      reflexivity.
    + cbn [fst snd]. split; [|split]; try (exists []; now rewrite app_nil_r).
      reflexivity.
Qed.

(** X15 at work: after a payload that is not a dictionary, the stream is
    over. *)
Lemma stream_only_grows_witness :
  Anthropic.stream_lines Json.loads
    (["data: null"]
     ++ [dq "data: {'type':'content_block_delta','delta':{'text':'late'}}"])
  = Anthropic.stream_lines Json.loads ["data: null"].
Proof.
  refine (proj2 (proj2
    (stream_only_grows Json.loads ["data: null"]
       [dq "data: {'type':'content_block_delta','delta':{'text':'late'}}"]))
    _).
  discriminate.
Defined.

(** X16: a [message_stop] event ends the stream wherever it stands:
    whatever the lines before it were, well-formed or not, the lines
    after it change nothing. *)
Theorem nothing_after_message_stop
    (json_loads : string -> option value)
    (stop : string) (d : dict) (pre rest : list string) :
  event_of json_loads stop d ->
  lookup "type" d = Some (VStr "message_stop") ->
  Anthropic.stream_lines json_loads (pre ++ stop :: rest)
  = Anthropic.stream_lines json_loads (pre ++ [stop]).
Proof.
  intros He Hty.
  pose proof (on_line_yields json_loads stop [] Anthropic.Break
                (message_stop json_loads stop d He Hty)) as Hs.
  induction pre as [|l pre IH]; cbn [app Anthropic.stream_lines].
  - now rewrite Hs.
  - destruct (Anthropic.on_line json_loads l) as [[ys0 lg0] [[|]|e0]];
      try reflexivity.
    now rewrite IH.
Qed.

(** X16 at work: a line that is not JSON, the stop, and a late event. *)
Lemma nothing_after_message_stop_witness :
  Anthropic.stream_lines Json.loads
    (["data: not-json"]
     ++ dq "data: {'type':'message_stop'}"
     :: [dq "data: {'type':'content_block_delta','delta':{'text':'late'}}"])
  = Anthropic.stream_lines Json.loads
      (["data: not-json"] ++ [dq "data: {'type':'message_stop'}"]).
Proof.
  exact (nothing_after_message_stop Json.loads
           (dq "data: {'type':'message_stop'}")
           [("type", VStr "message_stop")]
           ["data: not-json"]
           [dq "data: {'type':'content_block_delta','delta':{'text':'late'}}"]
           (conj eq_refl eq_refl) eq_refl).
Defined.

(** *** The OpenAI payload and call *)

Lemma lookup_dict_set_other k k' v d :
  String.eqb k' k = false -> lookup k' (dict_set k v d) = lookup k' d.
Proof.
  intros H. induction d as [|[k0 v0] d IH]; cbn.
  - now rewrite H.
  - destruct (String.eqb k k0) eqn:E; cbn.
    + apply String.eqb_eq in E. subst k0. now rewrite H.
    + now rewrite IH.
Qed.

Lemma keys_dict_set k v d :
  lookup k d <> None -> keys (dict_set k v d) = keys d.
Proof.
  unfold keys. induction d as [|[k0 v0] d IH]; cbn; intros H.
  - now contradiction H.
  - destruct (String.eqb k k0) eqn:E; cbn.
    + apply String.eqb_eq in E. now subst k0.
    + now rewrite (IH H).
Qed.

(** X17: the OpenAI payload is the caller's body with the model id
    replaced: the same keys, in the same order, and under every key but
    [model] the caller's value. *)
Theorem openai_payload_is_the_body (body payload : value) :
  OpenAI.build_payload body = Ok payload ->
  exists d d' m,
    body = VDict d /\ payload = VDict d'
    /\ lookup "model" d = Some (VStr m)
    /\ lookup "model" d' = Some (VStr (OpenAI.vendor_model_id m))
    /\ keys d' = keys d
    /\ (forall k, String.eqb k "model" = false -> lookup k d' = lookup k d).
Proof.
  intros H. unfold OpenAI.build_payload in H.
  destruct body as [| | | | | |d]; try discriminate H.
  cbn [getitem] in H. destruct (lookup "model" d) as [model|] eqn:Em;
    [|discriminate H].
  cbn [bind] in H.
  destruct model as [| | | |m| |]; try discriminate H.
  cbn [str_receiver bind OpenAI.with_model] in H. injection H as <-.
  exists d, (dict_set "model" (VStr (OpenAI.vendor_model_id m)) d), m.
  repeat split.
  - exact Em.
  - apply lookup_dict_set.
  - apply keys_dict_set. now rewrite Em.
  - intros k Hk. now apply lookup_dict_set_other.
Qed.

(** X17 at work: a body with options the Anthropic adapter would drop. *)
Lemma openai_payload_is_the_body_witness :
  exists d',
    OpenAI.build_payload
      (VDict [("stream", VBool false); ("model", VStr "openai.gpt-4o");
              ("user", VStr "u-1"); ("messages", VList [])])
    = Ok (VDict d')
    /\ lookup "user" d' = Some (VStr "u-1")
    /\ keys d' = ["stream"; "model"; "user"; "messages"].
Proof.
  pose proof (openai_payload_is_the_body
                (VDict [("stream", VBool false);
                        ("model", VStr "openai.gpt-4o");
                        ("user", VStr "u-1"); ("messages", VList [])])
                (VDict [("stream", VBool false); ("model", VStr "gpt-4o");
                        ("user", VStr "u-1"); ("messages", VList [])])
                eq_refl) as (d & d' & m & Hb & Hp & _ & _ & Hk & Ho).
  injection Hb as <-. injection Hp as <-.
  eexists. split; [reflexivity|].
  split; [exact (Ho "user" eq_refl) | exact Hk].
Defined.

Lemma raise_for_status_passes req r :
  passes_status r -> raise_for_status req r = Ok tt.
Proof.
  intros H. unfold raise_for_status.
  replace ((400 <=? status_code r) && (status_code r <? 500)) with false
    by (symmetry; apply andb_false_iff; destruct H;
        [left; apply Z.leb_gt | right; apply Z.ltb_ge]; lia).
  replace ((500 <=? status_code r) && (status_code r <? 600)) with false
    by (symmetry; apply andb_false_iff; destruct H;
        [left; apply Z.leb_gt | right; apply Z.ltb_ge]; lia).
  reflexivity.
Qed.

(** X18: with the key set and a buffered request, the OpenAI [pipe]
    makes one call, with [stream] on and the bearer header, and returns
    the JSON document of the answer as it is, whatever it holds, for
    every status below 400, not only 200. *)
Theorem openai_buffered_call_returns_json
    (valves : OpenAI.Valves) (post : transport)
    (body user payload flag v : value) (r : response) :
  OpenAI.OPENAI_API_KEY valves <> EmptyString ->
  OpenAI.build_payload body = Ok payload ->
  post (completions_request valves payload) = Ok r ->
  passes_status r ->
  get body "stream" (VBool false) = Ok flag ->
  truthy flag = false ->
  body_json r = Ok v ->
  OpenAI.pipe valves post body user
  = mkOutcome (Return v)
      [mkRequest (OpenAI.OPENAI_API_BASE_URL valves ++ "/chat/completions")
         [("Authorization", "Bearer " ++ OpenAI.OPENAI_API_KEY valves);
          ("Content-Type", "application/json")]
         payload true]
      [].
Proof.
  intros Hk Hp Hr Hs Hf Ht Hj.
  apply String.eqb_neq in Hk. unfold OpenAI.pipe. rewrite Hk, Hp.
  unfold completions_request in Hr. rewrite Hr. cbn [bind].
  rewrite (raise_for_status_passes _ r Hs). cbn [bind].
  rewrite Hf. cbn [bind]. rewrite Ht, Hj. reflexivity.
Qed.

(** X18 at work: a 202 answer whose JSON is a list. *)
Lemma openai_buffered_call_returns_json_witness :
  ret (OpenAI.pipe test_openai_valves
         (fun _ => Ok (mkResponse 202 "Accepted" EmptyString
                         (Ok (VList [VInt 1])) []
                         "https://api.openai.com/v1/chat/completions"))
         (Host.body_dict "openai.gpt-4o" brief_system []) VNone)
  = Return (VList [VInt 1]).
Proof.
  refine (f_equal ret
            (openai_buffered_call_returns_json test_openai_valves
               (fun _ => Ok (mkResponse 202 "Accepted" EmptyString
                               (Ok (VList [VInt 1])) []
                               "https://api.openai.com/v1/chat/completions"))
               (Host.body_dict "openai.gpt-4o" brief_system []) VNone
               _ (VBool false) (VList [VInt 1])
               (mkResponse 202 "Accepted" EmptyString (Ok (VList [VInt 1])) []
                  "https://api.openai.com/v1/chat/completions")
               _ eq_refl eq_refl _ eq_refl eq_refl eq_refl)).
  - discriminate.
  - left. cbn. lia.
Defined.

(** X19: a status from 400 to 499 comes back from the OpenAI [pipe] as
    the text ["Error: <status> Client Error: <reason> for url: <url>"],
    where <url> is the url of the response ([response.url], the url as
    it was sent, which need not be the text the adapter passed),
    streamed request or not, and the body of the answer is not read. *)
Theorem openai_client_error_is_returned
    (valves : OpenAI.Valves) (post : transport)
    (body user payload : value) (r : response) :
  OpenAI.OPENAI_API_KEY valves <> EmptyString ->
  OpenAI.build_payload body = Ok payload ->
  post (completions_request valves payload) = Ok r ->
  400 <= status_code r < 500 ->
  OpenAI.pipe valves post body user
  = mkOutcome
      (Return (VStr ("Error: " ++ Str.of_Z (status_code r)
                     ++ " Client Error: " ++ reason r ++ " for url: "
                     ++ response_url r)))
      [completions_request valves payload] [].
Proof.
  intros Hk Hp Hr Hs.
  apply String.eqb_neq in Hk. unfold OpenAI.pipe. rewrite Hk, Hp.
  unfold completions_request in *. rewrite Hr. cbn [bind].
  unfold raise_for_status.
  replace ((400 <=? status_code r) && (status_code r <? 500)) with true
    by (symmetry; apply andb_true_iff; split;
        [apply Z.leb_le | apply Z.ltb_lt]; lia).
  cbn [bind]. reflexivity.
Qed.

(** X19 at work: a 401 answer to a call whose base url holds a space;
    the text names the url as it was sent, with the space encoded. *)
Lemma openai_client_error_is_returned_witness :
  ret (OpenAI.pipe
         (OpenAI.mkValves "http://127.0.0.1:18765/v 1" "sk-test" "gpt-4o" "")
         (fun _ => Ok (mkResponse 401 "Unauthorized" "no"
                         (Raise (mkExn JSONDecodeError "Expecting value")) []
                         "http://127.0.0.1:18765/v%201/chat/completions"))
         (Host.body_dict "openai.gpt-4o" brief_system []) VNone)
  = Return (VStr "Error: 401 Client Error: Unauthorized for url: http://127.0.0.1:18765/v%201/chat/completions").
Proof.
  refine (f_equal ret
            (openai_client_error_is_returned
               (OpenAI.mkValves "http://127.0.0.1:18765/v 1" "sk-test"
                                "gpt-4o" "")
               (fun _ => Ok (mkResponse 401 "Unauthorized" "no"
                               (Raise (mkExn JSONDecodeError "Expecting value"))
                               []
                               "http://127.0.0.1:18765/v%201/chat/completions"))
               (Host.body_dict "openai.gpt-4o" brief_system []) VNone _
               (mkResponse 401 "Unauthorized" "no"
                  (Raise (mkExn JSONDecodeError "Expecting value")) []
                  "http://127.0.0.1:18765/v%201/chat/completions")
               _ eq_refl eq_refl _)).
  - discriminate.
  - cbn. lia.
Defined.

(** X20: the OpenAI payload is built before the [try]: with the key set,
    a body without a [model] raises [KeyError] to the host, and no HTTP
    call is made. *)
Theorem openai_missing_model_is_raised
    (valves : OpenAI.Valves) (post : transport) (d : dict) (user : value) :
  OpenAI.OPENAI_API_KEY valves <> EmptyString ->
  lookup "model" d = None ->
  OpenAI.pipe valves post (VDict d) user
  = mkOutcome (Propagate (mkExn KeyError "'model'")) [] [].
Proof.
  intros Hk Hm. apply String.eqb_neq in Hk.
  unfold OpenAI.pipe, OpenAI.build_payload. rewrite Hk.
  cbn [getitem]. rewrite Hm. reflexivity.
Qed.

(** X20 at work: a body with messages only. *)
Lemma openai_missing_model_is_raised_witness :
  OpenAI.pipe test_openai_valves test_post
    (VDict [("messages", VList [])]) VNone
  = mkOutcome (Propagate (mkExn KeyError "'model'")) [] [].
Proof.
  refine (openai_missing_model_is_raised test_openai_valves test_post
            [("messages", VList [])] VNone _ eq_refl).
  discriminate.
Defined.

(** X21: with the stream flag the OpenAI [pipe] has made its call when
    it returns: the generator it returns runs over the answer it already
    has, and yields exactly the lines of that answer that are not empty,
    as they are (framing included), in the order of the answer and each
    as often as it occurs. *)
Theorem openai_streamed_call_is_made
    (valves : OpenAI.Valves) (post : transport)
    (body user payload flag : value) (r : response) :
  OpenAI.OPENAI_API_KEY valves <> EmptyString ->
  OpenAI.build_payload body = Ok payload ->
  post (completions_request valves payload) = Ok r ->
  passes_status r ->
  get body "stream" (VBool false) = Ok flag ->
  truthy flag = true ->
  OpenAI.pipe valves post body user
  = mkOutcome (ReturnGenerator r) [completions_request valves payload] []
  /\ (forall v, In v (OpenAI._streaming_response r) <->
                exists line, v = VStr line /\ In line (lines r)
                             /\ line <> EmptyString)
  /\ (forallb (fun line => negb (String.eqb line EmptyString)) (lines r)
      = true ->
      OpenAI._streaming_response r = map VStr (lines r))
  /\ OpenAI._streaming_response r = map VStr (non_empty_lines (lines r)).
Proof.
  intros Hk Hp Hr Hs Hf Ht. split; [|split; [|split]].
  - apply String.eqb_neq in Hk. unfold OpenAI.pipe. rewrite Hk, Hp.
    unfold completions_request in *. rewrite Hr. cbn [bind].
    rewrite (raise_for_status_passes _ r Hs). cbn [bind].
    rewrite Hf. cbn [bind]. now rewrite Ht.
  - intros v. unfold OpenAI._streaming_response. rewrite in_map_iff.
    split.
    + intros (line & <- & Hin). apply filter_In in Hin as [Hin Hne].
      exists line. repeat split; [exact Hin|].
      apply negb_true_iff in Hne. now apply String.eqb_neq.
    + intros (line & -> & Hin & Hne). exists line. split; [reflexivity|].
      apply filter_In. split; [exact Hin|].
      apply negb_true_iff. now apply String.eqb_neq.
  - intros Hall. unfold OpenAI._streaming_response. f_equal.
    induction (lines r) as [|l ls IH]; cbn in *; [reflexivity|].
    apply andb_true_iff in Hall as [Hl Hls]. rewrite Hl. now rewrite IH.
  - unfold OpenAI._streaming_response. f_equal.
    induction (lines r) as [|l ls IH]; [reflexivity|].
    destruct l as [|c l]; cbn [filter non_empty_lines String.eqb negb];
      [exact IH | now rewrite IH].
Qed.

(** X21 at work: two event lines and the blank lines between them. *)
Lemma openai_streamed_call_is_made_witness :
  exists r,
    ret (OpenAI.pipe test_openai_valves
           (fun _ => Ok (mkResponse 200 "OK" EmptyString
                           (Raise (mkExn JSONDecodeError "Expecting value"))
                           ["data: {}"; EmptyString; "data: [DONE]";
                            EmptyString]
                           "https://api.openai.com/v1/chat/completions"))
           (Host.body_dict "openai.gpt-4o" brief_system
              [("stream", VBool true)]) VNone)
    = ReturnGenerator r
    /\ OpenAI._streaming_response r
       = [VStr "data: {}"; VStr "data: [DONE]"].
Proof.
  eexists. split.
  - refine (f_equal ret (proj1
      (openai_streamed_call_is_made test_openai_valves
         (fun _ => Ok (mkResponse 200 "OK" EmptyString
                         (Raise (mkExn JSONDecodeError "Expecting value"))
                         ["data: {}"; EmptyString; "data: [DONE]";
                          EmptyString]
                         "https://api.openai.com/v1/chat/completions"))
         (Host.body_dict "openai.gpt-4o" brief_system
            [("stream", VBool true)]) VNone _ (VBool true) _
         _ eq_refl eq_refl _ eq_refl eq_refl))).
    + discriminate.
    + left. cbn. lia.
  - reflexivity.
Defined.

(** *** The model lister *)

Section ListerFacts.

Variable str_of : value -> string.

Lemma any_prefix_entry m prefixes :
  catalog_entry m = true ->
  OpenAI.any_prefix m prefixes = Ok (selected prefixes m).
Proof.
  intros Hm. destruct m as [| | | | | |d]; try discriminate Hm.
  unfold selected, entry_id. cbn [catalog_entry] in Hm.
  induction prefixes as [|p ps IH]; cbn [OpenAI.any_prefix existsb getitem];
    [reflexivity|].
  destruct (lookup "id" d) as [[| | | |i| |]|]; try discriminate Hm.
  cbn [bind str_receiver] in *.
  destruct (Str.startswith p i); [reflexivity | exact IH].
Qed.

Lemma listed_model_entry valves prefixes m :
  catalog_entry m = true ->
  OpenAI.listed_model str_of valves prefixes m
  = Ok (if selected prefixes m
        then [shown_entry str_of (OpenAI.NAME_PREFIX valves) m]
        else []).
Proof.
  intros Hm. unfold OpenAI.listed_model.
  rewrite (any_prefix_entry m prefixes Hm). cbn [bind].
  destruct (selected prefixes m); [|reflexivity].
  destruct m as [| | | | | |d]; try discriminate Hm.
  unfold shown_entry, entry_id. cbn [catalog_entry getitem contains] in *.
  destruct (lookup "id" d) as [[| | | |i| |]|]; try discriminate Hm.
  cbn [bind]. destruct (lookup "name" d) as [n|]; reflexivity.
Qed.

Lemma filtered_models_entries valves prefixes ms :
  forallb catalog_entry ms = true ->
  OpenAI.filtered_models str_of valves prefixes ms
  = Ok (map (shown_entry str_of (OpenAI.NAME_PREFIX valves))
            (filter (selected prefixes) ms)).
Proof.
  induction ms as [|m ms IH]; intros H; cbn [OpenAI.filtered_models filter map];
    [reflexivity|].
  cbn [forallb] in H. apply andb_true_iff in H as [Hm Hms].
  rewrite (listed_model_entry valves prefixes m Hm), (IH Hms). cbn [bind].
  now destruct (selected prefixes m).
Qed.

Lemma filtered_models_bad_entry valves prefixes pre bad rest :
  prefixes <> [] ->
  lookup "id" bad = None ->
  exists e,
    OpenAI.filtered_models str_of valves prefixes (pre ++ VDict bad :: rest)
    = Raise e.
Proof.
  intros Hp Hb. induction pre as [|m pre [e IH]];
    cbn [app OpenAI.filtered_models].
  - destruct prefixes as [|p ps]; [contradiction|].
    unfold OpenAI.listed_model. cbn [OpenAI.any_prefix getitem].
    rewrite Hb. eexists; reflexivity.
  - destruct (OpenAI.listed_model str_of valves prefixes m) as [x|e'];
      cbn [bind]; [|eauto].
    rewrite IH. cbn [bind]. eauto.
Qed.

Lemma list_models_of_catalog valves get r top ms :
  get (OpenAI.models_request valves) = Ok r ->
  passes_status r ->
  body_json r = Ok (VDict top) ->
  lookup "data" top = Some (VList ms) ->
  OpenAI.list_models str_of valves get
  = bind (OpenAI.filtered_models str_of valves
            (Str.split ","%char (OpenAI.MODEL_FILTER valves)) ms)
         (fun entries => Ok (VList entries)).
Proof.
  intros Hg Hs Hj Hd. unfold OpenAI.list_models.
  rewrite Hg. cbn [bind]. rewrite (raise_for_status_passes _ r Hs).
  cbn [bind]. rewrite Hj. cbn [bind getitem]. rewrite Hd. reflexivity.
Qed.

End ListerFacts.

(** X22: with the key set and a catalog of entries that have a text id,
    the lister returns, in catalog order, exactly the entries whose id
    starts with one of the comma-separated prefixes of [MODEL_FILTER];
    each is shown with its id and with the display prefix before its
    name, or before its id when it has no name.  One HTTP call is
    made. *)
Theorem lister_keeps_selected_models
    (str_of : value -> string) (valves : OpenAI.Valves) (get : transport)
    (r : response) (top : dict) (catalog : list value) :
  OpenAI.OPENAI_API_KEY valves <> EmptyString ->
  get (OpenAI.models_request valves) = Ok r ->
  passes_status r ->
  body_json r = Ok (VDict top) ->
  lookup "data" top = Some (VList catalog) ->
  forallb catalog_entry catalog = true ->
  OpenAI.pipes str_of valves get
  = mkOutcome
      (Return
         (VList (map (shown_entry str_of (OpenAI.NAME_PREFIX valves))
                     (filter (selected (Str.split ","%char
                                          (OpenAI.MODEL_FILTER valves)))
                             catalog))))
      [mkRequest (OpenAI.OPENAI_API_BASE_URL valves ++ "/models")
         [("Authorization", "Bearer " ++ OpenAI.OPENAI_API_KEY valves);
          ("Content-Type", "application/json")]
         VNone false]
      [].
Proof.
  intros Hk Hg Hs Hj Hd Hc. apply String.eqb_neq in Hk.
  unfold OpenAI.pipes. rewrite Hk. cbn [negb].
  rewrite (list_models_of_catalog str_of valves get r top catalog Hg Hs Hj Hd).
  now rewrite (filtered_models_entries str_of valves _ catalog Hc).
Qed.

(** X22 at work: the prefixes [gpt-4o] and [dall-e] against the ids
    [gpt-4o-mini], [gpt-3.5] and [dall-e-3]. *)
Lemma lister_keeps_selected_models_witness :
  ret (OpenAI.pipes test_str test_openai_valves
         (answering (VDict [("object", VStr "list");
                            ("data", VList test_catalog)])))
  = Return
      (VList [VDict [("id", VStr "gpt-4o-mini");
                     ("name", VStr "OPENAI/GPT-4o mini")];
              VDict [("id", VStr "dall-e-3");
                     ("name", VStr "OPENAI/dall-e-3")]]).
Proof.
  refine (f_equal ret
            (lister_keeps_selected_models test_str test_openai_valves
               (answering (VDict [("object", VStr "list");
                                  ("data", VList test_catalog)]))
               (mkResponse 200 "OK" EmptyString
                  (Ok (VDict [("object", VStr "list");
                              ("data", VList test_catalog)])) []
                  "https://api.openai.com/v1/models")
               [("object", VStr "list"); ("data", VList test_catalog)]
               test_catalog _ eq_refl _ eq_refl eq_refl eq_refl)).
  - discriminate.
  - left. cbn. lia.
Defined.

Lemma selected_by_empty_prefix prefixes m :
  In EmptyString prefixes -> selected prefixes m = true.
Proof.
  intros H. unfold selected. apply existsb_exists.
  exists EmptyString. split; [exact H | reflexivity].
Qed.

Lemma filter_all {A} (f : A -> bool) l :
  (forall x, f x = true) -> filter f l = l.
Proof.
  intros H. induction l as [|a l IH]; cbn; [reflexivity|].
  now rewrite H, IH.
Qed.

(** X23: an empty piece in [MODEL_FILTER], as an empty filter or a comma
    at its end leaves one, is a prefix of every id: the lister then
    shows the whole catalog. *)
Theorem empty_prefix_selects_everything
    (str_of : value -> string) (valves : OpenAI.Valves) (get : transport)
    (r : response) (top : dict) (catalog : list value) :
  OpenAI.OPENAI_API_KEY valves <> EmptyString ->
  get (OpenAI.models_request valves) = Ok r ->
  passes_status r ->
  body_json r = Ok (VDict top) ->
  lookup "data" top = Some (VList catalog) ->
  forallb catalog_entry catalog = true ->
  In EmptyString (Str.split ","%char (OpenAI.MODEL_FILTER valves)) ->
  ret (OpenAI.pipes str_of valves get)
  = Return (VList (map (shown_entry str_of (OpenAI.NAME_PREFIX valves))
                       catalog)).
Proof.
  intros Hk Hg Hs Hj Hd Hc He. apply String.eqb_neq in Hk.
  unfold OpenAI.pipes. rewrite Hk. cbn [negb].
  rewrite (list_models_of_catalog str_of valves get r top catalog Hg Hs Hj Hd).
  rewrite (filtered_models_entries str_of valves _ catalog Hc).
  cbn [bind ret]. rewrite filter_all; [reflexivity|].
  intros m. now apply selected_by_empty_prefix.
Qed.

(** X23 at work: the filter ["gpt-4o,"] keeps [gpt-3.5] too. *)
Lemma empty_prefix_selects_everything_witness :
  ret (OpenAI.pipes test_str
         (OpenAI.mkValves "https://api.openai.com/v1" "sk-test" "gpt-4o," "")
         (answering (VDict [("data", VList test_catalog)])))
  = Return
      (VList [VDict [("id", VStr "gpt-4o-mini"); ("name", VStr "GPT-4o mini")];
              VDict [("id", VStr "gpt-3.5"); ("name", VStr "gpt-3.5")];
              VDict [("id", VStr "dall-e-3"); ("name", VStr "dall-e-3")]]).
Proof.
  refine (empty_prefix_selects_everything test_str
            (OpenAI.mkValves "https://api.openai.com/v1" "sk-test" "gpt-4o," "")
            (answering (VDict [("data", VList test_catalog)]))
            (mkResponse 200 "OK" EmptyString
               (Ok (VDict [("data", VList test_catalog)])) []
               "https://api.openai.com/v1/models")
            [("data", VList test_catalog)] test_catalog
            _ eq_refl _ eq_refl eq_refl eq_refl _).
  - discriminate.
  - left. cbn. lia.
  - cbn. right. now left.
Defined.

(** X24: the lister fails soft.  Without a key it makes no HTTP call and
    returns the one entry that says so.  With a key, whatever goes wrong
    inside its [try] gives the one entry that asks to update the key; in
    particular one catalog entry without an [id], wherever it stands,
    loses the whole catalog.  No exception leaves the lister. *)
Theorem lister_fails_soft
    (str_of : value -> string) (valves : OpenAI.Valves) (get : transport) :
  (OpenAI.OPENAI_API_KEY valves = EmptyString ->
   OpenAI.pipes str_of valves get
   = mkOutcome (Return OpenAI.no_global_key) [] [])
  /\ (forall e,
      OpenAI.OPENAI_API_KEY valves <> EmptyString ->
      OpenAI.list_models str_of valves get = Raise e ->
      OpenAI.pipes str_of valves get
      = mkOutcome (Return OpenAI.fetch_failed)
                  [OpenAI.models_request valves] [])
  /\ (forall r top pre bad rest,
      OpenAI.OPENAI_API_KEY valves <> EmptyString ->
      get (OpenAI.models_request valves) = Ok r ->
      passes_status r ->
      body_json r = Ok (VDict top) ->
      lookup "data" top = Some (VList (pre ++ VDict bad :: rest)) ->
      lookup "id" bad = None ->
      OpenAI.pipes str_of valves get
      = mkOutcome (Return OpenAI.fetch_failed)
                  [OpenAI.models_request valves] [])
  /\ (forall e, ret (OpenAI.pipes str_of valves get) <> Propagate e).
Proof.
  assert (Hraise : forall e,
             OpenAI.OPENAI_API_KEY valves <> EmptyString ->
             OpenAI.list_models str_of valves get = Raise e ->
             OpenAI.pipes str_of valves get
             = mkOutcome (Return OpenAI.fetch_failed)
                         [OpenAI.models_request valves] []).
  { intros e Hk He. apply String.eqb_neq in Hk.
    unfold OpenAI.pipes. rewrite Hk, He. reflexivity. }
  split; [|split; [|split]].
  - intros Hk. unfold OpenAI.pipes. now rewrite Hk.
  - exact Hraise.
  - intros r top pre bad rest Hk Hg Hs Hj Hd Hb.
    destruct (filtered_models_bad_entry str_of valves
                (Str.split ","%char (OpenAI.MODEL_FILTER valves))
                pre bad rest (split_not_nil _ _) Hb) as [e He].
    apply (Hraise e Hk).
    rewrite (list_models_of_catalog str_of valves get r top _ Hg Hs Hj Hd).
    now rewrite He.
  - intros e. unfold OpenAI.pipes.
    destruct (negb (String.eqb (OpenAI.OPENAI_API_KEY valves) EmptyString));
      [|discriminate].
    destruct (OpenAI.list_models str_of valves get); discriminate.
Qed.

(** X24 at work: no key; and a catalog whose last entry has no id. *)
Lemma lister_fails_soft_witness :
  OpenAI.pipes test_str OpenAI.init test_post
  = mkOutcome (Return OpenAI.no_global_key) [] []
  /\ ret (OpenAI.pipes test_str test_openai_valves
            (answering
               (VDict [("data",
                        VList (test_catalog
                               ++ [VDict [("object", VStr "model")]]))])))
     = Return OpenAI.fetch_failed.
Proof.
  split.
  - exact (proj1 (lister_fails_soft test_str OpenAI.init test_post) eq_refl).
  - pose proof (proj1 (proj2 (proj2
        (lister_fails_soft test_str test_openai_valves
           (answering
              (VDict [("data",
                       VList (test_catalog
                              ++ [VDict [("object", VStr "model")]]))]))))))
      as H.
    refine (f_equal ret
              (H (mkResponse 200 "OK" EmptyString
                    (Ok (VDict [("data",
                                 VList (test_catalog
                                        ++ [VDict [("object", VStr "model")]]))]))
                    [] "https://api.openai.com/v1/models")
                 [("data",
                   VList (test_catalog ++ [VDict [("object", VStr "model")]]))]
                 test_catalog [("object", VStr "model")] []
                 _ eq_refl _ eq_refl eq_refl eq_refl)).
    + discriminate.
    + left. cbn. lia.
Defined.
